(** * pySuStaIn: the abstract SuStaIn engine ([AbstractSustain.py])

    A shallow embedding of the control logic of [AbstractSustain] and the
    properties of its specification.

    Conventions.
    - A [np.float64] is a primitive binary64 [float]; comparisons are the IEEE
      ones, so NaN behaves as it does under NumPy.
    - The abstract methods of the class ([_initialise_sequence],
      [_calculate_likelihood_stage], [_optimise_parameters], [_perform_mcmc],
      [_plot_sustain_model]) are section variables.  Those that draw random
      numbers take and return the state of the generator.
    - A Python exception is a value of [exn]; code that can raise returns a
      [result].  A [while] loop is run on fuel, and the statements say when
      the fuel suffices.
    - The purely arithmetical components (the likelihood engine, the
      proposal tuner and the static helpers) are stated over exact real
      arithmetic. *)

From Stdlib Require Import Floats ZArith Lia Reals Lra Sorted.
From stdpp Require Import gmap strings list pretty.

Set Default Proof Using "Type".

(** ** Python values and exceptions *)

Module Py.

Inductive exn : Type :=
| KeyError (key : string)
| UnboundLocalError (name : string)
| ValueError (msg : string)
| IndexError (msg : string).

(** The outcome of a call: a value, an exception, or [Diverges] when a loop of
    the model whose Python original has no bound of its own used up its fuel. *)
Inductive result (A : Type) : Type :=
| Ok (a : A)
| Raise (e : exn)
| Diverges.
Arguments Ok {A} a.
Arguments Raise {A} e.
Arguments Diverges {A}.

Definition bind {A B} (m : result A) (k : A → result B) : result B :=
  match m with
  | Ok a => k a
  | Raise e => Raise e
  | Diverges => Diverges
  end.

Definition is_ok {A} (m : result A) : bool :=
  match m with Ok _ => true | _ => false end.

(** [l[i]] for a non-negative index. *)
Definition getitem {A} (l : list A) (i : nat) : result A :=
  match l !! i with
  | Some x => Ok x
  | None => Raise (IndexError "index out of range")
  end.

(** [for x in xs: st = body(x, st)], stopping at the first exception. *)
Fixpoint for_each {A S} (body : A → S → result S) (xs : list A) (st : S) : result S :=
  match xs with
  | [] => Ok st
  | x :: xs' => bind (body x st) (for_each body xs')
  end.

(** [range(n)] *)
Definition range (n : nat) : list nat := seq 0 n.

(** [d[key]] on a dictionary with string keys. *)
Definition dict_get {V} (d : gmap string V) (key : string) : result V :=
  match d !! key with
  | Some v => Ok v
  | None => Raise (KeyError key)
  end.

Lemma for_each_app {A S} (body : A → S → result S) l r st :
  for_each body (l ++ r) st = bind (for_each body l st) (for_each body r).
Proof.
  revert st. induction l as [|x l IH]; intros st; [done|].
  cbn [app for_each]. destruct (body x st); [|done|done]. apply IH.
Qed.

Lemma for_each_invariant {A S} (P : S → Prop) (body : A → S → result S) xs :
  (∀ x st st', x ∈ xs → P st → body x st = Ok st' → P st') →
  ∀ st st', P st → for_each body xs st = Ok st' → P st'.
Proof.
  induction xs as [|x xs IH]; intros Hbody st st' HP H; cbn in H.
  - by injection H as <-.
  - destruct (body x st) as [st1| |] eqn:Hx; cbn in H; try discriminate.
    apply (IH (λ y s s' Hy, Hbody y s s' (list_elem_of_further _ _ _ Hy)) st1);
      [|done].
    apply (Hbody x st st1); [by left|done|done].
Qed.

Lemma range_S n : range (S n) = range n ++ [n].
Proof. unfold range. by rewrite seq_S. Qed.

End Py.

#[global] Instance result_ret : MRet Py.result := @Py.Ok.
#[global] Instance result_bind : MBind Py.result := λ A B k m, Py.bind m k.

(** ** IEEE binary64 comparisons *)

Module F64.

Local Open Scope float_scope.

(** The builtin [max(a, b)]: the first argument is kept unless the second
    compares greater. *)
Definition py_max (a b : float) : float := if a <? b then b else a.

Definition np_fabs (x : float) : float := abs x.
Definition np_isnan (x : float) : bool := is_nan x.

(** [x <= y] without NaN on either side. *)
Definition le (x y : float) : Prop := (x <=? y) = true.

Ltac cmp_cases :=
  repeat match goal with
  | H : context [Z.compare ?a ?b] |- _ => destruct (Z.compare_spec a b)
  | |- context [Z.compare ?a ?b] => destruct (Z.compare_spec a b)
  | H : context [Pos.compare_cont Eq ?a ?b] |- _ =>
      change (Pos.compare_cont Eq a b) with (Pos.compare a b) in *;
      destruct (Pos.compare_spec a b)
  | |- context [Pos.compare_cont Eq ?a ?b] =>
      change (Pos.compare_cont Eq a b) with (Pos.compare a b) in *;
      destruct (Pos.compare_spec a b)
  end.

Lemma SFcompare_opp x y c :
  SFcompare x y = Some c → SFcompare y x = Some (CompOpp c).
Proof.
  destruct x as [[]|[]| |[] m1 e1], y as [[]|[]| |[] m2 e2]; simpl;
    intros H; try discriminate; try (injection H as <-; reflexivity);
    injection H as <-; f_equal; cmp_cases; simpl; subst;
    try reflexivity; try lia.
Qed.

Lemma SFcompare_refl x : x ≠ S754_nan → SFcompare x x = Some Eq.
Proof.
  destruct x as [[]|[]| |[] m1 e1]; simpl; try congruence; intros _;
    rewrite Z.compare_refl;
    change (Pos.compare_cont Eq m1 m1) with (Pos.compare m1 m1);
    rewrite Pos.compare_refl; reflexivity.
Qed.

Lemma SFcompare_some x y :
  x ≠ S754_nan → y ≠ S754_nan → ∃ c, SFcompare x y = Some c.
Proof.
  destruct x as [[]|[]| |[] m1 e1], y as [[]|[]| |[] m2 e2]; simpl;
    intros Hx Hy; try congruence; eauto.
Qed.

Lemma SFcompare_none x y :
  SFcompare x y = None → x = S754_nan ∨ y = S754_nan.
Proof.
  destruct x as [[]|[]| |[] m1 e1], y as [[]|[]| |[] m2 e2]; simpl;
    intros H; try discriminate; auto.
Qed.

(** Composition of two comparisons that do not point in opposite directions. *)
Definition cmp_join (c1 c2 : comparison) : option comparison :=
  match c1, c2 with
  | Eq, c | c, Eq => Some c
  | Lt, Lt => Some Lt
  | Gt, Gt => Some Gt
  | _, _ => None
  end.

Lemma SFcompare_trans x y z c1 c2 c :
  SFcompare x y = Some c1 → SFcompare y z = Some c2 →
  cmp_join c1 c2 = Some c → SFcompare x z = Some c.
Proof.
  intros H1 H2 H3.
  destruct x as [[]|[]| |[] m1 e1], y as [[]|[]| |[] m2 e2],
    z as [[]|[]| |[] m3 e3]; simpl in *; try discriminate;
    cmp_cases; simplify_eq/=; try done; try lia.
Qed.

(** The comparison of two floats, read on their specification. *)
Definition cmp (x y : float) : option comparison :=
  SFcompare (Prim2SF x) (Prim2SF y).

Lemma ltb_cmp x y : (x <? y) = true ↔ cmp x y = Some Lt.
Proof.
  rewrite FloatAxioms.ltb_spec. unfold SFltb, cmp.
  destruct (SFcompare _ _) as [[]|]; split; congruence.
Qed.

Lemma leb_cmp x y : (x <=? y) = true ↔ cmp x y = Some Lt ∨ cmp x y = Some Eq.
Proof.
  rewrite FloatAxioms.leb_spec. unfold SFleb, cmp.
  destruct (SFcompare _ _) as [[]|]; split; intros; try tauto; try congruence;
    destruct H; congruence.
Qed.

Lemma eqb_cmp x y : (x =? y) = true ↔ cmp x y = Some Eq.
Proof.
  rewrite FloatAxioms.eqb_spec. unfold SFeqb, cmp.
  destruct (SFcompare _ _) as [[]|]; split; congruence.
Qed.

Lemma is_nan_cmp x : is_nan x = false ↔ Prim2SF x ≠ S754_nan.
Proof.
  unfold is_nan. rewrite negb_false_iff, eqb_cmp. unfold cmp. split.
  - intros H Hn. rewrite Hn in H. discriminate.
  - apply SFcompare_refl.
Qed.

Lemma cmp_opp x y c : cmp x y = Some c → cmp y x = Some (CompOpp c).
Proof. apply SFcompare_opp. Qed.

Lemma cmp_refl x : is_nan x = false → cmp x x = Some Eq.
Proof. rewrite is_nan_cmp. apply SFcompare_refl. Qed.

Lemma cmp_some x y :
  is_nan x = false → is_nan y = false → ∃ c, cmp x y = Some c.
Proof. rewrite !is_nan_cmp. apply SFcompare_some. Qed.

Lemma cmp_not_nan x y c :
  cmp x y = Some c → is_nan x = false ∧ is_nan y = false.
Proof.
  unfold cmp. rewrite !is_nan_cmp. intros H; split; intros Hn;
    rewrite Hn in H; simpl in H; [discriminate|].
  destruct (Prim2SF x); discriminate.
Qed.

Lemma cmp_trans x y z c1 c2 c :
  cmp x y = Some c1 → cmp y z = Some c2 → cmp_join c1 c2 = Some c →
  cmp x z = Some c.
Proof. apply SFcompare_trans. Qed.

Lemma ltb_irrefl x : (x <? x) = false.
Proof.
  apply not_true_is_false. rewrite ltb_cmp. intros H.
  destruct (cmp_not_nan _ _ _ H) as [Hx _].
  rewrite (cmp_refl _ Hx) in H. discriminate.
Qed.

Lemma ltb_asym x y : (x <? y) = true → (y <? x) = false.
Proof.
  rewrite ltb_cmp. intros H. apply not_true_is_false. rewrite ltb_cmp.
  rewrite (cmp_opp _ _ _ H). discriminate.
Qed.

Lemma ltb_trans x y z : (x <? y) = true → (y <? z) = true → (x <? z) = true.
Proof.
  rewrite !ltb_cmp. intros H1 H2. exact (cmp_trans _ _ _ _ _ _ H1 H2 eq_refl).
Qed.

Lemma ltb_leb x y : (x <? y) = true → (x <=? y) = true.
Proof. rewrite ltb_cmp, leb_cmp. auto. Qed.

Lemma eqb_leb x y : (x =? y) = true → (x <=? y) = true.
Proof. rewrite eqb_cmp, leb_cmp. auto. Qed.

Lemma leb_refl x : is_nan x = false → (x <=? x) = true.
Proof. intros H. rewrite leb_cmp, (cmp_refl _ H). auto. Qed.

Lemma leb_trans x y z : (x <=? y) = true → (y <=? z) = true → (x <=? z) = true.
Proof.
  rewrite !leb_cmp. intros [H1|H1] [H2|H2];
    [left|left|left|right]; exact (cmp_trans _ _ _ _ _ _ H1 H2 eq_refl).
Qed.


Lemma ltb_leb_trans x y z :
  (x <? y) = true → (y <=? z) = true → (x <? z) = true.
Proof.
  rewrite leb_cmp, !ltb_cmp. intros H1 [H2|H2];
    exact (cmp_trans _ _ _ _ _ _ H1 H2 eq_refl).
Qed.

Lemma ltb_not_nan x y :
  (x <? y) = true → is_nan x = false ∧ is_nan y = false.
Proof. rewrite ltb_cmp. apply cmp_not_nan. Qed.

Lemma leb_not_nan x y :
  (x <=? y) = true → is_nan x = false ∧ is_nan y = false.
Proof. rewrite leb_cmp. intros [H|H]; exact (cmp_not_nan _ _ _ H). Qed.

Lemma eqb_not_nan x y :
  (x =? y) = true → is_nan x = false ∧ is_nan y = false.
Proof. rewrite eqb_cmp. apply cmp_not_nan. Qed.


Lemma not_ltb_leb x y :
  is_nan x = false → is_nan y = false → (x <? y) = false → (y <=? x) = true.
Proof.
  intros Hx Hy H. destruct (cmp_some x y Hx Hy) as [c Hc].
  rewrite leb_cmp, (cmp_opp _ _ _ Hc).
  destruct c; simpl; auto.
  assert ((x <? y) = true) as E by (rewrite ltb_cmp; auto). congruence.
Qed.

Lemma leb_neq_ltb x y :
  (x <=? y) = true → (x =? y) = false → (x <? y) = true.
Proof.
  rewrite leb_cmp, ltb_cmp. intros [H|H] Hn; [done|].
  apply eqb_cmp in H. congruence.
Qed.

Lemma ltb_neq x y : (x <? y) = true → (x =? y) = false.
Proof.
  rewrite ltb_cmp. intros H. apply not_true_is_false. rewrite eqb_cmp.
  congruence.
Qed.

Lemma eqb_sym x y : (x =? y) = true → (y =? x) = true.
Proof. rewrite !eqb_cmp. intros H. exact (cmp_opp _ _ _ H). Qed.

Lemma leb_antisym x y :
  (x <=? y) = true → (y <=? x) = true → (x =? y) = true.
Proof.
  intros H1 H2. destruct (x =? y) eqn:E; [done|].
  pose proof (leb_neq_ltb _ _ H1 E) as Hlt.
  apply ltb_cmp in Hlt. apply leb_cmp in H2.
  rewrite (cmp_opp _ _ _ Hlt) in H2. destruct H2; discriminate.
Qed.

Lemma py_max_cases a b :
  (py_max a b = b ∧ (a <? b) = true) ∨ (py_max a b = a ∧ (a <? b) = false).
Proof. unfold py_max. destruct (a <? b); auto. Qed.

(** *** NaN through the arithmetic *)

Lemma is_nan_true x : is_nan x = true ↔ Prim2SF x = S754_nan.
Proof.
  split; intros H.
  - destruct (Prim2SF x) eqn:E; try reflexivity; exfalso;
      (assert (is_nan x = false) as Hn
         by (apply is_nan_cmp; rewrite E; discriminate));
      congruence.
  - destruct (is_nan x) eqn:E; [done|]. apply is_nan_cmp in E. contradiction.
Qed.

Lemma is_nan_sub x y :
  is_nan x = true ∨ is_nan y = true → is_nan (x - y) = true.
Proof.
  rewrite !is_nan_true, FloatAxioms.sub_spec. intros [H|H]; rewrite H.
  - reflexivity.
  - unfold SF64sub, SFsub. destruct (Prim2SF x) as [[]|[]| |[]]; reflexivity.
Qed.

Lemma is_nan_div_l x y : is_nan x = true → is_nan (x / y) = true.
Proof. rewrite !is_nan_true, FloatAxioms.div_spec. by intros ->. Qed.

Lemma is_nan_abs x : is_nan x = true → is_nan (abs x) = true.
Proof. rewrite !is_nan_true, FloatAxioms.abs_spec. by intros ->. Qed.

Lemma ltb_nan_l x y : is_nan x = true → (x <? y) = false.
Proof.
  intros H. destruct (x <? y) eqn:E; [|done].
  apply ltb_not_nan in E as [E _]. congruence.
Qed.

Lemma ltb_nan_r x y : is_nan y = true → (x <? y) = false.
Proof.
  intros H. destruct (x <? y) eqn:E; [|done].
  apply ltb_not_nan in E as [_ E]. congruence.
Qed.

Lemma leb_nan_l x y : is_nan x = true → (x <=? y) = false.
Proof.
  intros H. destruct (x <=? y) eqn:E; [|done].
  apply leb_not_nan in E as [E _]. congruence.
Qed.

Lemma eqb_nan_r x y : is_nan y = true → (x =? y) = false.
Proof.
  intros H. destruct (x =? y) eqn:E; [|done].
  apply eqb_not_nan in E as [_ E]. congruence.
Qed.

Lemma py_max_nan_l a b : is_nan a = true → py_max a b = a.
Proof. intros H. unfold py_max. by rewrite ltb_nan_l. Qed.

End F64.

(** ** The EM-style optimiser: [_perform_em] *)

Module EM.

Section PerformEM.
Context {SustainData Sequence Fraction Rng : Type}.

(** The [loglike] output of [_calculate_likelihood]. *)
Variable calculate_likelihood : SustainData → Sequence → Fraction → float.
(** The abstract method [_optimise_parameters]. *)
Variable optimise_parameters :
  SustainData → Sequence → Fraction → Rng → Sequence * Fraction * float * Rng.

Definition MaxIter : nat := 100.

(** The local variables of [_perform_em].  The three [samples_*] arrays are
    allocated with [MaxIter] rows of NaN; a row of [samples_sequence] or
    [samples_f] that still holds NaN is [None]. *)
Record em_state : Type := EmState {
  terminate : bool;
  iteration : nat;
  current_sequence : Sequence;
  current_f : Fraction;
  current_likelihood : float;
  samples_sequence : list (option Sequence);
  samples_f : list (option Fraction);
  samples_likelihood : list float;
  rng : Rng
}.

(** [np.fabs((candidate - current) / max(candidate, current)) < 1e-6];
    the literal is the binary64 value nearest to 1e-6. *)
Definition HAS_converged (candidate_likelihood current_likelihood : float) : bool :=
  (F64.np_fabs ((candidate_likelihood - current_likelihood)
                / F64.py_max candidate_likelihood current_likelihood)
   <? 0x1.0c6f7a0b5ed8dp-20)%float.

(** The state on entry to the [while] loop. *)
Definition em_init (sustainData : SustainData) (seq_init : Sequence)
    (f_init : Fraction) (g : Rng) : em_state :=
  let ll := calculate_likelihood sustainData seq_init f_init in
  {| terminate := false;
     iteration := 0;
     current_sequence := seq_init;
     current_f := f_init;
     current_likelihood := ll;
     samples_sequence := <[0 := Some seq_init]> (replicate MaxIter None);
     samples_f := <[0 := Some f_init]> (replicate MaxIter None);
     samples_likelihood := <[0 := ll]> (replicate MaxIter nan);
     rng := g |}.

(** One pass through the body of the [while] loop. *)
Definition em_body (sustainData : SustainData) (st : em_state) : em_state :=
  let '(candidate_sequence, candidate_f, candidate_likelihood, g) :=
    optimise_parameters sustainData (current_sequence st) (current_f st) (rng st) in
  let converged := HAS_converged candidate_likelihood (current_likelihood st) in
  let '(seq, f, ll) :=
    if converged then
      (current_sequence st, current_f st, current_likelihood st)
    else if (current_likelihood st <? candidate_likelihood)%float then
      (candidate_sequence, candidate_f, candidate_likelihood)
    else
      (current_sequence st, current_f st, current_likelihood st) in
  let terminate1 := if converged then true else terminate st in
  {| terminate := if Nat.eqb (iteration st) (MaxIter - 1) then true else terminate1;
     iteration := iteration st + 1;
     current_sequence := seq;
     current_f := f;
     current_likelihood := ll;
     samples_sequence := <[iteration st := Some seq]> (samples_sequence st);
     samples_f := <[iteration st := Some f]> (samples_f st);
     samples_likelihood := <[iteration st := ll]> (samples_likelihood st);
     rng := g |}.

(** [while terminate == 0: body]. *)
Fixpoint em_while (sustainData : SustainData) (fuel : nat) (st : em_state) : em_state :=
  if terminate st then st
  else match fuel with
       | 0 => st
       | S fuel' => em_while sustainData fuel' (em_body sustainData st)
       end.

Definition perform_em (sustainData : SustainData) (current_sequence0 : Sequence)
    (current_f0 : Fraction) (g : Rng)
  : Sequence * Fraction * float
    * list (option Sequence) * list (option Fraction) * list float * Rng :=
  let st := em_while sustainData MaxIter
              (em_init sustainData current_sequence0 current_f0 g) in
  (current_sequence st, current_f st, current_likelihood st,
   samples_sequence st, samples_f st, samples_likelihood st, rng st).

(** *** Vocabulary of the statements *)

(** The (sequence, fraction, likelihood) triple that is current in a state,
    and the one proposed from it. *)
Definition current (st : em_state) : Sequence * Fraction * float :=
  (current_sequence st, current_f st, current_likelihood st).

Definition candidate (sustainData : SustainData) (st : em_state)
  : Sequence * Fraction * float :=
  (optimise_parameters sustainData (current_sequence st) (current_f st) (rng st)).1.

Definition converged_at (sustainData : SustainData) (st : em_state) : bool :=
  HAS_converged (candidate sustainData st).2 (current_likelihood st).

(** The state after [k] passes through the loop body. *)
Definition after (sustainData : SustainData) (st0 : em_state) (k : nat) : em_state :=
  Nat.iter k (em_body sustainData) st0.

(** The number of passes a call executes. *)
Definition iterations_run (sustainData : SustainData) (seq_init : Sequence)
    (f_init : Fraction) (g : Rng) : nat :=
  iteration (em_while sustainData MaxIter (em_init sustainData seq_init f_init g)).

(** The convergence test as the specification words it:
    [|ll' - ll| / max(ll', ll) < 1e-6]. *)
Definition converged_as_worded (candidate_likelihood current_likelihood : float) : bool :=
  (abs (candidate_likelihood - current_likelihood)
   / F64.py_max candidate_likelihood current_likelihood
   <? 0x1.0c6f7a0b5ed8dp-20)%float.

(** "Terminates after at most 100 iterations, and earlier exactly when the
    test [conv] holds": pass [i] is the last one iff the test holds at it or
    it is pass number 100. *)
Definition stops_exactly_when (conv : float → float → bool)
    (sustainData : SustainData) (seq_init : Sequence) (f_init : Fraction)
    (g : Rng) : Prop :=
  let st0 := em_init sustainData seq_init f_init g in
  let n := iterations_run sustainData seq_init f_init g in
  n ≤ MaxIter ∧
  ∀ i, i < n →
    (n = i + 1 ↔
     conv (candidate sustainData (after sustainData st0 i)).2
          (current_likelihood (after sustainData st0 i)) = true
     ∨ i = MaxIter - 1).

(** *** The loop body *)

Lemma em_body_iteration d st : iteration (em_body d st) = iteration st + 1.
Proof.
  unfold em_body. destruct (optimise_parameters _ _ _ _) as [[[cs cf] cl] g].
  destruct (HAS_converged _ _); [|destruct (_ <? _)%float]; reflexivity.
Qed.

Lemma em_body_terminate d st :
  terminate st = false →
  terminate (em_body d st)
  = converged_at d st || Nat.eqb (iteration st) (MaxIter - 1).
Proof.
  intros Ht. unfold converged_at, candidate, em_body.
  destruct (optimise_parameters _ _ _ _) as [[[cs cf] cl] g]. simpl.
  destruct (HAS_converged _ _); [|destruct (_ <? _)%float]; simpl;
    rewrite ?Ht; destruct (Nat.eqb _ _); reflexivity.
Qed.

(** The accept-if-improving rule. *)
Lemma em_body_current d st :
  (current (em_body d st) = candidate d st
   ∧ (current_likelihood st <? (candidate d st).2)%float = true)
  ∨ current (em_body d st) = current st.
Proof.
  unfold current, candidate, em_body.
  destruct (optimise_parameters _ _ _ _) as [[[cs cf] cl] g]. simpl.
  destruct (HAS_converged _ _); [right; reflexivity|].
  destruct (_ <? _)%float; [left; split; reflexivity|].
  right; reflexivity.
Qed.

Lemma em_body_keep d st :
  (current_likelihood st <? (candidate d st).2)%float = false →
  current (em_body d st) = current st.
Proof.
  intros H. destruct (em_body_current d st) as [[_ E]|E]; [congruence|done].
Qed.

Lemma em_body_samples_likelihood d st :
  samples_likelihood (em_body d st)
  = <[iteration st := current_likelihood (em_body d st)]> (samples_likelihood st).
Proof.
  unfold em_body. destruct (optimise_parameters _ _ _ _) as [[[cs cf] cl] g].
  destruct (HAS_converged _ _); [|destruct (_ <? _)%float]; reflexivity.
Qed.

(** The likelihood never goes down in a pass: it stays, or strictly grows. *)
Definition stays_or_grows (a b : float) : Prop := a = b ∨ (a <? b)%float = true.

Lemma stays_or_grows_trans a b c :
  stays_or_grows a b → stays_or_grows b c → stays_or_grows a c.
Proof.
  intros [->|H1] [->|H2]; [by left|by right|by right|right].
  eapply F64.ltb_trans; eauto.
Qed.

Lemma stays_or_grows_not_down a b : stays_or_grows a b → (b <? a)%float = false.
Proof. intros [->|H]; [apply F64.ltb_irrefl|by apply F64.ltb_asym]. Qed.

Lemma stays_or_grows_leb a b :
  is_nan a = false → stays_or_grows a b → (a <=? b)%float = true.
Proof. intros Ha [<-|H]; [by apply F64.leb_refl|by apply F64.ltb_leb]. Qed.

Lemma em_body_likelihood d st :
  stays_or_grows (current_likelihood st) (current_likelihood (em_body d st)).
Proof.
  destruct (em_body_current d st) as [[E H]|E].
  - right. replace (current_likelihood (em_body d st)) with (candidate d st).2;
      [done|]. by rewrite <- E.
  - left. unfold current in E. congruence.
Qed.

(** *** The loop *)

Lemma after_S d st k : after d st (S k) = em_body d (after d st k).
Proof. reflexivity. Qed.

Lemma after_succ_r d st k : after d st (S k) = after d (em_body d st) k.
Proof. unfold after. apply Nat.iter_succ_r. Qed.

Lemma after_iteration d st k : iteration (after d st k) = iteration st + k.
Proof.
  induction k as [|k IH]; [simpl; lia|].
  rewrite after_S, em_body_iteration, IH. lia.
Qed.

Lemma em_while_terminated d fuel st :
  terminate st = true → em_while d fuel st = st.
Proof. intros H. destruct fuel; simpl; rewrite H; reflexivity. Qed.

(** From a state in which the loop is still running, [MaxIter - iteration]
    units of fuel are enough: the loop leaves through its own exit test, after
    [n] passes, and pass [i] is the last one exactly when the convergence test
    holds at it or it is pass number [MaxIter]. *)
Lemma em_while_run d fuel : ∀ st,
  terminate st = false → iteration st < MaxIter →
  MaxIter ≤ iteration st + fuel →
  ∃ n, 0 < n ∧ iteration st + n ≤ MaxIter ∧
       em_while d fuel st = after d st n ∧
       terminate (after d st n) = true ∧
       (∀ i, i < n → terminate (after d st i) = false) ∧
       (∀ i, i < n →
          (n = i + 1 ↔
           converged_at d (after d st i) = true
           ∨ iteration st + i = MaxIter - 1)).
Proof.
  induction fuel as [|fuel IH]; intros st Ht Hlt Hfuel; [unfold MaxIter in *; lia|].
  simpl. rewrite Ht.
  pose proof (em_body_terminate d st Ht) as Hb.
  destruct (terminate (em_body d st)) eqn:Hterm.
  - exists 1. split; [unfold MaxIter in *; lia|]. split; [unfold MaxIter in *; lia|].
    split; [by apply em_while_terminated|]. split; [exact Hterm|].
    split; intros i Hi; assert (i = 0) as -> by (unfold MaxIter in *; lia); simpl; [done|].
    split; [intros _|(unfold MaxIter in *; lia)].
    symmetry in Hb. apply orb_true_iff in Hb as [Hb|Hb]; [by left|right].
    apply Nat.eqb_eq in Hb. (unfold MaxIter in *; lia).
  - symmetry in Hb. apply orb_false_iff in Hb as [Hconv Hlast].
    apply Nat.eqb_neq in Hlast.
    destruct (IH (em_body d st) Hterm) as (n & Hn & Hle & Hrun & Hfin & Hrunning & Hstop).
    { rewrite em_body_iteration. unfold MaxIter in *. (unfold MaxIter in *; lia). }
    { rewrite em_body_iteration. (unfold MaxIter in *; lia). }
    rewrite em_body_iteration in Hle.
    exists (S n). split; [unfold MaxIter in *; lia|]. split; [unfold MaxIter in *; lia|].
    rewrite after_succ_r. split; [exact Hrun|]. split; [exact Hfin|].
    split; intros [|i] Hi; simpl.
    + exact Ht.
    + change (terminate (after d st (S i)) = false).
      rewrite after_succ_r. apply Hrunning. (unfold MaxIter in *; lia).
    + split; [unfold MaxIter in *; lia|]. intros [H|H]; [congruence|(unfold MaxIter in *; lia)].
    + change (S n = S i + 1 ↔
              converged_at d (after d st (S i)) = true
              ∨ iteration st + S i = MaxIter - 1).
      rewrite after_succ_r.
      destruct (Hstop i ltac:(lia)) as [H1 H2].
      rewrite em_body_iteration in H1, H2.
      split.
      * intros E. destruct H1 as [H1|H1]; [(unfold MaxIter in *; lia)|by left|right; (unfold MaxIter in *; lia)].
      * intros [H|H]; [|assert (n = i + 1) by (apply H2; right; (unfold MaxIter in *; lia)); (unfold MaxIter in *; lia)].
        assert (n = i + 1) by (apply H2; by left). (unfold MaxIter in *; lia).
Qed.

Lemma em_init_running d seq f g :
  terminate (em_init d seq f g) = false ∧ iteration (em_init d seq f g) = 0.
Proof. done. Qed.

Lemma perform_em_run d seq f g :
  let st0 := em_init d seq f g in
  let n := iterations_run d seq f g in
  0 < n ∧ n ≤ MaxIter ∧
  em_while d MaxIter st0 = after d st0 n ∧
  terminate (after d st0 n) = true ∧
  (∀ i, i < n →
     (n = i + 1 ↔
      converged_at d (after d st0 i) = true ∨ i = MaxIter - 1)).
Proof.
  intros st0 n.
  destruct (em_while_run d MaxIter st0) as (k & Hk & Hle & Hrun & Hfin & _ & Hstop);
    [done|unfold MaxIter; simpl; lia|simpl; lia|].
  assert (n = k) as ->.
  { unfold n, iterations_run. fold st0. rewrite Hrun, after_iteration.
    reflexivity. }
  simpl in Hle. do 4 (split; [done|]). exact Hstop.
Qed.

(** *** The recorded trace *)

Lemma after_samples_likelihood d st0 k :
  iteration st0 = 0 → length (samples_likelihood st0) = MaxIter → k ≤ MaxIter →
  length (samples_likelihood (after d st0 k)) = MaxIter ∧
  ∀ i, i < k →
    samples_likelihood (after d st0 k) !! i
    = Some (current_likelihood (after d st0 (S i))).
Proof.
  intros H0 Hlen. induction k as [|k IH]; intros Hk; [split; [done|lia]|].
  destruct IH as [IHlen IH]; [lia|].
  rewrite after_S, em_body_samples_likelihood, after_iteration, H0. simpl.
  split; [by rewrite length_insert|].
  intros i Hi. destruct (decide (i = k)) as [->|Hne].
  - rewrite list_lookup_insert_eq by lia. reflexivity.
  - rewrite list_lookup_insert_ne by done. apply IH. lia.
Qed.

Lemma after_likelihood_mono d st i j :
  i ≤ j →
  stays_or_grows (current_likelihood (after d st i))
                 (current_likelihood (after d st j)).
Proof.
  induction 1 as [|j Hij IH]; [by left|].
  eapply stays_or_grows_trans; [exact IH|]. rewrite after_S.
  apply em_body_likelihood.
Qed.

Lemma after_likelihood_not_nan d st k :
  is_nan (current_likelihood st) = false →
  is_nan (current_likelihood (after d st k)) = false.
Proof.
  intros H. destruct (after_likelihood_mono d st 0 k ltac:(lia)) as [E|E].
  - simpl in E. by rewrite <- E.
  - by apply F64.ltb_not_nan in E as [_ ?].
Qed.

(** C1. In every pass the candidate replaces the current (sequence,
    fraction, likelihood) only if its likelihood is strictly greater than
    the current one, and the current triple is kept otherwise; hence, over
    the passes actually executed, the likelihoods recorded in
    [samples_likelihood] never decrease: a later entry equals an earlier one
    or is strictly greater (and is [>=] it whenever the earlier is a number). *)
Theorem perform_em_accepts_only_improvements d seq f g :
  let st0 := em_init d seq f g in
  let n := iterations_run d seq f g in
  let '(_, _, _, _, _, trace, _) := perform_em d seq f g in
  (∀ i, i < n →
     let st := after d st0 i in
     ((current (em_body d st) = candidate d st
       ∧ (current_likelihood st <? (candidate d st).2)%float = true)
      ∨ current (em_body d st) = current st)
     ∧ ((current_likelihood st <? (candidate d st).2)%float = false →
        current (em_body d st) = current st))
  ∧ (∀ i j, i ≤ j → j < n →
       ∃ a b, trace !! i = Some a ∧ trace !! j = Some b ∧
              stays_or_grows a b ∧ (b <? a)%float = false ∧
              (is_nan a = false → (a <=? b)%float = true)).
Proof.
  intros st0 n. unfold perform_em. fold st0. split.
  - intros i _. split; [apply em_body_current|apply em_body_keep].
  - intros i j Hij Hj.
    destruct (perform_em_run d seq f g) as (Hn & Hle & Hrun & _).
    fold st0 n in Hle, Hrun. rewrite Hrun.
    destruct (after_samples_likelihood d st0 n) as [_ Hs]; [done|done|done|].
    exists (current_likelihood (after d st0 (S i))),
           (current_likelihood (after d st0 (S j))).
    split; [apply Hs; lia|]. split; [apply Hs; lia|].
    pose proof (after_likelihood_mono d st0 (S i) (S j) ltac:(lia)) as Hm.
    split; [exact Hm|]. split; [by apply stays_or_grows_not_down|].
    intros Ha. by apply stays_or_grows_leb.
Qed.

(** C3, as amended.  A call executes at least one and at most [MaxIter] = 100
    passes and leaves the loop through its exit test; pass [i] is the last one
    exactly when [|(ll' - ll) / max(ll', ll)| < 1e-6] at that pass (the
    absolute value of the whole quotient) or it is pass number 100. *)
Theorem perform_em_stops_when_converged d seq f g :
  stops_exactly_when HAS_converged d seq f g
  ∧ 0 < iterations_run d seq f g
  ∧ terminate (em_while d MaxIter (em_init d seq f g)) = true.
Proof.
  destruct (perform_em_run d seq f g) as (Hn & Hle & Hrun & Hfin & Hstop).
  split; [split; [exact Hle|exact Hstop]|]. split; [exact Hn|].
  rewrite Hrun. exact Hfin.
Qed.

(** *** The arrays of samples *)

(** After [k >= 1] passes, rows [0 .. k-1] of the three arrays hold what was
    current at the end of each pass, and the rows from [k] on still hold the
    NaN they were allocated with. *)
Lemma after_samples d seq f g k :
  let st := after d (em_init d seq f g) k in
  k ≤ MaxIter →
  length (samples_likelihood st) = MaxIter
  ∧ length (samples_sequence st) = MaxIter
  ∧ length (samples_f st) = MaxIter
  ∧ (0 < k →
     samples_likelihood st !! (k - 1) = Some (current_likelihood st)
     ∧ samples_sequence st !! (k - 1) = Some (Some (current_sequence st))
     ∧ samples_f st !! (k - 1) = Some (Some (current_f st)))
  ∧ (∀ i, k ≤ i → 0 < i → i < MaxIter →
       samples_likelihood st !! i = Some nan
       ∧ samples_sequence st !! i = Some None
       ∧ samples_f st !! i = Some None).
Proof.
  induction k as [|k IH]; intros st Hk.
  - subst st. change (after d (em_init d seq f g) 0) with (em_init d seq f g).
    unfold em_init. cbn [samples_likelihood samples_sequence samples_f].
    rewrite !length_insert, !length_replicate. do 3 (split; [done|]).
    split; [lia|]. intros i _ Hi Hlt.
    rewrite !list_lookup_insert_ne by lia.
    by rewrite !lookup_replicate_2 by done.
  - destruct IH as (L1 & L2 & L3 & _ & Hpad); [lia|].
    subst st. rewrite after_S.
    set (st := after d (em_init d seq f g) k) in *.
    assert (iteration st = k) as Hit.
    { subst st. by rewrite after_iteration. }
    unfold em_body.
    destruct (optimise_parameters _ _ _ _) as [[[cs cf] cl] g'].
    destruct (if HAS_converged cl (current_likelihood st)
              then (current_sequence st, current_f st, current_likelihood st)
              else if (current_likelihood st <? cl)%float
                   then (cs, cf, cl)
                   else (current_sequence st, current_f st, current_likelihood st))
      as [[s' f'] ll'].
    cbn [samples_likelihood samples_sequence samples_f current_likelihood
         current_sequence current_f].
    rewrite Hit, !length_insert. do 3 (split; [done|]).
    replace (S k - 1) with k by lia. split.
    + intros _. by rewrite !list_lookup_insert_eq by lia.
    + intros i Hi H0 Hlt. rewrite !list_lookup_insert_ne by lia.
      apply Hpad; lia.
Qed.

(** X1. [_perform_em] returns the last row it recorded: after [n] passes the
    returned likelihood, sequence and fractions are row [n - 1] of
    [samples_likelihood], [samples_sequence] and [samples_f]; each array has
    [MaxIter] = 100 rows, and the rows from [n] on are still the NaN they were
    allocated with. *)
Theorem perform_em_returns_last_sample d seq f g :
  let n := iterations_run d seq f g in
  let '(ml_sequence, ml_f, ml_likelihood, ss, sf, trace, _) := perform_em d seq f g in
  length trace = MaxIter ∧ length ss = MaxIter ∧ length sf = MaxIter
  ∧ trace !! (n - 1) = Some ml_likelihood
  ∧ ss !! (n - 1) = Some (Some ml_sequence)
  ∧ sf !! (n - 1) = Some (Some ml_f)
  ∧ ∀ i, n ≤ i → i < MaxIter →
      trace !! i = Some nan ∧ ss !! i = Some None ∧ sf !! i = Some None.
Proof.
  intros n. unfold perform_em.
  destruct (perform_em_run d seq f g) as (Hn & Hle & Hrun & _).
  fold n in Hn, Hle, Hrun. rewrite Hrun.
  destruct (after_samples d seq f g n Hle) as (L1 & L2 & L3 & Hlast & Hpad).
  destruct (Hlast Hn) as (H1 & H2 & H3).
  do 3 (split; [done|]). do 3 (split; [done|]).
  intros i Hi Hlt. apply Hpad; [done|lia|done].
Qed.

(** *** The result against the starting point *)

Lemma after_current d st k :
  current (after d st k) = current st
  ∨ (current_likelihood st <? current_likelihood (after d st k))%float = true.
Proof.
  induction k as [|k IH]; [by left|]. rewrite after_S.
  destruct (em_body_current d (after d st k)) as [[E H]|E].
  - right.
    replace (current_likelihood (em_body d (after d st k)))
      with (candidate d (after d st k)).2 by (by rewrite <- E).
    destruct IH as [IH|IH].
    + replace (current_likelihood st) with (current_likelihood (after d st k));
        [done|]. unfold current in IH. congruence.
    + by eapply F64.ltb_trans.
  - destruct IH as [IH|IH]; [left; congruence|right].
    replace (current_likelihood (em_body d (after d st k)))
      with (current_likelihood (after d st k)); [done|].
    unfold current in E. congruence.
Qed.

(** X2. [_perform_em] never returns a point worse than the one it started
    from: it returns the initial sequence, fractions and likelihood unchanged,
    or a point whose likelihood is strictly greater than the initial one. *)
Theorem perform_em_never_worse d seq f g :
  let ll0 := calculate_likelihood d seq f in
  let '(ml_sequence, ml_f, ml_likelihood, _, _, _, _) := perform_em d seq f g in
  ((ml_sequence, ml_f, ml_likelihood) = (seq, f, ll0)
   ∨ (ll0 <? ml_likelihood)%float = true)
  ∧ (is_nan ll0 = false → (ll0 <=? ml_likelihood)%float = true).
Proof.
  intros ll0. unfold perform_em.
  destruct (perform_em_run d seq f g) as (_ & _ & Hrun & _). rewrite Hrun.
  set (n := iterations_run d seq f g).
  destruct (after_current d (em_init d seq f g) n) as [E|E].
  - unfold current in E. cbn [em_init current_sequence current_f
                                current_likelihood] in E.
    fold ll0 in E. split; [by left|].
    intros Hn. injection E as _ _ ->. by apply F64.leb_refl.
  - cbn [em_init current_likelihood] in E. fold ll0 in E.
    split; [by right|]. intros _. by apply F64.ltb_leb.
Qed.

(** *** NaN likelihoods *)

Lemma HAS_converged_nan a b :
  is_nan a = true ∨ is_nan b = true → HAS_converged a b = false.
Proof.
  intros H. unfold HAS_converged, F64.np_fabs.
  apply F64.ltb_nan_l, F64.is_nan_abs, F64.is_nan_div_l, F64.is_nan_sub, H.
Qed.

Lemma em_body_nan d st :
  is_nan (candidate d st).2 = true ∨ is_nan (current_likelihood st) = true →
  converged_at d st = false ∧ current (em_body d st) = current st.
Proof.
  intros H. split; [by apply HAS_converged_nan|].
  apply em_body_keep. destruct H as [H|H];
    [by apply F64.ltb_nan_r|by apply F64.ltb_nan_l].
Qed.

Lemma after_nan_start d st k :
  is_nan (current_likelihood st) = true → current (after d st k) = current st.
Proof.
  intros H. induction k as [|k IH]; [done|]. rewrite after_S.
  destruct (em_body_nan d (after d st k)) as [_ E]; [|congruence].
  right. unfold current in IH. congruence.
Qed.

(** X3. A NaN likelihood never ends the loop and is never adopted.  A pass in
    which the candidate's or the current likelihood is NaN fails the
    convergence test and keeps the current triple; so a call whose starting
    point has a NaN likelihood runs all [MaxIter] = 100 passes and returns the
    starting point. *)
Theorem perform_em_nan_never_converges d seq f g :
  (∀ st, is_nan (candidate d st).2 = true ∨ is_nan (current_likelihood st) = true →
         converged_at d st = false ∧ current (em_body d st) = current st)
  ∧ (is_nan (calculate_likelihood d seq f) = true →
     iterations_run d seq f g = MaxIter
     ∧ (perform_em d seq f g).1.1.1.1
       = (seq, f, calculate_likelihood d seq f)).
Proof.
  split; [apply em_body_nan|]. intros Hnan.
  destruct (perform_em_run d seq f g) as (Hn & Hle & Hrun & _ & Hstop).
  set (n := iterations_run d seq f g) in *.
  set (st0 := em_init d seq f g) in *. split.
  - destruct (Hstop (n - 1) ltac:(lia)) as [Hlast _].
    destruct Hlast as [Hconv|Hmax]; [lia| |lia].
    destruct (em_body_nan d (after d st0 (n - 1))) as [Hc _]; [|congruence].
    right. pose proof (after_nan_start d st0 (n - 1) Hnan) as E.
    unfold current in E. injection E as _ _ ->. exact Hnan.
  - unfold perform_em. fold st0. rewrite Hrun. cbn [fst].
    exact (after_nan_start d st0 n Hnan).
Qed.

End PerformEM.


(** A run on which the wording of the specification and the code part ways:
    the log-likelihood starts at -100 and every candidate has -50. *)
Definition start_at_minus_100 (_ _ _ : unit) : float := (-100)%float.
Definition always_minus_50 (_ _ _ _ : unit) : unit * unit * float * unit :=
  (tt, tt, (-50)%float, tt).

Example two_passes :
  iterations_run start_at_minus_100 always_minus_50 tt tt tt tt = 2.
Proof. vm_compute. reflexivity. Qed.

(** C3, as worded, fails.  At the first pass [|ll' - ll| / max(ll', ll)] is
    [50 / -50 = -1 < 1e-6], yet the loop goes on to a second pass: the code
    takes the absolute value of the quotient, which is 1. *)
Lemma perform_em_wording_counterexample :
  ¬ stops_exactly_when start_at_minus_100 always_minus_50 converged_as_worded
      tt tt tt tt.
Proof.
  unfold stops_exactly_when. rewrite two_passes. intros [_ H].
  destruct (H 0 ltac:(lia)) as [_ H2].
  assert (2 = 0 + 1) as E; [|lia].
  apply H2. left. vm_compute. reflexivity.
Qed.

(** A run that starts from a point whose likelihood is NaN. *)
Definition nan_at_start (_ _ _ : unit) : float := nan.

Lemma perform_em_nan_never_converges_witness :
  iterations_run nan_at_start always_minus_50 tt tt tt tt = 100
  ∧ (perform_em nan_at_start always_minus_50 tt tt tt tt).1.1.1.1 = (tt, tt, nan).
Proof.
  exact (proj2 (perform_em_nan_never_converges nan_at_start always_minus_50
                  tt tt tt tt) eq_refl).
Defined.

End EM.

(** ** Selecting the best of a vector of likelihoods *)

Module Np.

(** [np.argmax] on float64: the running maximum is replaced when the next
    entry is not [<=] it, and a NaN ends the scan. *)
Fixpoint argmax_loop (mp : float) (max_ind i : nat) (ip : list float) : nat :=
  match ip with
  | [] => max_ind
  | x :: rest =>
      if negb (x <=? mp)%float then
        if is_nan x then i else argmax_loop x i (S i) rest
      else argmax_loop mp max_ind (S i) rest
  end.

Definition argmax (ip : list float) : Py.result nat :=
  match ip with
  | [] => Py.Raise (Py.ValueError "attempt to get argmax of an empty sequence")
  | x :: rest => Py.Ok (if is_nan x then 0 else argmax_loop x 0 1 rest)
  end.

(** The builtin [max(iterable)]: an item replaces the running maximum when it
    compares greater. *)
Definition py_max_list (items : list float) : Py.result float :=
  match items with
  | [] => Py.Raise (Py.ValueError "max() arg is an empty sequence")
  | x :: rest => Py.Ok (fold_left F64.py_max rest x)
  end.

(** [np.where(mask)[0]]: the indices of the true entries, ascending. *)
Fixpoint where_from (i : nat) (mask : list bool) : list nat :=
  match mask with
  | [] => []
  | b :: rest => if b then i :: where_from (S i) rest else where_from (S i) rest
  end.

Definition np_where (mask : list bool) : list nat := where_from 0 mask.

(** [a == v], elementwise. *)
Definition eq_mask (a : list float) (v : float) : list bool :=
  (λ x, (x =? v)%float) <$> a.

(** *** What "the first maximum" means *)

Definition no_nan (l : list float) : Prop := Forall (λ x, is_nan x = false) l.

(** [i] is the lowest index at which [l] attains its maximum. *)
Definition first_max (l : list float) (i : nat) : Prop :=
  ∃ x, l !! i = Some x
       ∧ (∀ j y, l !! j = Some y → (y <=? x)%float = true)
       ∧ (∀ j y, j < i → l !! j = Some y → (y <? x)%float = true).

(** [i] is an index at which [l] attains its maximum. *)
Definition attains_max (l : list float) (i : nat) : Prop :=
  ∃ x, l !! i = Some x ∧ ∀ j y, l !! j = Some y → (y <=? x)%float = true.

Lemma first_max_unique l i j : first_max l i → first_max l j → i = j.
Proof.
  intros (x & Hx & Hmax & Hfirst) (y & Hy & Hmax' & Hfirst').
  destruct (Nat.lt_total i j) as [H|[H|H]]; [|done|].
  - pose proof (Hfirst' _ _ H Hx) as H1. pose proof (Hmax' _ _ Hx) as H2.
    pose proof (Hmax _ _ Hy) as H3.
    pose proof (F64.ltb_leb_trans _ _ _ H1 H3) as H4.
    rewrite F64.ltb_irrefl in H4. discriminate.
  - pose proof (Hfirst _ _ H Hy) as H1. pose proof (Hmax' _ _ Hx) as H3.
    pose proof (F64.ltb_leb_trans _ _ _ H1 H3) as H4.
    rewrite F64.ltb_irrefl in H4. discriminate.
Qed.



Lemma py_max_fold_spec rest : ∀ x,
  no_nan (x :: rest) →
  let m := fold_left F64.py_max rest x in
  m ∈ x :: rest ∧ ∀ y, y ∈ x :: rest → (y <=? m)%float = true.
Proof.
  induction rest as [|z rest IH]; intros x Hnan; simpl.
  - split; [by apply list_elem_of_singleton|].
    intros y Hy. apply list_elem_of_singleton in Hy as ->.
    apply F64.leb_refl. by inversion Hnan.
  - inversion Hnan as [|? ? Hx Hrest]; subst.
    inversion Hrest as [|? ? Hz Hrest']; subst.
    destruct (F64.py_max_cases x z) as [[E Hlt]|[E Hlt]]; rewrite E.
    + destruct (IH z Hrest) as [Hin Hmax]. split.
      * apply elem_of_cons. by right.
      * intros y Hy. apply elem_of_cons in Hy as [->|Hy]; [|by apply Hmax].
        apply F64.leb_trans with z; [by apply F64.ltb_leb|].
        apply Hmax. apply elem_of_cons. by left.
    + destruct (IH x) as [Hin Hmax]; [by constructor|]. split.
      * apply elem_of_cons in Hin as [Hin|Hin]; apply elem_of_cons;
          [by left|right; apply elem_of_cons; by right].
      * intros y Hy. apply elem_of_cons in Hy as [->|Hy].
        { apply Hmax. apply elem_of_cons. by left. }
        apply elem_of_cons in Hy as [->|Hy].
        { apply F64.leb_trans with x; [by apply F64.not_ltb_leb|].
          apply Hmax. apply elem_of_cons. by left. }
        apply Hmax. apply elem_of_cons. by right.
Qed.

Lemma elem_of_where_from mask : ∀ i0 k,
  k ∈ where_from i0 mask ↔ ∃ j, k = i0 + j ∧ mask !! j = Some true.
Proof.
  induction mask as [|b mask IH]; intros i0 k; simpl.
  - split; [by intros ?%elem_of_nil|by intros (j & _ & ?)].
  - assert (k ∈ where_from (S i0) mask ↔
            ∃ j, k = i0 + S j ∧ mask !! j = Some true) as IH'.
    { rewrite IH. split; intros (j & -> & Hj); exists j; split; [lia|done|lia|done]. }
    destruct b.
    + rewrite elem_of_cons, IH'. split.
      * intros [->|(j & -> & Hj)]; [exists 0; split; [lia|done]|by exists (S j)].
      * intros ([|j] & -> & Hj); [left; lia|right; by exists j].
    + rewrite IH'. split.
      * intros (j & -> & Hj). by exists (S j).
      * intros ([|j] & -> & Hj); [done|by exists j].
Qed.

Lemma where_from_head mask : ∀ i0 k rest,
  where_from i0 mask = k :: rest →
  ∃ j, k = i0 + j ∧ mask !! j = Some true
       ∧ ∀ j', j' < j → mask !! j' = Some false.
Proof.
  induction mask as [|b mask IH]; intros i0 k rest; simpl; [done|].
  destruct b.
  - intros [= <- _]. exists 0. split; [lia|]. split; [done|]. lia.
  - intros H. destruct (IH _ _ _ H) as (j & -> & Hj & Hbefore).
    exists (S j). split; [lia|]. split; [done|].
    intros [|j'] Hj'; [done|]. apply Hbefore. lia.
Qed.


(** The indices at which a NaN-free vector equals its builtin [max] are the
    indices at which it attains its maximum; the first of them is the first
    maximum. *)
Lemma where_eq_max l :
  l ≠ [] → no_nan l →
  ∃ m i rest,
    py_max_list l = Py.Ok m ∧ np_where (eq_mask l m) = i :: rest
    ∧ first_max l i
    ∧ ∀ j, j ∈ i :: rest ↔ attains_max l j.
Proof.
  destruct l as [|x0 l0]; [done|]. intros _ Hnan.
  destruct (py_max_fold_spec l0 x0 Hnan) as [Hin Hmax].
  set (l := x0 :: l0) in *. set (m := fold_left F64.py_max l0 x0) in *.
  assert (∀ j, j ∈ np_where (eq_mask l m) ↔ attains_max l j) as Hchar.
  { intros j. unfold np_where. rewrite elem_of_where_from. split.
    - intros (j' & -> & Hj). unfold eq_mask in Hj.
      rewrite list_lookup_fmap in Hj.
      destruct (l !! j') as [y|] eqn:Hy; [|done]. simpl in Hj.
      injection Hj as Hj. exists y. split; [done|].
      intros k z Hz.
      apply F64.leb_trans with m; [apply Hmax; eauto using list_elem_of_lookup_2|].
      apply F64.eqb_leb. by apply F64.eqb_sym.
    - intros (y & Hy & Hy'). exists j. split; [done|].
      unfold eq_mask. rewrite list_lookup_fmap, Hy. simpl. f_equal.
      apply F64.leb_antisym; [apply Hmax; eauto using list_elem_of_lookup_2|].
      apply list_elem_of_lookup_1 in Hin as [k Hk]. eauto. }
  destruct (np_where (eq_mask l m)) as [|i rest] eqn:Hw.
  { apply list_elem_of_lookup_1 in Hin as [k Hk].
    assert (attains_max l k) as Hk'.
    { exists m. split; [done|]. intros j y Hy. apply Hmax.
      eauto using list_elem_of_lookup_2. }
    apply Hchar in Hk'. by apply elem_of_nil in Hk'. }
  exists m, i, rest. split; [done|]. split; [done|]. split; [|done].
  destruct (where_from_head _ _ _ _ Hw) as (j & -> & Hj & Hbefore). simpl.
  unfold eq_mask in Hj, Hbefore. rewrite list_lookup_fmap in Hj.
  destruct (l !! j) as [y|] eqn:Hy; [|done]. simpl in Hj. injection Hj as Hj.
  exists y. split; [done|]. split.
  - intros k z Hz.
    apply F64.leb_trans with m; [apply Hmax; eauto using list_elem_of_lookup_2|].
    apply F64.eqb_leb. by apply F64.eqb_sym.
  - intros k z Hk Hz. specialize (Hbefore k Hk).
    rewrite list_lookup_fmap, Hz in Hbefore. simpl in Hbefore.
    injection Hbefore as Hne.
    assert ((z <=? m)%float = true) as Hzm
      by (apply Hmax; eauto using list_elem_of_lookup_2).
    pose proof (F64.leb_neq_ltb _ _ Hzm Hne) as Hlt.
    apply F64.ltb_leb_trans with m; [exact Hlt|].
    apply F64.eqb_leb. by apply F64.eqb_sym.
Qed.

(** *** NaN among the entries *)

Lemma argmax_loop_first_nan rest : ∀ mp max_ind i0 j x,
  rest !! j = Some x → is_nan x = true →
  (∀ k y, k < j → rest !! k = Some y → is_nan y = false) →
  argmax_loop mp max_ind i0 rest = i0 + j.
Proof.
  induction rest as [|x0 rest IH]; intros mp max_ind i0 j x Hj Hx Hbefore; [done|].
  destruct j as [|j]; cbn [argmax_loop].
  - cbn in Hj. injection Hj as ->.
    rewrite F64.leb_nan_l, Hx by done. cbn. lia.
  - pose proof (Hbefore 0 x0 ltac:(lia) eq_refl) as Hx0. rewrite Hx0.
    assert (∀ k y, k < j → rest !! k = Some y → is_nan y = false) as Hb.
    { intros k y Hk Hy. apply (Hbefore (S k) y); [lia|done]. }
    destruct (negb _); rewrite (IH _ _ _ j x Hj Hx Hb); lia.
Qed.

(** [np.argmax] returns the position of the first NaN, if there is one. *)
Lemma argmax_first_nan l i x :
  l !! i = Some x → is_nan x = true →
  (∀ k y, k < i → l !! k = Some y → is_nan y = false) →
  argmax l = Py.Ok i.
Proof.
  destruct l as [|x0 rest]; [done|]. intros Hi Hx Hbefore. cbn [argmax].
  destruct i as [|i].
  - cbn in Hi. injection Hi as ->. by rewrite Hx.
  - rewrite (Hbefore 0 x0 ltac:(lia) eq_refl). f_equal.
    rewrite (argmax_loop_first_nan rest x0 0 1 i x); [done|done|done|].
    intros k y Hk Hy. apply (Hbefore (S k) y); [lia|done].
Qed.

Lemma py_max_fold_nan rest : ∀ x,
  is_nan x = true → fold_left F64.py_max rest x = x.
Proof.
  induction rest as [|y rest IH]; intros x Hx; [done|].
  cbn [fold_left]. rewrite F64.py_max_nan_l by done. by apply IH.
Qed.

Lemma where_from_none mask : ∀ i,
  Forall (λ b, b = false) mask → where_from i mask = [].
Proof.
  induction mask as [|b mask IH]; intros i H; [done|].
  inversion H as [|? ? -> Hrest]; subst. cbn. by apply IH.
Qed.

(** Nothing equals a NaN maximum: [np.where(a == nan)] is empty. *)
Lemma where_eq_nan l m : is_nan m = true → np_where (eq_mask l m) = [].
Proof.
  intros Hm. apply where_from_none. unfold eq_mask.
  apply Forall_fmap, Forall_forall. intros y _. cbn.
  by apply F64.eqb_nan_r.
Qed.

(** *** The range of [np.argmax] *)

Lemma argmax_loop_lt rest : ∀ mp max_ind i0,
  max_ind < i0 → argmax_loop mp max_ind i0 rest < i0 + length rest.
Proof.
  induction rest as [|x rest IH]; intros mp max_ind i0 H; cbn [argmax_loop length].
  - lia.
  - destruct (negb _); [destruct (is_nan x)|].
    + lia.
    + specialize (IH x i0 (S i0) ltac:(lia)). lia.
    + specialize (IH mp max_ind (S i0) ltac:(lia)). lia.
Qed.

Lemma argmax_lt l i : argmax l = Py.Ok i → i < length l.
Proof.
  destruct l as [|x rest]; [done|]. cbn [argmax length]. intros [= <-].
  destruct (is_nan x); [lia|].
  pose proof (argmax_loop_lt rest x 0 1 ltac:(lia)). lia.
Qed.

End Np.

(** ** Multi-start optimisation: [_find_ml], [_find_ml_mixture2], [_find_ml_mixture] *)

Module MultiStart.

Section FindML.
Context {SustainData Row Rng : Type}.

(** A sequence matrix is the list of its rows, one per subtype; a fraction
    vector has one weight per subtype. *)
Abbreviation Sequence := (list Row).
Abbreviation Fraction := (list float).

(** [self.N_startpoints] *)
Variable N_startpoints : nat.
(** The methods of [AbstractSustainData]. *)
Variable getNumSamples : SustainData → nat.
Variable getNumStages : SustainData → nat.
Variable reindex : SustainData → list bool → SustainData.
(** [np.zeros(N)], a row of a fresh sequence matrix. *)
Variable np_zeros : nat → Row.
(** The abstract methods, and the [loglike] output of [_calculate_likelihood]. *)
Variable initialise_sequence : SustainData → Rng → Sequence * Rng.
Variable calculate_likelihood : SustainData → Sequence → Fraction → float.
Variable optimise_parameters :
  SustainData → Sequence → Fraction → Rng → Sequence * Fraction * float * Rng.
(** [np.array([np.ceil(x) for x in N_S * np.random.rand(M)]).astype(int)]:
    [M] labels, each in [0 .. N_S]. *)
Variable draw_cluster_assignment : nat → nat → Rng → list nat * Rng.

Abbreviation perform_em := (EM.perform_em calculate_likelihood optimise_parameters).

(** *** The loop over startpoints, shared by the three functions *)

(** The source keeps the startpoint on the last axis of the [_mat] arrays
    ([ml_sequence_mat[:, :, startpoint]], [ml_f_mat[:, startpoint]],
    [ml_likelihood_mat[startpoint]]).  Here that axis is the list: entry [k] of
    a [_mat] list is the slice of startpoint [k]. *)
Record ms_state : Type := MsState {
  terminate : bool;
  startpoint : nat;
  ml_sequence_mat : list Sequence;
  ml_f_mat : list Fraction;
  ml_likelihood_mat : list float;
  rng : Rng
}.

(** The arrays are allocated with zeros, one slot per startpoint. *)
Definition ms_init (N_S : nat) (sustainData : SustainData) (g : Rng) : ms_state :=
  {| terminate := false;
     startpoint := 0;
     ml_sequence_mat :=
       replicate N_startpoints (replicate N_S (np_zeros (getNumStages sustainData)));
     ml_f_mat := replicate N_startpoints (replicate N_S 0%float);
     ml_likelihood_mat := replicate N_startpoints 0%float;
     rng := g |}.

(** One pass: run one start, store its result in slot [startpoint]. *)
Definition ms_body (run_start : Rng → Py.result (Sequence * Fraction * float * Rng))
    (st : ms_state) : Py.result ms_state :=
  '(this_ml_sequence, this_ml_f, this_ml_likelihood, g) ← run_start (rng st);
  if decide (startpoint st < N_startpoints) then
    Py.Ok {| terminate :=
               if Nat.eqb (S (startpoint st)) N_startpoints then true
               else terminate st;
             startpoint := startpoint st + 1;
             ml_sequence_mat := <[startpoint st := this_ml_sequence]> (ml_sequence_mat st);
             ml_f_mat := <[startpoint st := this_ml_f]> (ml_f_mat st);
             ml_likelihood_mat := <[startpoint st := this_ml_likelihood]> (ml_likelihood_mat st);
             rng := g |}
  else Py.Raise (Py.IndexError "index out of range").

Fixpoint ms_while (run_start : Rng → Py.result (Sequence * Fraction * float * Rng))
    (fuel : nat) (st : ms_state) : Py.result ms_state :=
  if terminate st then Py.Ok st
  else match fuel with
       | 0 => Py.Diverges
       | S fuel' => st' ← ms_body run_start st; ms_while run_start fuel' st'
       end.

(** *** One start of each function *)

Definition find_ml_start (sustainData : SustainData) (g : Rng)
  : Py.result (Sequence * Fraction * float * Rng) :=
  let '(seq_init, g1) := initialise_sequence sustainData g in
  let f_init := [1%float] in
  let '(this_ml_sequence, this_ml_f, this_ml_likelihood, _, _, _, g2) :=
    perform_em sustainData seq_init f_init g1 in
  Py.Ok (this_ml_sequence, this_ml_f, this_ml_likelihood, g2).

Definition find_ml_mixture_start (sustainData : SustainData)
    (seq_init : Sequence) (f_init : Fraction) (g : Rng)
  : Py.result (Sequence * Fraction * float * Rng) :=
  let '(this_ml_sequence, this_ml_f, this_ml_likelihood, _, _, _, g1) :=
    perform_em sustainData seq_init f_init g in
  Py.Ok (this_ml_sequence, this_ml_f, this_ml_likelihood, g1).

(** [np.sum((cluster_assignment == s).astype(int), 0)] *)
Definition count_cluster (s : nat) (cluster_assignment : list nat) : nat :=
  sum_list ((λ c, if Nat.eqb c s then 1 else 0) <$> cluster_assignment).

(** The [for s in range(1, N_S + 1)] loop assigns the count of cluster [s] to
    the one variable [temp_N_cluster]; what is left is the last assignment. *)
Definition temp_N_cluster_after_loop (N_S : nat) (cluster_assignment : list nat) : nat :=
  fold_left (λ _ s, count_cluster s cluster_assignment) (seq 1 N_S) 0.

(** The builtin [min] of a non-empty list. *)
Definition py_min (x : nat) (rest : list nat) : nat := fold_left Nat.min rest x.

(** [while min_N_cluster == 0: draw; count].  Python puts no bound on the
    number of draws. *)
Fixpoint draw_clusters (fuel : nat) (N_S M : nat) (min_N_cluster : nat)
    (cluster_assignment : list nat) (g : Rng) : Py.result (list nat * Rng) :=
  if Nat.eqb min_N_cluster 0 then
    match fuel with
    | 0 => Py.Diverges
    | S fuel' =>
        let '(cluster_assignment', g') := draw_cluster_assignment N_S M g in
        let temp_N_cluster := temp_N_cluster_after_loop N_S cluster_assignment' in
        draw_clusters fuel' N_S M (py_min temp_N_cluster []) cluster_assignment' g'
    end
  else Py.Ok (cluster_assignment, g).

(** [seq_init[s, :], ... = self._perform_em(...)]: the one row of the fit is
    written into row [s]. *)
Definition set_row (seq_init : Sequence) (s : nat) (fit : Sequence)
  : Py.result Sequence :=
  match fit with
  | [row] => Py.Ok (<[s := row]> seq_init)
  | _ => Py.Raise (Py.ValueError "could not broadcast input array")
  end.

Definition find_ml_mixture2_start (fuel : nat) (sustainData : SustainData) (g : Rng)
  : Py.result (Sequence * Fraction * float * Rng) :=
  let N_S := 2 in
  '(cluster_assignment, g1) ←
    draw_clusters fuel N_S (getNumSamples sustainData) 0 [] g;
  '(seq_init, g2) ←
    Py.for_each
      (λ s '(seq_init, g),
         let index_s := (λ c, Nat.eqb c (s + 1)) <$> cluster_assignment in
         let temp_sustainData := reindex sustainData index_s in
         let '(temp_seq_init, g) := initialise_sequence sustainData g in
         let '(fit, _, _, _, _, _, g) :=
           perform_em temp_sustainData temp_seq_init [1%float] g in
         seq_init' ← set_row seq_init s fit;
         Py.Ok (seq_init', g))
      (Py.range N_S)
      (replicate N_S (np_zeros (getNumStages sustainData)), g1);
  let f_init := replicate N_S (1 / 2)%float in
  let '(this_ml_sequence, this_ml_f, this_ml_likelihood, _, _, _, g3) :=
    perform_em sustainData seq_init f_init g2 in
  Py.Ok (this_ml_sequence, this_ml_f, this_ml_likelihood, g3).

(** *** The three functions *)

Definition find_ml (sustainData : SustainData) (g : Rng)
  : Py.result (Sequence * Fraction * float
               * list Sequence * list Fraction * list float * Rng) :=
  st ← ms_while (find_ml_start sustainData) (S N_startpoints)
       (ms_init 1 sustainData g);
  ix ← Np.argmax (ml_likelihood_mat st);
  ml_sequence ← Py.getitem (ml_sequence_mat st) ix;
  ml_f ← Py.getitem (ml_f_mat st) ix;
  ml_likelihood ← Py.getitem (ml_likelihood_mat st) ix;
  Py.Ok (ml_sequence, ml_f, ml_likelihood,
         ml_sequence_mat st, ml_f_mat st, ml_likelihood_mat st, rng st).

(** [a[..., ix]] for a list [ix] of indices into the last axis keeps that axis,
    with one entry for each index of [ix], in the order of [ix]. *)
Definition take_indices {A} (a : list A) (ix : list nat) : Py.result (list A) :=
  mapM (Py.getitem a) ix.

Definition find_ml_mixture2 (fuel : nat) (sustainData : SustainData) (g : Rng)
  : Py.result (list Sequence * list Fraction * list float
               * list Sequence * list Fraction * list float * Rng) :=
  st ← ms_while (find_ml_mixture2_start fuel sustainData) (S N_startpoints)
         (ms_init 2 sustainData g);
  m ← Np.py_max_list (ml_likelihood_mat st);
  ix0 ← Py.getitem (Np.np_where (Np.eq_mask (ml_likelihood_mat st) m)) 0;
  let ix := [ix0] in
  ml_sequence ← take_indices (ml_sequence_mat st) ix;
  ml_f ← take_indices (ml_f_mat st) ix;
  ml_likelihood ← take_indices (ml_likelihood_mat st) ix;
  Py.Ok (ml_sequence, ml_f, ml_likelihood,
         ml_sequence_mat st, ml_f_mat st, ml_likelihood_mat st, rng st).

Definition find_ml_mixture (sustainData : SustainData) (seq_init : Sequence)
    (f_init : Fraction) (g : Rng)
  : Py.result (list Sequence * list Fraction * list float
               * list Sequence * list Fraction * list float * Rng) :=
  st ← ms_while (find_ml_mixture_start sustainData seq_init f_init) (S N_startpoints)
         (ms_init (length seq_init) sustainData g);
  m ← Np.py_max_list (ml_likelihood_mat st);
  let ix := Np.np_where (Np.eq_mask (ml_likelihood_mat st) m) in
  ml_sequence ← take_indices (ml_sequence_mat st) ix;
  ml_f ← take_indices (ml_f_mat st) ix;
  ml_likelihood ← take_indices (ml_likelihood_mat st) ix;
  Py.Ok (ml_sequence, ml_f, ml_likelihood,
         ml_sequence_mat st, ml_f_mat st, ml_likelihood_mat st, rng st).

(** *** Vocabulary of the statements *)

(** The results of [k] successive starts, in order, threading the generator. *)
Fixpoint start_results (run_start : Rng → Py.result (Sequence * Fraction * float * Rng))
    (k : nat) (g : Rng) : Py.result (list (Sequence * Fraction * float) * Rng) :=
  match k with
  | 0 => Py.Ok ([], g)
  | S k' =>
      '(s, f, ll, g1) ← run_start g;
      '(rs, g2) ← start_results run_start k' g1;
      Py.Ok ((s, f, ll) :: rs, g2)
  end.


(** The [k]-th draw of a cluster assignment, counted from 0, and the generator
    after it. *)
Fixpoint nth_draw (N_S M k : nat) (g : Rng) : list nat * Rng :=
  match k with
  | 0 => draw_cluster_assignment N_S M g
  | S k' => nth_draw N_S M k' (draw_cluster_assignment N_S M g).2
  end.


(** *** The loop over startpoints *)

Lemma insert_take_snoc {A} (l : list A) k x :
  k < length l → take (S k) (<[k := x]> l) = take k l ++ [x].
Proof.
  intros Hk. rewrite (take_S_r _ _ x) by (by apply list_lookup_insert_eq).
  by rewrite take_insert_ge.
Qed.

Lemma ms_while_terminated run fuel st :
  terminate st = true → ms_while run fuel st = Py.Ok st.
Proof. intros H. destruct fuel; simpl; rewrite H; reflexivity. Qed.

(** [N_startpoints - startpoint] units of fuel are enough: when the remaining
    starts all return, the loop ends with their results in the slots.  (The
    functions run the loop on [N_startpoints + 1] units, so that with no
    startpoint at all the first pass is reached and raises as Python does.) *)
Lemma ms_while_run run fuel : ∀ st rs g',
  terminate st = false → startpoint st < N_startpoints →
  N_startpoints ≤ startpoint st + fuel →
  length (ml_sequence_mat st) = N_startpoints →
  length (ml_f_mat st) = N_startpoints →
  length (ml_likelihood_mat st) = N_startpoints →
  start_results run (N_startpoints - startpoint st) (rng st) = Py.Ok (rs, g') →
  ms_while run fuel st
  = Py.Ok {| terminate := true;
             startpoint := N_startpoints;
             ml_sequence_mat := take (startpoint st) (ml_sequence_mat st) ++ rs.*1.*1;
             ml_f_mat := take (startpoint st) (ml_f_mat st) ++ rs.*1.*2;
             ml_likelihood_mat := take (startpoint st) (ml_likelihood_mat st) ++ rs.*2;
             rng := g' |}.
Proof.
  induction fuel as [|fuel IH]; intros st rs g' Ht Hlt Hfuel Hl1 Hl2 Hl3 Hrs; [lia|].
  cbn [ms_while]. rewrite Ht.
  replace (N_startpoints - startpoint st) with (S (N_startpoints - S (startpoint st)))
    in Hrs by lia.
  cbn [start_results] in Hrs. unfold ms_body.
  destruct (run (rng st)) as [[[[s f] ll] g1]| |]; [|done|done].
  cbn -[Nat.eqb Nat.sub] in Hrs |- *.
  destruct (start_results run _ g1) as [[rs' g2]| |] eqn:Hrs'; [|done|done].
  cbn -[Nat.eqb Nat.sub] in Hrs. injection Hrs as <- <-.
  destruct (decide (startpoint st < N_startpoints)) as [_|]; [|lia].
  cbn -[Nat.eqb Nat.sub].
  destruct (Nat.eqb (S (startpoint st)) N_startpoints) eqn:Elast.
  - apply Nat.eqb_eq in Elast.
    rewrite ms_while_terminated by done.
    replace (N_startpoints - S (startpoint st)) with 0 in Hrs' by lia.
    cbn in Hrs'. injection Hrs' as <- <-. cbn [fmap list_fmap fst snd].
    rewrite <- !insert_take_snoc by lia.
    rewrite !take_ge by (rewrite length_insert; lia).
    f_equal. f_equal. lia.
  - apply Nat.eqb_neq in Elast.
    rewrite (IH _ rs' g2); cbn [terminate startpoint ml_sequence_mat ml_f_mat
                                  ml_likelihood_mat rng];
      rewrite ?length_insert; try done; try lia.
    + replace (startpoint st + 1) with (S (startpoint st)) by lia.
      rewrite !insert_take_snoc by lia.
      cbn [fmap list_fmap fst snd]. rewrite <- !app_assoc. reflexivity.
    + by replace (startpoint st + 1) with (S (startpoint st)) by lia.
Qed.

Lemma ms_while_from_init run N_S d g rs g' :
  0 < N_startpoints →
  start_results run N_startpoints g = Py.Ok (rs, g') →
  ms_while run (S N_startpoints) (ms_init N_S d g)
  = Py.Ok {| terminate := true;
             startpoint := N_startpoints;
             ml_sequence_mat := rs.*1.*1;
             ml_f_mat := rs.*1.*2;
             ml_likelihood_mat := rs.*2;
             rng := g' |}.
Proof.
  intros HN Hrs.
  rewrite (ms_while_run run (S N_startpoints) (ms_init N_S d g) rs g'); simpl;
    rewrite ?length_replicate, ?Nat.sub_0_r; try done; lia.
Qed.

Lemma start_results_length run k : ∀ g rs g',
  start_results run k g = Py.Ok (rs, g') → length rs = k.
Proof.
  induction k as [|k IH]; intros g rs g'; simpl; [by intros [= <- _]|].
  destruct (run g) as [[[[s f] ll] g1]| |]; simpl; try discriminate.
  destruct (start_results run k g1) as [[rs' g2]| |] eqn:Hrs'; simpl;
    try discriminate.
  intros [= <- _]. simpl. f_equal. eauto.
Qed.

(** *** Indexing *)





(** *** The random two-cluster initialisation *)

Lemma temp_N_cluster_is_last_count cluster_assignment :
  temp_N_cluster_after_loop 2 cluster_assignment = count_cluster 2 cluster_assignment.
Proof. reflexivity. Qed.

Lemma draw_clusters_accept fuel N_S M m ca g :
  m ≠ 0 → draw_clusters fuel N_S M m ca g = Py.Ok (ca, g).
Proof. intros Hm. destruct fuel, m; simpl; done. Qed.

Lemma draw_clusters_first_accepted N_S M k : ∀ fuel ca g,
  k < fuel →
  (∀ i, i < k → temp_N_cluster_after_loop N_S (nth_draw N_S M i g).1 = 0) →
  temp_N_cluster_after_loop N_S (nth_draw N_S M k g).1 ≠ 0 →
  draw_clusters fuel N_S M 0 ca g = Py.Ok (nth_draw N_S M k g).
Proof.
  induction k as [|k IH]; intros [|fuel] ca g Hk Hrej Hacc; try lia.
  - cbn [draw_clusters Nat.eqb nth_draw] in *.
    destruct (draw_cluster_assignment N_S M g) as [ca' g'].
    by apply draw_clusters_accept.
  - cbn [draw_clusters Nat.eqb]. pose proof (Hrej 0 ltac:(lia)) as H0.
    cbn [nth_draw] in H0, Hacc |- *.
    destruct (draw_cluster_assignment N_S M g) as [ca' g'] eqn:Hd.
    cbn [fst snd] in *. unfold py_min. cbn [fold_left]. rewrite H0.
    apply IH; [lia| |done].
    intros i Hi. specialize (Hrej (S i) ltac:(lia)).
    cbn [nth_draw] in Hrej. by rewrite Hd in Hrej.
Qed.

(** C9. In the random initialisation of [_find_ml_mixture2] the value tested
    by [while min_N_cluster == 0] is the count of cluster 2, the last one
    computed, which is not the minimum over both clusters; a draw is accepted as
    soon as cluster 2 is non-empty, whatever cluster 1 holds, and drawing is
    repeated exactly while cluster 2 is empty: the assignment used is the first
    draw whose cluster 2 is non-empty. *)
Theorem draw_clusters_checks_only_cluster_2 fuel M g k :
  k < fuel →
  (∀ i, i < k → count_cluster 2 (nth_draw 2 M i g).1 = 0) →
  count_cluster 2 (nth_draw 2 M k g).1 ≠ 0 →
  (∀ ca, py_min (temp_N_cluster_after_loop 2 ca) [] = count_cluster 2 ca)
  ∧ (∃ ca, count_cluster 1 ca = 0
           ∧ py_min (temp_N_cluster_after_loop 2 ca) []
             ≠ Nat.min (count_cluster 1 ca) (count_cluster 2 ca))
  ∧ draw_clusters fuel 2 M 0 [] g = Py.Ok (nth_draw 2 M k g).
Proof.
  intros Hk Hrej Hacc. split; [done|]. split.
  - exists [2]. split; [reflexivity|]. cbn. lia.
  - by apply draw_clusters_first_accepted.
Qed.

(** *** Selection of the best start *)


Lemma getitem_fmap {A B} (h : A → B) (a : list A) i x :
  a !! i = Some x → Py.getitem (h <$> a) i = Py.Ok (h x).
Proof. intros H. unfold Py.getitem. by rewrite list_lookup_fmap, H. Qed.


Ltac py_step :=
  cbn [mbind result_bind Py.bind mret result_ret ml_sequence_mat ml_f_mat
       ml_likelihood_mat rng terminate startpoint fst snd].





Lemma find_ml_start_total d g : ∃ r, find_ml_start d g = Py.Ok r.
Proof.
  unfold find_ml_start. destruct (initialise_sequence d g) as [s g1].
  destruct (EM.perform_em _ _ _ _ _ _) as [[[[[[? ?] ?] ?] ?] ?] ?]. eauto.
Qed.

Lemma find_ml_mixture_start_total d seq_init f_init g :
  ∃ r, find_ml_mixture_start d seq_init f_init g = Py.Ok r.
Proof.
  unfold find_ml_mixture_start.
  destruct (EM.perform_em _ _ _ _ _ _) as [[[[[[? ?] ?] ?] ?] ?] ?]. eauto.
Qed.




(** *** No startpoint at all *)

Lemma ms_while_no_startpoints run N_S d g :
  N_startpoints = 0 → (∃ r, run g = Py.Ok r) →
  ms_while run (S N_startpoints) (ms_init N_S d g)
  = Py.Raise (Py.IndexError "index out of range").
Proof.
  intros HN [[[[s f] ll] g1] Hr]. unfold ms_init. cbn [ms_while terminate].
  unfold ms_body. cbn [rng startpoint]. rewrite Hr. py_step.
  destruct (decide (0 < N_startpoints)) as [H|_]; [lia|done].
Qed.

(** X4. With [N_startpoints = 0] the multi-start functions do not return an
    empty result: the first startpoint is run all the same, storing it in the
    arrays of length zero raises [IndexError].  ([_find_ml_mixture2] gets that
    far whenever its random initialisation ends.) *)
Theorem multi_start_no_startpoints d seq_init f_init fuel g :
  N_startpoints = 0 →
  find_ml d g = Py.Raise (Py.IndexError "index out of range")
  ∧ find_ml_mixture d seq_init f_init g
    = Py.Raise (Py.IndexError "index out of range")
  ∧ ((∃ r, find_ml_mixture2_start fuel d g = Py.Ok r) →
     find_ml_mixture2 fuel d g = Py.Raise (Py.IndexError "index out of range")).
Proof.
  intros HN. split; [|split].
  - unfold find_ml.
    by rewrite ms_while_no_startpoints by (done || apply find_ml_start_total).
  - unfold find_ml_mixture.
    by rewrite ms_while_no_startpoints
      by (done || apply find_ml_mixture_start_total).
  - intros Hr. unfold find_ml_mixture2.
    by rewrite ms_while_no_startpoints.
Qed.

(** *** A random initialisation that never succeeds *)

Lemma draw_clusters_all_rejected N_S M fuel : ∀ m ca g,
  m = 0 →
  (∀ k, temp_N_cluster_after_loop N_S (nth_draw N_S M k g).1 = 0) →
  draw_clusters fuel N_S M m ca g = Py.Diverges.
Proof.
  induction fuel as [|fuel IH]; intros m ca g -> Hrej; [done|].
  cbn [draw_clusters Nat.eqb]. pose proof (Hrej 0) as H0. cbn [nth_draw] in H0.
  destruct (draw_cluster_assignment N_S M g) as [ca' g'] eqn:Hd.
  cbn [fst] in H0. unfold py_min. cbn [fold_left]. rewrite H0.
  apply IH; [done|]. intros k. specialize (Hrej (S k)).
  cbn [nth_draw] in Hrej. by rewrite Hd in Hrej.
Qed.

(** X5. The random initialisation of [_find_ml_mixture2] has no way out other
    than a draw with a subject in cluster 2: when no draw ever puts a subject
    there (as on a dataset without subjects), the redraw loop runs for ever, and
    so do the startpoint and [_find_ml_mixture2] itself, whatever
    [N_startpoints] is. *)
Theorem find_ml_mixture2_never_returns d g :
  (∀ k, count_cluster 2 (nth_draw 2 (getNumSamples d) k g).1 = 0) →
  ∀ fuel,
    draw_clusters fuel 2 (getNumSamples d) 0 [] g = Py.Diverges
    ∧ find_ml_mixture2_start fuel d g = Py.Diverges
    ∧ find_ml_mixture2 fuel d g = Py.Diverges.
Proof.
  intros Hrej fuel.
  assert (draw_clusters fuel 2 (getNumSamples d) 0 [] g = Py.Diverges) as Hd.
  { by apply draw_clusters_all_rejected. }
  assert (find_ml_mixture2_start fuel d g = Py.Diverges) as Hs.
  { unfold find_ml_mixture2_start. cbn zeta. by rewrite Hd. }
  split; [done|]. split; [done|].
  unfold find_ml_mixture2, ms_init. cbn [ms_while terminate].
  unfold ms_body. cbn [rng]. by rewrite Hs.
Qed.

(** *** A startpoint that ends with a NaN likelihood *)

(** X6. [_find_ml] selects with [np.argmax], for which a NaN is the largest
    value: when some startpoint ends with a NaN likelihood, the result of the
    first such startpoint is returned, whatever the other startpoints
    reached. *)
Theorem find_ml_returns_first_nan d g rs g' i s f ll :
  start_results (find_ml_start d) N_startpoints g = Py.Ok (rs, g') →
  rs !! i = Some (s, f, ll) → is_nan ll = true →
  (∀ j y, j < i → rs.*2 !! j = Some y → is_nan y = false) →
  find_ml d g = Py.Ok (s, f, ll, rs.*1.*1, rs.*1.*2, rs.*2, g').
Proof.
  intros Hrs Hr Hnan Hbefore.
  assert (0 < N_startpoints) as HN.
  { apply start_results_length in Hrs. apply lookup_lt_Some in Hr. lia. }
  unfold find_ml. rewrite (ms_while_from_init _ 1 d g rs g' HN Hrs). py_step.
  rewrite (Np.argmax_first_nan rs.*2 i ll);
    [|by rewrite list_lookup_fmap, Hr|done|done].
  py_step.
  rewrite (getitem_fmap _ _ _ _ (ltac:(by rewrite list_lookup_fmap, Hr)
    : rs.*1 !! i = Some (s, f))). py_step.
  rewrite (getitem_fmap _ _ _ _ (ltac:(by rewrite list_lookup_fmap, Hr)
    : rs.*1 !! i = Some (s, f))). py_step.
  rewrite (getitem_fmap _ _ _ _ Hr). by py_step.
Qed.

Lemma py_max_list_first_nan (rs : list (Sequence * Fraction * float)) s f ll :
  rs !! 0 = Some (s, f, ll) → is_nan ll = true →
  Np.py_max_list rs.*2 = Py.Ok ll.
Proof.
  intros Hr Hnan. destruct rs as [|r rs]; [done|]. cbn in Hr.
  injection Hr as ->. cbn. by rewrite Np.py_max_fold_nan.
Qed.

(** X7. [_find_ml_mixture2] and [_find_ml_mixture] select with
    [np.where(ml_likelihood_mat == max(ml_likelihood_mat))].  When the first
    startpoint ends with a NaN likelihood, the builtin [max] returns that NaN
    and no entry equals it: [_find_ml_mixture2] raises [IndexError] on
    [...[0][0]], and [_find_ml_mixture] returns selections of length zero
    beside the per-startpoint arrays. *)
Theorem mixture_first_start_nan d seq_init f_init fuel g :
  (∀ rs g' s f ll,
     start_results (find_ml_mixture2_start fuel d) N_startpoints g = Py.Ok (rs, g') →
     rs !! 0 = Some (s, f, ll) → is_nan ll = true →
     find_ml_mixture2 fuel d g = Py.Raise (Py.IndexError "index out of range"))
  ∧ (∀ rs g' s f ll,
       start_results (find_ml_mixture_start d seq_init f_init) N_startpoints g
       = Py.Ok (rs, g') →
       rs !! 0 = Some (s, f, ll) → is_nan ll = true →
       find_ml_mixture d seq_init f_init g
       = Py.Ok ([], [], [], rs.*1.*1, rs.*1.*2, rs.*2, g')).
Proof.
  split; intros rs g' s f ll Hrs Hr Hnan;
    (assert (0 < N_startpoints) as HN
       by (apply start_results_length in Hrs; apply lookup_lt_Some in Hr; lia)).
  - unfold find_ml_mixture2. rewrite (ms_while_from_init _ 2 d g rs g' HN Hrs).
    py_step. rewrite (py_max_list_first_nan rs s f ll Hr Hnan). py_step.
    by rewrite Np.where_eq_nan.
  - unfold find_ml_mixture. rewrite (ms_while_from_init _ _ d g rs g' HN Hrs).
    py_step. rewrite (py_max_list_first_nan rs s f ll Hr Hnan). py_step.
    by rewrite Np.where_eq_nan.
Qed.

End FindML.

(** *** A concrete instance

    One subject set, rows that are plain numbers, and a counter for the random
    generator.  The likelihood starts at -100; candidates alternate between -50
    and -60 with the parity of the generator. *)

Definition demo_samples (_ : unit) : nat := 3.
Definition demo_stages (_ : unit) : nat := 2.
Definition demo_reindex (d : unit) (_ : list bool) : unit := d.
Definition demo_zeros (_ : nat) : nat := 0.
Definition demo_initialise (_ : unit) (g : nat) : list nat * nat := ([g], S g).
Definition demo_loglike (_ : unit) (_ : list nat) (_ : list float) : float :=
  (-100)%float.
Definition demo_optimise (_ : unit) (s : list nat) (f : list float) (g : nat)
  : list nat * list float * float * nat :=
  (s, f, if Nat.even g then (-50)%float else (-60)%float, S g).
(** The first draw puts every subject in cluster 1, the later ones in cluster 2. *)
Definition demo_draw (N_S M g : nat) : list nat * nat :=
  (if Nat.eqb g 0 then replicate M 1 else replicate M 2, S g).

Lemma draw_clusters_checks_only_cluster_2_witness :
  1 < 5
  ∧ count_cluster 2 (nth_draw demo_draw 2 3 0 0).1 = 0
  ∧ count_cluster 1 (nth_draw demo_draw 2 3 1 0).1 = 0
  ∧ draw_clusters demo_draw 5 2 3 0 [] 0 = Py.Ok ([2; 2; 2], 2).
Proof.
  split; [lia|]. split; [reflexivity|]. split; [reflexivity|].
  refine (proj2 (proj2 (draw_clusters_checks_only_cluster_2 demo_draw 5 3 0 1 _ _ _))).
  - lia.
  - intros i Hi. assert (i = 0) as -> by lia. reflexivity.
  - vm_compute. lia.
Defined.



Lemma multi_start_no_startpoints_witness :
  find_ml 0 demo_stages demo_zeros demo_initialise demo_loglike demo_optimise tt 0
  = Py.Raise (Py.IndexError "index out of range")
  ∧ find_ml_mixture 0 demo_stages demo_zeros demo_loglike demo_optimise tt
      [7; 8] [(1/2)%float; (1/2)%float] 0
    = Py.Raise (Py.IndexError "index out of range").
Proof.
  destruct (multi_start_no_startpoints 0 demo_samples demo_stages demo_reindex
              demo_zeros demo_initialise demo_loglike demo_optimise demo_draw
              tt [7; 8] [(1/2)%float; (1/2)%float] 5 0 eq_refl) as (H1 & H2 & _).
  by split.
Defined.

(** A dataset without subjects: every draw of a cluster assignment is empty. *)
Definition no_subjects (_ : unit) : nat := 0.

Lemma demo_draw_no_subjects k : ∀ g,
  count_cluster 2 (nth_draw demo_draw 2 (no_subjects tt) k g).1 = 0.
Proof. induction k as [|k IH]; intros g; [by destruct g|apply IH]. Qed.

Lemma find_ml_mixture2_never_returns_witness :
  find_ml_mixture2 2 no_subjects demo_stages demo_reindex demo_zeros
    demo_initialise demo_loglike demo_optimise demo_draw 1000 tt 0
  = Py.Diverges.
Proof.
  exact (proj2 (proj2 (find_ml_mixture2_never_returns 2 no_subjects demo_stages
                         demo_reindex demo_zeros demo_initialise demo_loglike
                         demo_optimise demo_draw tt 0
                         (λ k, demo_draw_no_subjects k 0) 1000))).
Defined.

(** A likelihood that is NaN on the sequences that start with an odd entry,
    and an optimiser that proposes the point it is given. *)
Definition nan_on_odd (_ : unit) (s : list nat) (_ : list float) : float :=
  if Nat.odd (default 0 (head s)) then nan else (-100)%float.
Definition idle_optimise (_ : unit) (s : list nat) (f : list float) (g : nat)
  : list nat * list float * float * nat :=
  (s, f, nan_on_odd tt s f, g).

Lemma find_ml_returns_first_nan_witness :
  find_ml 3 demo_stages demo_zeros demo_initialise nan_on_odd idle_optimise tt 0
  = Py.Ok ([1], [1%float], nan,
           [[0]; [1]; [2]], [[1%float]; [1%float]; [1%float]],
           [(-100)%float; nan; (-100)%float], 3).
Proof.
  apply (find_ml_returns_first_nan 3 demo_stages demo_zeros demo_initialise
           nan_on_odd idle_optimise tt 0
           [([0], [1%float], (-100)%float); ([1], [1%float], nan);
            ([2], [1%float], (-100)%float)] 3 1 [1] [1%float] nan).
  - vm_compute. reflexivity.
  - reflexivity.
  - reflexivity.
  - intros [|j] y Hj Hy; [|lia]. cbn in Hy. injection Hy as <-. reflexivity.
Defined.

Lemma mixture_first_start_nan_witness :
  find_ml_mixture 2 demo_stages demo_zeros nan_on_odd idle_optimise tt
    [1] [1%float] 0
  = Py.Ok ([], [], [], [[1]; [1]], [[1%float]; [1%float]], [nan; nan], 0).
Proof.
  apply (proj2 (mixture_first_start_nan 2 demo_samples demo_stages demo_reindex
                  demo_zeros demo_initialise nan_on_odd idle_optimise demo_draw
                  tt [1] [1%float] 5 0)
           [([1], [1%float], nan); ([1], [1%float], nan)] 0 [1] [1%float] nan).
  - vm_compute. reflexivity.
  - reflexivity.
  - reflexivity.
Defined.

End MultiStart.

(** ** The hierarchical grower: [_estimate_ml_sustain_model_nplus1_clusters] *)

Module Grower.

(** The three [_mat] outputs: one entry per startpoint in the one-cluster
    branch, the first startpoint's entry alone in the splitting branch. *)
Inductive mats (Sequence Fraction : Type) : Type :=
| PerStartpoint (s : list Sequence) (f : list Fraction) (l : list float)
| FirstStartpoint (s : Sequence) (f : Fraction) (l : float).
Arguments PerStartpoint {Sequence Fraction} s f l.
Arguments FirstStartpoint {Sequence Fraction} s f l.

Section NPlus1.
Context {SustainData Row Rng : Type}.

Abbreviation Sequence := (list Row).
Abbreviation Fraction := (list float).

Variable getNumSamples : SustainData → nat.
Variable reindex : SustainData → list bool → SustainData.
(** The sum [np.sum(p_perm_k * f_val_mat, 1)] that [_calculate_likelihood]
    squeezes and returns as [total_prob_cluster]: one row per subject, one
    entry per subtype. *)
Variable total_prob_cluster : SustainData → Sequence → Fraction → list (list float).
(** The three multi-start functions (module [MultiStart]). *)
Variable find_ml :
  SustainData → Rng →
  Py.result (Sequence * Fraction * float
             * list Sequence * list Fraction * list float * Rng).
Variable find_ml_mixture2 :
  SustainData → Rng →
  Py.result (list Sequence * list Fraction * list float
             * list Sequence * list Fraction * list float * Rng).
Variable find_ml_mixture :
  SustainData → Sequence → Fraction → Rng →
  Py.result (list Sequence * list Fraction * list float
             * list Sequence * list Fraction * list float * Rng).

(** [np.sum] along a row, accumulated from the left (which is what NumPy does
    for fewer than eight addends). *)
Definition np_sum (row : list float) : float := fold_left PrimFloat.add row 0%float.

(** [p_sequence / np.tile(np.sum(p_sequence, 1) ...)] *)
Definition normalise_rows (p_sequence : list (list float)) : list (list float) :=
  (λ row, (λ x, (x / np_sum row)%float) <$> row) <$> p_sequence.

(** [ml_cluster_subj[m] = np.argmax(p_sequence_norm[m, :]) + 1] *)
Definition assign_clusters (p_sequence_norm : list (list float)) : Py.result (list nat) :=
  mapM (λ row, ix ← Np.argmax row; Py.Ok (ix + 1)) p_sequence_norm.

(** [sum(ml_cluster_subj == k)] *)
Definition cluster_size (k : nat) (ml_cluster_subj : list nat) : nat :=
  sum_list ((λ c, if Nat.eqb c k then 1 else 0) <$> ml_cluster_subj).

(** The variables the loop over [ix_cluster_split] updates.  [best] is [None]
    while [ml_sequence], [ml_f] and the [_mat] variables are still unbound. *)
Record split_state : Type := SplitState {
  ml_likelihood : float;
  best : option (Sequence * Fraction * mats Sequence Fraction);
  rng : Rng
}.

(** Row [ix_cluster_split] of the previous optimum is replaced by the first
    sequence of the two-way split, and the second is appended. *)
Definition splice (ml_sequence_prev : Sequence) (ix_cluster_split : nat)
    (this_ml_sequence_split : list Sequence) : Py.result Sequence :=
  match this_ml_sequence_split with
  | [fit] =>
      row0 ← Py.getitem fit 0;
      row1 ← Py.getitem fit 1;
      Py.Ok (<[ix_cluster_split := row0]> ml_sequence_prev ++ [row1])
  | _ => Py.Raise (Py.ValueError "cannot reshape array")
  end.

(** One pass of [for ix_cluster_split in range(N_S - 1)]. *)
Definition split_body (sustainData : SustainData) (ml_sequence_prev : Sequence)
    (ml_cluster_subj : list nat) (ix_cluster_split : nat) (st : split_state)
  : Py.result split_state :=
  let N_S := length ml_sequence_prev + 1 in
  let this_N_cluster := cluster_size (ix_cluster_split + 1) ml_cluster_subj in
  if Nat.ltb 1 this_N_cluster then
    let ix_i := (λ c, Nat.eqb c (ix_cluster_split + 1)) <$> ml_cluster_subj in
    let sustainData_i := reindex sustainData ix_i in
    '(this_ml_sequence_split, _, _, _, _, _, g1) ← find_ml_mixture2 sustainData_i (rng st);
    this_seq_init ← splice ml_sequence_prev ix_cluster_split this_ml_sequence_split;
    let this_f_init := replicate N_S (1 / PrimFloat.of_uint63 (Uint63.of_Z (Z.of_nat N_S)))%float in
    '(this_ml_sequence, this_ml_f, this_ml_likelihood,
      this_ml_sequence_mat, this_ml_f_mat, this_ml_likelihood_mat, g2) ←
      find_ml_mixture sustainData this_seq_init this_f_init g1;
    ll0 ← Py.getitem this_ml_likelihood 0;
    if (ml_likelihood st <? ll0)%float then
      seq0 ← Py.getitem this_ml_sequence 0;
      f0 ← Py.getitem this_ml_f 0;
      ll_mat0 ← Py.getitem this_ml_likelihood_mat 0;
      seq_mat0 ← Py.getitem this_ml_sequence_mat 0;
      f_mat0 ← Py.getitem this_ml_f_mat 0;
      Py.Ok {| ml_likelihood := ll0;
               best := Some (seq0, f0, FirstStartpoint seq_mat0 f_mat0 ll_mat0);
               rng := g2 |}
    else
      Py.Ok {| ml_likelihood := ml_likelihood st; best := best st; rng := g2 |}
  else
    (* print('Cluster ... too small for subdivision') *)
    Py.Ok st.

Definition split_loop (sustainData : SustainData) (ml_sequence_prev : Sequence)
    (ml_cluster_subj : list nat) (clusters : list nat) (st : split_state)
  : Py.result split_state :=
  Py.for_each (split_body sustainData ml_sequence_prev ml_cluster_subj) clusters st.

(** [p_sequence.reshape(p_sequence.shape[0], N_S - 1)] on the [np.squeeze]d
    sum, for [K = N_S - 1] previous subtypes.  [np.squeeze] drops every axis
    of length one.  With no subject, or two or more, only the subtype axis can
    go, and the reshape puts it back.  With a single subject the subject axis
    goes too: for [K = 1] the array has no axis left and [shape[0]] raises
    [IndexError]; for [K >= 2] it has shape [(K,)] and its [K] entries do not
    fill the shape [(K, K)], so [reshape] raises [ValueError]. *)
Definition squeeze_reshape (K : nat) (total : list (list float))
  : Py.result (list (list float)) :=
  if Nat.eqb (length total) 1 then
    if Nat.eqb K 1 then Py.Raise (Py.IndexError "tuple index out of range")
    else Py.Raise (Py.ValueError "cannot reshape array")
  else Py.Ok total.

Definition estimate_ml_sustain_model_nplus1_clusters (sustainData : SustainData)
    (ml_sequence_prev : Sequence) (ml_f_prev : Fraction) (g : Rng)
  : Py.result (Sequence * Fraction * float * mats Sequence Fraction * Rng) :=
  let N_S := length ml_sequence_prev + 1 in
  if Nat.eqb N_S 1 then
    '(ml_sequence, ml_f, ml_likelihood,
      ml_sequence_mat, ml_f_mat, ml_likelihood_mat, g') ← find_ml sustainData g;
    Py.Ok (ml_sequence, ml_f, ml_likelihood,
           PerStartpoint ml_sequence_mat ml_f_mat ml_likelihood_mat, g')
  else
    p_sequence ← squeeze_reshape (N_S - 1)
                   (total_prob_cluster sustainData ml_sequence_prev ml_f_prev);
    let p_sequence_norm := normalise_rows p_sequence in
    ml_cluster_subj ← assign_clusters p_sequence_norm;
    st ← split_loop sustainData ml_sequence_prev ml_cluster_subj
           (Py.range (N_S - 1))
           {| ml_likelihood := neg_infinity; best := None; rng := g |};
    match best st with
    | Some (ml_sequence, ml_f, m) =>
        Py.Ok (ml_sequence, ml_f, ml_likelihood st, m, rng st)
    | None =>
        Py.Raise (Py.UnboundLocalError "ml_sequence")
    end.

(** *** Skipping a cluster that is too small *)

Definition too_small (ml_cluster_subj : list nat) (ix_cluster_split : nat) : Prop :=
  cluster_size (ix_cluster_split + 1) ml_cluster_subj ≤ 1.


Lemma split_body_skip d prev labels ix st :
  too_small labels ix → split_body d prev labels ix st = Py.Ok st.
Proof.
  unfold too_small, split_body. intros H.
  destruct (Nat.ltb_spec 1 (cluster_size (ix + 1) labels)); [lia|done].
Qed.





Lemma split_loop_all_small d prev labels clusters st :
  Forall (too_small labels) clusters →
  split_loop d prev labels clusters st = Py.Ok st.
Proof.
  unfold split_loop. induction 1 as [|ix clusters Hix _ IH]; [done|].
  cbn [Py.for_each]. rewrite split_body_skip by done. exact IH.
Qed.

Lemma squeeze_reshape_Ok K total :
  length total ≠ 1 → squeeze_reshape K total = Py.Ok total.
Proof.
  intros H. unfold squeeze_reshape.
  by destruct (Nat.eqb_spec (length total) 1).
Qed.

(** X8. On a dataset that does not consist of a single subject, when the
    previous model has at least one subtype and every one of its subtypes has
    at most one subject assigned, every split is skipped, nothing is ever
    bound to [ml_sequence], and the [return] statement of
    [_estimate_ml_sustain_model_nplus1_clusters] raises [UnboundLocalError].
    (On a single subject the reshape of [p_sequence] raises before the loop.) *)
Lemma all_too_small_unbound d prev f_prev labels g :
  prev ≠ [] →
  length (total_prob_cluster d prev f_prev) ≠ 1 →
  assign_clusters (normalise_rows (total_prob_cluster d prev f_prev)) = Py.Ok labels →
  (∀ ix, ix < length prev → too_small labels ix) →
  estimate_ml_sustain_model_nplus1_clusters d prev f_prev g
  = Py.Raise (Py.UnboundLocalError "ml_sequence").
Proof.
  intros Hprev Hsubjects Hlabels Hsmall.
  unfold estimate_ml_sustain_model_nplus1_clusters.
  destruct (Nat.eqb_spec (length prev + 1) 1) as [E|_].
  { destruct prev; [done|simpl in E; lia]. }
  cbn zeta. rewrite squeeze_reshape_Ok by done. cbn [mbind result_bind Py.bind].
  rewrite Hlabels. cbn [mbind result_bind Py.bind].
  replace (length prev + 1 - 1) with (length prev) by lia.
  rewrite split_loop_all_small; [done|].
  apply Forall_forall. intros ix Hix. apply Hsmall.
  unfold Py.range in Hix. apply elem_of_seq in Hix. lia.
Qed.

(** *** What the split loop keeps *)

(** Either nothing has been selected yet and [ml_likelihood] is still [-inf],
    or a split has been selected with a likelihood above [-inf], its [_mat]
    entries those of one startpoint. *)
Definition split_inv (st : split_state) : Prop :=
  match best st with
  | None => ml_likelihood st = neg_infinity
  | Some (_, _, m) =>
      (neg_infinity <? ml_likelihood st)%float = true
      ∧ ∃ a b c, m = FirstStartpoint a b c
  end.

Lemma split_body_inv d prev labels ix st st' :
  split_inv st → split_body d prev labels ix st = Py.Ok st' → split_inv st'.
Proof.
  unfold split_body. intros Hinv H.
  destruct (Nat.ltb 1 _); [|by injection H as <-].
  destruct (find_ml_mixture2 _ _) as [[[[[[[a1 a2] a3] a4] a5] a6] g1]| |];
    cbn [mbind result_bind Py.bind] in H; try discriminate.
  destruct (splice _ _ _) as [init| |];
    cbn [mbind result_bind Py.bind] in H; try discriminate.
  destruct (find_ml_mixture _ _ _ _) as [[[[[[[b1 b2] b3] b4] b5] b6] g2]| |];
    cbn [mbind result_bind Py.bind] in H; try discriminate.
  destruct (Py.getitem b3 0) as [ll0| |];
    cbn [mbind result_bind Py.bind] in H; try discriminate.
  destruct (ml_likelihood st <? ll0)%float eqn:Hlt.
  - repeat match type of H with
    | context [Py.getitem ?a ?b] =>
        destruct (Py.getitem a b); cbn [mbind result_bind Py.bind] in H;
        try discriminate
    end.
    injection H as <-. unfold split_inv in *. cbn [best ml_likelihood].
    split; [|eauto]. destruct (best st) as [[[? ?] ?]|].
    + destruct Hinv as [Hinv _]. by eapply F64.ltb_trans.
    + by rewrite <- Hinv.
  - injection H as <-. exact Hinv.
Qed.

(** X9. In the splitting branch (a previous model with at least one subtype),
    a split is adopted only when its likelihood compares greater than the best
    so far, starting from [-inf]: whenever
    [_estimate_ml_sustain_model_nplus1_clusters] returns, the likelihood it
    returns is a number above [-inf], never NaN, and the [_mat] outputs are
    those of a single startpoint. *)
Theorem split_result_above_neg_infinity d prev f_prev g seq f ll m g' :
  prev ≠ [] →
  estimate_ml_sustain_model_nplus1_clusters d prev f_prev g
  = Py.Ok (seq, f, ll, m, g') →
  (neg_infinity <? ll)%float = true ∧ is_nan ll = false
  ∧ ∃ a b c, m = FirstStartpoint a b c.
Proof.
  intros Hprev H. unfold estimate_ml_sustain_model_nplus1_clusters in H.
  destruct (Nat.eqb_spec (length prev + 1) 1) as [E|_].
  { destruct prev; [done|simpl in E; lia]. }
  cbn zeta in H.
  destruct (squeeze_reshape _ _) as [p_sequence| |];
    cbn [mbind result_bind Py.bind] in H; try discriminate.
  destruct (assign_clusters _) as [labels| |];
    cbn [mbind result_bind Py.bind] in H; try discriminate.
  destruct (split_loop _ _ _ _ _) as [st| |] eqn:Hloop;
    cbn [mbind result_bind Py.bind] in H; try discriminate.
  assert (split_inv st) as Hinv.
  { unfold split_loop in Hloop.
    eapply (Py.for_each_invariant split_inv); [|  |exact Hloop].
    - intros x s0 s1 _ Hs0 Hb. by eapply split_body_inv.
    - reflexivity. }
  unfold split_inv in Hinv.
  destruct (best st) as [[[s0 f0] m0]|]; [|discriminate].
  injection H as <- <- <- <- <-. destruct Hinv as [Hlt Hm].
  split; [done|]. split; [|done]. by apply F64.ltb_not_nan in Hlt as [_ ?].
Qed.

(** *** The assignment of subjects to the previous subtypes *)

Lemma mapM_Ok_lookup {A B} (h : A → Py.result B) (l : list A) : ∀ out,
  mapM h l = Py.Ok out →
  length out = length l
  ∧ ∀ i x, l !! i = Some x → ∃ y, h x = Py.Ok y ∧ out !! i = Some y.
Proof.
  induction l as [|a l IH]; intros out H; cbn [mapM] in H.
  - injection H as <-. split; [done|]. by intros i x ?.
  - destruct (h a) as [b| |] eqn:Ha; cbn [mbind result_bind Py.bind] in H;
      try discriminate.
    destruct (mapM h l) as [out'| |]; cbn [mbind result_bind Py.bind mret
                                            result_ret] in H; try discriminate.
    injection H as <-. destruct (IH out' eq_refl) as [Hlen Hl].
    split; [cbn; by rewrite Hlen|].
    intros [|i] x Hx; cbn in Hx.
    + injection Hx as <-. by exists b.
    + by apply Hl.
Qed.

Lemma indicator_sum c : ∀ n a,
  sum_list ((λ k, if Nat.eqb c k then 1 else 0) <$> seq a n)
  = if decide (a ≤ c < a + n) then 1 else 0.
Proof.
  induction n as [|n IH]; intros a; cbn [seq fmap list_fmap sum_list].
  - destruct (decide _); [lia|done].
  - change (list_fmap _ _ ?h ?l) with (h <$> l). rewrite IH.
    destruct (Nat.eqb_spec c a); repeat destruct (decide _);
      unfold Datatypes.id; lia.
Qed.

Lemma sum_list_fmap_plus {A} (h1 h2 : A → nat) (l : list A) :
  sum_list ((λ k, h1 k + h2 k) <$> l) = sum_list (h1 <$> l) + sum_list (h2 <$> l).
Proof.
  induction l as [|x l IH]; [done|].
  rewrite !fmap_cons. cbn [sum_list_with]. unfold Datatypes.id in *. lia.
Qed.

Lemma sum_list_fmap_zero {A} (l : list A) : sum_list ((λ _, 0) <$> l) = 0.
Proof.
  induction l as [|x l IH]; [done|].
  rewrite fmap_cons. cbn [sum_list_with]. unfold Datatypes.id in *. lia.
Qed.

Lemma cluster_sizes_sum K labels :
  Forall (λ c, 1 ≤ c ≤ K) labels →
  sum_list ((λ k, cluster_size k labels) <$> seq 1 K) = length labels.
Proof.
  induction 1 as [|c labels Hc _ IH].
  - apply sum_list_fmap_zero.
  - transitivity
      (sum_list ((λ k, (if Nat.eqb c k then 1 else 0) + cluster_size k labels)
                 <$> seq 1 K)); [done|].
    rewrite sum_list_fmap_plus, IH, indicator_sum.
    destruct (decide _); cbn [length]; lia.
Qed.

(** X10. The hard assignment of subjects to the subtypes of the previous model
    is a partition: when the normalised probabilities have [K] columns, every
    subject gets exactly one label, the labels lie in [1 .. K], and the sizes of
    the [K] clusters add up to the number of subjects. *)
Theorem assign_clusters_partition K p_sequence_norm ml_cluster_subj :
  Forall (λ row, length row = K) p_sequence_norm →
  assign_clusters p_sequence_norm = Py.Ok ml_cluster_subj →
  length ml_cluster_subj = length p_sequence_norm
  ∧ Forall (λ c, 1 ≤ c ≤ K) ml_cluster_subj
  ∧ sum_list ((λ k, cluster_size k ml_cluster_subj) <$> seq 1 K)
    = length p_sequence_norm.
Proof.
  intros Hshape H. unfold assign_clusters in H.
  destruct (mapM_Ok_lookup _ _ _ H) as [Hlen Hl].
  assert (Forall (λ c, 1 ≤ c ≤ K) ml_cluster_subj) as Hrange.
  { apply Forall_lookup. intros m c Hc.
    destruct (lookup_lt_is_Some_2 p_sequence_norm m) as [row Hrow].
    { rewrite <- Hlen. by eapply lookup_lt_Some. }
    destruct (Hl m row Hrow) as (y & Hy & Hout).
    assert (c = y) as -> by congruence.
    destruct (Np.argmax row) as [ix| |] eqn:Hix;
      cbn [mbind result_bind Py.bind] in Hy; try discriminate.
    injection Hy as <-. apply Np.argmax_lt in Hix.
    rewrite (Forall_lookup_1 _ _ _ _ Hshape Hrow) in Hix. lia. }
  split; [done|]. split; [done|]. rewrite <- Hlen.
  by apply cluster_sizes_sum.
Qed.

Lemma np_sum_zeros k : np_sum (replicate k 0%float) = 0%float.
Proof.
  unfold np_sum. induction k as [|k IH]; [done|]. cbn [replicate fold_left].
  exact IH.
Qed.

(** X11. A subject that has probability zero under every subtype of the
    previous model is assigned to cluster 1: its normalised row is all
    [0/0 = NaN], and [np.argmax] returns the position of the first NaN. *)
Theorem zero_probability_subject_in_cluster_1 p_sequence m k ml_cluster_subj :
  p_sequence !! m = Some (replicate (S k) 0%float) →
  assign_clusters (normalise_rows p_sequence) = Py.Ok ml_cluster_subj →
  ml_cluster_subj !! m = Some 1.
Proof.
  intros Hrow H. unfold assign_clusters in H.
  destruct (mapM_Ok_lookup _ _ _ H) as [_ Hl].
  assert (normalise_rows p_sequence !! m = Some (replicate (S k) nan)) as Hnorm.
  { unfold normalise_rows. rewrite list_lookup_fmap, Hrow.
    cbn [fmap option_fmap option_map]. f_equal. rewrite np_sum_zeros.
    generalize (S k). intros n. induction n as [|n IH]; [done|].
    cbn [replicate]. rewrite fmap_cons. by f_equal. }
  destruct (Hl m _ Hnorm) as (y & Hy & Hout).
  cbn [replicate Np.argmax] in Hy. change (is_nan nan) with true in Hy.
  cbn [mbind result_bind Py.bind] in Hy. by injection Hy as <-.
Qed.

End NPlus1.

(** *** A concrete instance

    Two previous subtypes and three subjects; the first subject is assigned to
    subtype 1 and the other two to subtype 2, so only subtype 2 can be split. *)

Definition demo_reindex (d : unit) (_ : list bool) : unit := d.
Definition demo_find_ml_mixture2 (_ : unit) (g : nat)
  : Py.result (list (list nat) * list (list float) * list float
               * list (list nat) * list (list float) * list float * nat) :=
  Py.Ok ([[1; 2]], [[(1/2)%float; (1/2)%float]], [(-70)%float],
         [[1; 2]], [[(1/2)%float; (1/2)%float]], [(-70)%float], S g).
Definition demo_find_ml_mixture (_ : unit) (seq_init : list nat)
    (f_init : list float) (g : nat)
  : Py.result (list (list nat) * list (list float) * list float
               * list (list nat) * list (list float) * list float * nat) :=
  Py.Ok ([seq_init], [f_init], [(-50)%float],
         [seq_init], [f_init], [(-50)%float], S g).


(** A previous model of two subtypes on a dataset of two subjects, one for
    each subtype, and on a dataset of three subjects. *)
Definition demo_find_ml (_ : unit) (g : nat)
  : Py.result (list nat * list float * float
               * list (list nat) * list (list float) * list float * nat) :=
  Py.Ok ([5], [1%float], (-80)%float, [[5]], [[1%float]], [(-80)%float], S g).
Definition demo_two_subjects (_ : unit) (_ : list nat) (_ : list float)
  : list (list float) :=
  [[0.75; 0.25]; [0.25; 0.75]]%float.
Definition demo_three_subjects (_ : unit) (_ : list nat) (_ : list float)
  : list (list float) :=
  [[0.75; 0.25]; [0.25; 0.75]; [0.25; 0.75]]%float.

Lemma all_too_small_unbound_witness :
  estimate_ml_sustain_model_nplus1_clusters demo_reindex demo_two_subjects
    demo_find_ml demo_find_ml_mixture2 demo_find_ml_mixture tt
    [10; 20] [(1/2)%float; (1/2)%float] 0
  = Py.Raise (Py.UnboundLocalError "ml_sequence").
Proof.
  apply (all_too_small_unbound demo_reindex demo_two_subjects demo_find_ml
           demo_find_ml_mixture2 demo_find_ml_mixture tt
           [10; 20] [(1/2)%float; (1/2)%float] [1; 2] 0).
  - discriminate.
  - cbn. lia.
  - vm_compute. reflexivity.
  - intros [|[|ix]] Hix; [unfold too_small; cbn; lia..|cbn in Hix; lia].
Defined.

Lemma split_result_above_neg_infinity_witness :
  estimate_ml_sustain_model_nplus1_clusters demo_reindex demo_three_subjects
    demo_find_ml demo_find_ml_mixture2 demo_find_ml_mixture tt
    [10; 20] [(1/2)%float; (1/2)%float] 0
  = Py.Ok ([10; 1; 2], [(1/3)%float; (1/3)%float; (1/3)%float], (-50)%float,
           FirstStartpoint [10; 1; 2] [(1/3)%float; (1/3)%float; (1/3)%float]
             (-50)%float, 2)
  ∧ (neg_infinity <? (-50))%float = true.
Proof.
  assert (estimate_ml_sustain_model_nplus1_clusters demo_reindex
            demo_three_subjects demo_find_ml demo_find_ml_mixture2
            demo_find_ml_mixture tt [10; 20] [(1/2)%float; (1/2)%float] 0
          = Py.Ok ([10; 1; 2], [(1/3)%float; (1/3)%float; (1/3)%float],
                   (-50)%float,
                   FirstStartpoint [10; 1; 2]
                     [(1/3)%float; (1/3)%float; (1/3)%float] (-50)%float, 2))
    as H by (vm_compute; reflexivity).
  split; [exact H|].
  exact (proj1 (split_result_above_neg_infinity demo_reindex demo_three_subjects
                  demo_find_ml demo_find_ml_mixture2 demo_find_ml_mixture
                  tt [10; 20] [(1/2)%float; (1/2)%float] 0 _ _ _ _ _
                  ltac:(discriminate) H)).
Defined.

Lemma assign_clusters_partition_witness :
  assign_clusters [[0.75; 0.25]; [0.25; 0.75]; [0.25; 0.75]]%float
  = Py.Ok [1; 2; 2]
  ∧ sum_list ((λ k, cluster_size k [1; 2; 2]) <$> seq 1 2) = 3.
Proof.
  assert (assign_clusters [[0.75; 0.25]; [0.25; 0.75]; [0.25; 0.75]]%float
          = Py.Ok [1; 2; 2]) as H by (vm_compute; reflexivity).
  split; [exact H|].
  destruct (assign_clusters_partition 2
              [[0.75; 0.25]; [0.25; 0.75]; [0.25; 0.75]]%float [1; 2; 2]
              ltac:(repeat constructor) H) as (_ & _ & Hsum).
  exact Hsum.
Defined.

Lemma zero_probability_subject_in_cluster_1_witness :
  assign_clusters (normalise_rows [[0; 0]; [0.25; 0.75]]%float) = Py.Ok [1; 2]
  ∧ [1; 2] !! 0 = Some 1.
Proof.
  assert (assign_clusters (normalise_rows [[0; 0]; [0.25; 0.75]]%float)
          = Py.Ok [1; 2]) as H by (vm_compute; reflexivity).
  split; [exact H|].
  exact (zero_probability_subject_in_cluster_1
           [[0; 0]; [0.25; 0.75]]%float 0 1 [1; 2] eq_refl H).
Defined.

End Grower.

(** ** The posterior assigner: [subtype_and_stage_individuals] *)

Module Assigner.

(** An entry of [ml_subtype] or [ml_stage]: a float that holds an index, or NaN. *)
Inductive cell : Type :=
| Index (i : nat)
| NotANumber.

(** [int(x)] on such an entry. *)
Definition py_int (c : cell) : Py.result nat :=
  match c with
  | Index i => Py.Ok i
  | NotANumber => Py.Raise (Py.ValueError "cannot convert float NaN to integer")
  end.

(** [np.maximum] on two floats, and [np.max] of a vector. *)
Definition npy_max (a b : float) : float :=
  if (b <=? a)%float || is_nan a then a else b.

Definition np_max (a : list float) : Py.result float :=
  match a with
  | [] => Py.Raise (Py.ValueError "zero-size array to reduction operation maximum")
  | x :: rest => Py.Ok (fold_left npy_max rest x)
  end.

(** [np.sum(np.isnan(a))] *)
Definition count_nan (a : list float) : nat :=
  sum_list ((λ x, if is_nan x then 1 else 0) <$> a).

(** [np.sum] of a vector, accumulated from the left. *)
Definition np_sum (a : list float) : float := fold_left PrimFloat.add a 0%float.

(** [np.sum(x, 1)] for one subject's (stage, subtype) matrix: the sum of its
    rows, entry by entry. *)
Definition sum_over_stages (N_S : nat) (x : list (list float)) : list float :=
  fold_left (zip_with PrimFloat.add) x (replicate N_S 0%float).

Definition of_nat (n : nat) : float := PrimFloat.of_uint63 (Uint63.of_Z (Z.of_nat n)).

(** [(i / (i + 1.) * old) + (1. / (i + 1.) * new)] *)
Definition running_mean (i : nat) (old new : float) : float :=
  (of_nat i / (of_nat i + 1) * old + 1 / (of_nat i + 1) * new)%float.

(** [a / np.tile(np.sum(a, 1) ...)], row by row. *)
Definition normalise_rows (a : list (list float)) : list (list float) :=
  (λ row : list float, (λ x, (x / np_sum row)%float) <$> row) <$> a.

(** [a / np.tile(np.sum(np.sum(a, 1), 1) ...)], subject by subject. *)
Definition normalise_subjects (N_S : nat) (a : list (list (list float)))
  : list (list (list float)) :=
  (λ x : list (list float),
     let total := np_sum (sum_over_stages N_S x) in
     (λ row : list float, (λ v, (v / total)%float) <$> row) <$> x) <$> a.

Section SubtypeAndStage.
Context {SustainData Row : Type}.

Variable getNumSamples : SustainData → nat.
Variable getNumStages : SustainData → nat.
(** Outputs 3 to 5 of [_calculate_likelihood]: [total_prob_stage] (subject by
    stage), [total_prob_cluster] (subject by subtype) and [p_perm_k] (subject by
    stage by subtype). *)
Variable calculate_likelihood :
  SustainData → list Row → list float →
  list (list float) * list (list float) * list (list (list float)).
(** [np.round(np.linspace(0, n_iterations_MCMC - 1, N_samples))], as integers. *)
Variable select_samples : nat → nat → list nat.
(** [np.argsort(np.mean(samples_f, axis=1))[::-1]] *)
Variable sort_by_mean_f : list (list float) → list nat.

(** The three running averages. *)
Record posterior : Type := Posterior {
  prob_subtype_stage : list (list (list float));
  prob_subtype : list (list float);
  prob_stage : list (list float)
}.

(** One pass of [for i in range(N_samples)].  [samples_sequence[s][t]] is the
    sequence of subtype [s] at draw [t], [samples_f[s][t]] its weight. *)
Definition average_body (sustainData : SustainData)
    (samples_sequence : list (list Row)) (samples_f : list (list float))
    (N_samples : nat) (ix : list nat) (i : nat) (p : posterior)
  : Py.result posterior :=
  let N_S := length samples_sequence in
  let n_iterations_MCMC := length (default [] (head samples_sequence)) in
  sample ← Py.getitem (select_samples n_iterations_MCMC N_samples) i;
  this_S ← mapM (λ s, row ← Py.getitem samples_sequence s; Py.getitem row sample) ix;
  this_f ← mapM (λ s, row ← Py.getitem samples_f s; Py.getitem row sample) ix;
  let '(total_prob_stage, total_prob_subtype, total_prob_subtype_stage) :=
    calculate_likelihood sustainData this_S this_f in
  let total_prob_subtype_norm := normalise_rows total_prob_subtype in
  let total_prob_stage_norm := normalise_rows total_prob_stage in
  let total_prob_subtype_stage_norm := normalise_subjects N_S total_prob_subtype_stage in
  Py.Ok {| prob_subtype_stage :=
             zip_with (zip_with (zip_with (running_mean i)))
               (prob_subtype_stage p) total_prob_subtype_stage_norm;
           prob_subtype :=
             zip_with (zip_with (running_mean i)) (prob_subtype p) total_prob_subtype_norm;
           prob_stage :=
             zip_with (zip_with (running_mean i)) (prob_stage p) total_prob_stage_norm |}.

(** The four output columns, allocated with NaN. *)
Record assignment : Type := Assignment {
  ml_subtype : list cell;
  prob_ml_subtype : list float;
  ml_stage : list cell;
  prob_ml_stage : list float
}.

(** [np.where(a == np.max(a))], its first index, and the entry there. *)
Definition first_max_entry (a : list float) : Py.result (nat * float) :=
  m ← np_max a;
  first ← Py.getitem (Np.np_where (Np.eq_mask a m)) 0;
  p ← Py.getitem a first;
  Py.Ok (first, p).

(** One pass of [for i in range(nSamples)]. *)
Definition assign_body (p : posterior) (i : nat) (out : assignment)
  : Py.result assignment :=
  this_prob_subtype ← Py.getitem (prob_subtype p) i;
  out1 ←
    (if Nat.eqb (count_nan this_prob_subtype) 0 then
       '(this_subtype, prob) ← first_max_entry this_prob_subtype;
       Py.Ok {| ml_subtype := <[i := Index this_subtype]> (ml_subtype out);
                prob_ml_subtype := <[i := prob]> (prob_ml_subtype out);
                ml_stage := ml_stage out;
                prob_ml_stage := prob_ml_stage out |}
     else Py.Ok out);
  ml_subtype_i ← Py.getitem (ml_subtype out1) i;
  k ← py_int ml_subtype_i;
  subject ← Py.getitem (prob_subtype_stage p) i;
  this_prob_stage ← mapM (λ row, Py.getitem row k) subject;
  if Nat.eqb (count_nan this_prob_stage) 0 then
    '(this_stage, prob) ← first_max_entry this_prob_stage;
    Py.Ok {| ml_subtype := ml_subtype out1;
             prob_ml_subtype := prob_ml_subtype out1;
             ml_stage := <[i := Index this_stage]> (ml_stage out1);
             prob_ml_stage := <[i := prob]> (prob_ml_stage out1) |}
  else Py.Ok out1.

Definition assign_all (nSamples : nat) (p : posterior) : Py.result assignment :=
  Py.for_each (assign_body p) (Py.range nSamples)
    {| ml_subtype := replicate nSamples NotANumber;
       prob_ml_subtype := replicate nSamples nan;
       ml_stage := replicate nSamples NotANumber;
       prob_ml_stage := replicate nSamples nan |}.

Definition subtype_and_stage_individuals (sustainData : SustainData)
    (samples_sequence : list (list Row)) (samples_f : list (list float))
    (N_samples : nat)
  : Py.result (list cell * list float * list cell * list float) :=
  let nSamples := getNumSamples sustainData in
  let nStages := getNumStages sustainData in
  let N_S := length samples_sequence in
  let ix := sort_by_mean_f samples_f in
  p ← Py.for_each (average_body sustainData samples_sequence samples_f N_samples ix)
        (Py.range N_samples)
        {| prob_subtype_stage :=
             replicate nSamples (replicate (nStages + 1) (replicate N_S 0%float));
           prob_subtype := replicate nSamples (replicate N_S 0%float);
           prob_stage := replicate nSamples (replicate (nStages + 1) 0%float) |};
  out ← assign_all nSamples p;
  Py.Ok (ml_subtype out, prob_ml_subtype out, ml_stage out, prob_ml_stage out).

(** *** A NaN in the subtype posterior *)

Definition has_nan (a : list float) : Prop := count_nan a ≠ 0.

(** A subject whose averaged subtype posterior holds a NaN keeps the NaN its
    [ml_subtype] entry was allocated with, and the conversion of that entry to
    an index raises. *)
Lemma assign_body_nan_raises p i out this_prob_subtype :
  prob_subtype p !! i = Some this_prob_subtype →
  has_nan this_prob_subtype →
  ml_subtype out !! i = Some NotANumber →
  assign_body p i out
  = Py.Raise (Py.ValueError "cannot convert float NaN to integer").
Proof.
  intros Hp Hnan Hout. unfold assign_body, Py.getitem.
  rewrite Hp. cbn [mbind result_bind Py.bind].
  destruct (Nat.eqb_spec (count_nan this_prob_subtype) 0) as [E|_]; [done|].
  cbn [mbind result_bind Py.bind]. rewrite Hout. reflexivity.
Qed.

Lemma assign_body_ml_subtype_later p i j out out' :
  assign_body p i out = Py.Ok out' → i ≠ j →
  ml_subtype out' !! j = ml_subtype out !! j.
Proof.
  unfold assign_body. intros H Hij.
  repeat match type of H with
  | context [Py.getitem ?a ?b] => destruct (Py.getitem a b); cbn in H; try discriminate
  | context [first_max_entry ?a] =>
      destruct (first_max_entry a) as [[? ?]| |]; cbn in H; try discriminate
  | context [py_int ?a] => destruct (py_int a); cbn in H; try discriminate
  | context [mapM ?a ?b] => destruct (mapM a b); cbn in H; try discriminate
  | context [Nat.eqb ?a ?b] => destruct (Nat.eqb a b); cbn in H; try discriminate
  end;
  injection H as <-; cbn; rewrite ?list_lookup_insert_ne by done; reflexivity.
Qed.

Lemma for_each_ml_subtype_untouched p i : ∀ js out out',
  Py.for_each (assign_body p) js out = Py.Ok out' → i ∉ js →
  ml_subtype out' !! i = ml_subtype out !! i.
Proof.
  induction js as [|j js IH]; intros out out' H Hi; cbn in H.
  - by injection H as <-.
  - destruct (assign_body p j out) as [out1| |] eqn:Hj; cbn in H; try discriminate.
    rewrite (IH _ _ H) by (intros ?; apply Hi; by right).
    apply (assign_body_ml_subtype_later _ _ _ _ _ Hj).
    intros ->. apply Hi. by left.
Qed.

Lemma for_each_raises_at {A S} (body : A → S → Py.result S) pre x post st st' e :
  Py.for_each body pre st = Py.Ok st' → body x st' = Py.Raise e →
  Py.for_each body (pre ++ x :: post) st = Py.Raise e.
Proof.
  revert st. induction pre as [|y pre IH]; intros st H Hx; cbn in *.
  - injection H as ->. by rewrite Hx.
  - destruct (body y st) as [st1| |]; cbn in *; try discriminate. by apply IH.
Qed.

(** X12. In the assignment loop of [subtype_and_stage_individuals], the first
    subject whose averaged subtype posterior holds a NaN makes the whole call
    raise [ValueError] (from [int(ml_subtype[i])] on the NaN the entry was
    allocated with): nothing is returned for any subject, also not for those
    already assigned. *)
Lemma assign_all_nan_raises nSamples p i this_prob_subtype out :
  i < nSamples →
  prob_subtype p !! i = Some this_prob_subtype →
  has_nan this_prob_subtype →
  Py.for_each (assign_body p) (seq 0 i)
    {| ml_subtype := replicate nSamples NotANumber;
       prob_ml_subtype := replicate nSamples nan;
       ml_stage := replicate nSamples NotANumber;
       prob_ml_stage := replicate nSamples nan |} = Py.Ok out →
  assign_all nSamples p
  = Py.Raise (Py.ValueError "cannot convert float NaN to integer").
Proof.
  intros Hi Hp Hnan Hpre. unfold assign_all, Py.range.
  replace nSamples with (i + S (nSamples - S i)) at 1 by lia.
  rewrite seq_app. cbn [seq].
  eapply for_each_raises_at; [exact Hpre|].
  eapply assign_body_nan_raises; [exact Hp|exact Hnan|].
  rewrite (for_each_ml_subtype_untouched _ _ _ _ _ Hpre).
  - cbn. apply lookup_replicate_2. lia.
  - rewrite elem_of_seq. lia.
Qed.

(** *** Posteriors without NaN *)

Lemma getitem_Some {A} (l : list A) i x :
  l !! i = Some x → Py.getitem l i = Py.Ok x.
Proof. intros H. unfold Py.getitem. by rewrite H. Qed.

Lemma npy_max_py_max a b :
  is_nan a = false → is_nan b = false → npy_max a b = F64.py_max a b.
Proof.
  intros Ha Hb. unfold npy_max, F64.py_max. rewrite Ha, orb_false_r.
  destruct (a <? b)%float eqn:Hlt.
  - destruct (b <=? a)%float eqn:Hle; [|done].
    pose proof (F64.ltb_leb_trans _ _ _ Hlt Hle) as H.
    by rewrite F64.ltb_irrefl in H.
  - by rewrite (F64.not_ltb_leb a b Ha Hb Hlt).
Qed.

Lemma npy_max_fold rest : ∀ x,
  Np.no_nan (x :: rest) → fold_left npy_max rest x = fold_left F64.py_max rest x.
Proof.
  induction rest as [|y rest IH]; intros x Hnan; [done|].
  inversion Hnan as [|? ? Hx Hrest]; subst.
  inversion Hrest as [|? ? Hy Hrest']; subst.
  cbn [fold_left]. rewrite npy_max_py_max by done. apply IH.
  constructor; [|done].
  destruct (F64.py_max_cases x y) as [[-> _]|[-> _]]; done.
Qed.

Lemma count_nan_0 a : Np.no_nan a → count_nan a = 0.
Proof.
  unfold count_nan. induction 1 as [|x a Hx _ IH]; [done|].
  rewrite fmap_cons. cbn [sum_list_with]. rewrite Hx, IH. reflexivity.
Qed.

(** On a non-empty vector without NaN, [np.where(a == np.max(a))[0][0]] is the
    lowest index at which the maximum is attained. *)
Lemma first_max_entry_spec a :
  a ≠ [] → Np.no_nan a →
  ∃ i x, first_max_entry a = Py.Ok (i, x) ∧ Np.first_max a i ∧ a !! i = Some x.
Proof.
  intros Hne Hnan.
  destruct (Np.where_eq_max a Hne Hnan) as (m & i & rest & Hm & Hw & Hfirst & _).
  destruct Hfirst as (x & Hx & Hfirst).
  exists i, x. split; [|split; [by exists x|done]].
  unfold first_max_entry.
  assert (np_max a = Py.Ok m) as ->.
  { destruct a as [|x0 a0]; [done|]. cbn [np_max Np.py_max_list] in *.
    by rewrite npy_max_fold. }
  cbn [mbind result_bind Py.bind]. rewrite Hw.
  change (Py.getitem (i :: rest) 0) with (@Py.Ok nat i).
  cbn [mbind result_bind Py.bind]. unfold Py.getitem. by rewrite Hx.
Qed.

(** Column [k] of one subject's (stage, subtype) matrix. *)
Definition stage_column (subject : list (list float)) (k : nat) : list float :=
  (λ row, nth k row 0%float) <$> subject.

Lemma mapM_column (subject : list (list float)) k :
  Forall (λ row, k < length row) subject →
  mapM (λ row, Py.getitem row k) subject = Py.Ok (stage_column subject k).
Proof.
  induction 1 as [|row subject Hrow _ IH]; [done|].
  cbn [mapM]. unfold stage_column. rewrite fmap_cons.
  destruct (lookup_lt_is_Some_2 row k Hrow) as [x Hx].
  rewrite (getitem_Some _ _ _ Hx). cbn [mbind result_bind Py.bind].
  rewrite IH. cbn [mbind result_bind Py.bind mret result_ret].
  by rewrite (nth_lookup_Some _ _ 0%float _ Hx).
Qed.

Lemma stage_column_no_nan subject k :
  Forall (λ row, k < length row ∧ Np.no_nan row) subject →
  Np.no_nan (stage_column subject k).
Proof.
  intros H. unfold stage_column, Np.no_nan. apply Forall_fmap.
  eapply Forall_impl; [exact H|]. intros row [Hk Hrow]. cbn.
  destruct (lookup_lt_is_Some_2 row k Hk) as [x Hx].
  rewrite (nth_lookup_Some _ _ 0%float _ Hx).
  by apply (Forall_lookup_1 _ _ _ _ Hrow Hx).
Qed.

(** What the assignment of one subject must be: the first maximum of its
    subtype posterior with the probability there, and the first maximum of
    that subtype's column of its stage posterior with the probability there. *)
Definition assigned_first_maxima (row : list float) (subject : list (list float))
    (out : assignment) (i : nat) : Prop :=
  ∃ k x j y,
    ml_subtype out !! i = Some (Index k) ∧ Np.first_max row k
    ∧ prob_ml_subtype out !! i = Some x ∧ row !! k = Some x
    ∧ ml_stage out !! i = Some (Index j)
    ∧ Np.first_max (stage_column subject k) j
    ∧ prob_ml_stage out !! i = Some y ∧ stage_column subject k !! j = Some y.

Definition assignment_lengths (n : nat) (out : assignment) : Prop :=
  length (ml_subtype out) = n ∧ length (prob_ml_subtype out) = n
  ∧ length (ml_stage out) = n ∧ length (prob_ml_stage out) = n.

(** Averaged posteriors for [nSamples] subjects, [N_S >= 2] subtypes and at
    least two stages, with no NaN anywhere. *)
Definition posterior_without_nan (nSamples N_S : nat) (p : posterior) : Prop :=
  2 ≤ N_S
  ∧ length (prob_subtype p) = nSamples
  ∧ length (prob_subtype_stage p) = nSamples
  ∧ Forall (λ row, length row = N_S ∧ Np.no_nan row) (prob_subtype p)
  ∧ Forall (λ subject,
              2 ≤ length subject
              ∧ Forall (λ r, length r = N_S ∧ Np.no_nan r) subject)
      (prob_subtype_stage p).

Lemma assign_body_first_maxima nSamples N_S p i out row subject :
  posterior_without_nan nSamples N_S p →
  assignment_lengths nSamples out →
  prob_subtype p !! i = Some row →
  prob_subtype_stage p !! i = Some subject →
  ∃ out',
    assign_body p i out = Py.Ok out'
    ∧ assignment_lengths nSamples out'
    ∧ assigned_first_maxima row subject out' i
    ∧ ∀ j, j ≠ i →
        ml_subtype out' !! j = ml_subtype out !! j
        ∧ prob_ml_subtype out' !! j = prob_ml_subtype out !! j
        ∧ ml_stage out' !! j = ml_stage out !! j
        ∧ prob_ml_stage out' !! j = prob_ml_stage out !! j.
Proof.
  intros (HNS & Hl1 & Hl2 & Hrows & Hsubjects) (L1 & L2 & L3 & L4) Hrow Hsubject.
  assert (i < nSamples) as Hi.
  { rewrite <- Hl1. by eapply lookup_lt_Some. }
  destruct (Forall_lookup_1 _ _ _ _ Hrows Hrow) as [Hlen Hnan].
  destruct (Forall_lookup_1 _ _ _ _ Hsubjects Hsubject) as [Hstages Hsub].
  destruct (first_max_entry_spec row) as (k & x & Hk & Hkfirst & Hkx);
    [by destruct row; [simpl in Hlen; lia|]|done|].
  assert (k < N_S) as HkN.
  { rewrite <- Hlen. by eapply lookup_lt_Some. }
  assert (Forall (λ r, k < length r ∧ Np.no_nan r) subject) as Hcol.
  { eapply Forall_impl; [exact Hsub|]. intros r [Hr ?]. cbn. split; [lia|done]. }
  destruct (first_max_entry_spec (stage_column subject k))
    as (j & y & Hj & Hjfirst & Hjy).
  { unfold stage_column. destruct subject; [simpl in Hstages; lia|done]. }
  { by apply stage_column_no_nan. }
  eexists. split; [|split; [|split]].
  - unfold assign_body. rewrite (getitem_Some _ _ _ Hrow).
    cbn [mbind result_bind Py.bind]. rewrite (count_nan_0 _ Hnan).
    cbn [Nat.eqb]. rewrite Hk. cbn [mbind result_bind Py.bind ml_subtype].
    rewrite (getitem_Some _ i (Index k))
      by (apply list_lookup_insert_eq; lia).
    cbn [mbind result_bind Py.bind py_int].
    rewrite (getitem_Some _ _ _ Hsubject).
    cbn [mbind result_bind Py.bind].
    rewrite mapM_column
      by (eapply Forall_impl; [exact Hcol|]; by intros r [? _]).
    cbn [mbind result_bind Py.bind].
    rewrite (count_nan_0 _ (stage_column_no_nan _ _ Hcol)). cbn [Nat.eqb].
    rewrite Hj. cbn [mbind result_bind Py.bind ml_subtype prob_ml_subtype
                     ml_stage prob_ml_stage]. reflexivity.
  - unfold assignment_lengths. cbn [ml_subtype prob_ml_subtype ml_stage
                                     prob_ml_stage].
    by rewrite !length_insert.
  - exists k, x, j, y. cbn [ml_subtype prob_ml_subtype ml_stage prob_ml_stage].
    rewrite !list_lookup_insert_eq by lia. done.
  - intros j' Hne. cbn [ml_subtype prob_ml_subtype ml_stage prob_ml_stage].
    by rewrite !list_lookup_insert_ne by done.
Qed.

Lemma assign_prefix_first_maxima nSamples N_S p n :
  posterior_without_nan nSamples N_S p → n ≤ nSamples →
  ∀ out0, assignment_lengths nSamples out0 →
  ∃ out,
    Py.for_each (assign_body p) (Py.range n) out0 = Py.Ok out
    ∧ assignment_lengths nSamples out
    ∧ ∀ i row subject,
        i < n → prob_subtype p !! i = Some row →
        prob_subtype_stage p !! i = Some subject →
        assigned_first_maxima row subject out i.
Proof.
  intros Hp. induction n as [|n IH]; intros Hn out0 Hlen.
  - exists out0. split; [done|]. split; [done|]. intros; lia.
  - destruct (IH ltac:(lia) out0 Hlen) as (out & Hrun & Hlens & Hdone).
    pose proof Hp as (_ & Hl1 & Hl2 & _).
    destruct (lookup_lt_is_Some_2 (prob_subtype p) n ltac:(lia)) as [row Hrow].
    destruct (lookup_lt_is_Some_2 (prob_subtype_stage p) n ltac:(lia))
      as [subject Hsubject].
    destruct (assign_body_first_maxima _ _ _ _ _ _ _ Hp Hlens Hrow Hsubject)
      as (out' & Hstep & Hlens' & Hnew & Hother).
    exists out'. split; [|split; [done|]].
    + rewrite Py.range_S, Py.for_each_app, Hrun. cbn [Py.bind Py.for_each].
      by rewrite Hstep.
    + intros i row' subject' Hi Hrow' Hsubject'.
      destruct (decide (i = n)) as [->|Hne].
      * by simplify_eq.
      * destruct (Hdone i row' subject' ltac:(lia) Hrow' Hsubject')
          as (k & x & j & y & H1 & H2 & H3 & H4 & H5 & H6 & H7 & H8).
        destruct (Hother i Hne) as (E1 & E2 & E3 & E4).
        exists k, x, j, y. rewrite E1, E2, E3, E4. done.
Qed.

(** X13. On averaged posteriors without NaN (at least two subtypes and two
    stages), the assignment loop of [subtype_and_stage_individuals] returns
    normally and gives every subject the lowest-index subtype of maximal
    posterior probability together with that probability, and the
    lowest-index stage of maximal probability within that subtype's column of
    the joint posterior, together with that probability. *)
Theorem assign_all_first_maxima nSamples N_S p :
  posterior_without_nan nSamples N_S p →
  ∃ out,
    assign_all nSamples p = Py.Ok out
    ∧ assignment_lengths nSamples out
    ∧ ∀ i row subject,
        prob_subtype p !! i = Some row →
        prob_subtype_stage p !! i = Some subject →
        assigned_first_maxima row subject out i.
Proof.
  intros Hp. unfold assign_all.
  destruct (assign_prefix_first_maxima nSamples N_S p nSamples Hp ltac:(lia)
              {| ml_subtype := replicate nSamples NotANumber;
                 prob_ml_subtype := replicate nSamples nan;
                 ml_stage := replicate nSamples NotANumber;
                 prob_ml_stage := replicate nSamples nan |})
    as (out & Hrun & Hlens & Hall).
  { unfold assignment_lengths. cbn. by rewrite !length_replicate. }
  exists out. split; [done|]. split; [done|].
  intros i row subject Hrow Hsubject. apply Hall; [|done|done].
  destruct Hp as (_ & <- & _). by eapply lookup_lt_Some.
Qed.

End SubtypeAndStage.

(** *** A chain on which one subject has zero likelihood

    Two subjects, two subtypes, one stage, a chain of one draw.  Every stage
    likelihood of the first subject is zero, so each of its normalisations
    divides zero by zero. *)

Definition demo_samples (_ : unit) : nat := 2.
Definition demo_stages (_ : unit) : nat := 1.
Definition demo_select (_ _ : nat) : list nat := [0].
Definition demo_sort (_ : list (list float)) : list nat := [0; 1].
Definition zero_for_first_subject (_ : unit) (_ : list nat) (_ : list float)
  : list (list float) * list (list float) * list (list (list float)) :=
  ([[0; 0]; [0.25; 0.25]]%float,
   [[0; 0]; [0.25; 0.25]]%float,
   [[[0; 0]; [0; 0]]; [[0.5; 0.5]; [0.5; 0.5]]]%float).
Definition positive_everywhere (_ : unit) (_ : list nat) (_ : list float)
  : list (list float) * list (list float) * list (list (list float)) :=
  ([[0.125; 0.375]; [0.25; 0.25]]%float,
   [[0.375; 0.125]; [0.25; 0.25]]%float,
   [[[0.25; 0]; [0.5; 0.25]]; [[0.5; 0.5]; [0.5; 0.5]]]%float).

Example assignment_of_positive_chain :
  subtype_and_stage_individuals demo_samples demo_stages positive_everywhere
    demo_select demo_sort tt [[5]; [6]] [[0.5]; [0.5]]%float 1
  = Py.Ok ([Index 0; Index 0], [0.75; 0.5]%float,
           [Index 1; Index 0], [0.5; 0.25]%float).
Proof. vm_compute. reflexivity. Qed.

(** C6 fails on the code.  The subject with zero likelihood has NaN in its
    averaged subtype posterior; [int(ml_subtype[i])] is then [int(nan)], and the
    call raises [ValueError] instead of returning NaN entries. *)
Theorem subtype_and_stage_individuals_nan_raises :
  subtype_and_stage_individuals demo_samples demo_stages zero_for_first_subject
    demo_select demo_sort tt [[5]; [6]] [[0.5]; [0.5]]%float 1
  = Py.Raise (Py.ValueError "cannot convert float NaN to integer").
Proof. vm_compute. reflexivity. Qed.

(** Averaged posteriors of two subjects over two subtypes and two stages: one
    without NaN, and one in which the second subject has NaN throughout. *)
Definition demo_posterior : posterior :=
  {| prob_subtype_stage :=
       [[[0.25; 0.125]; [0.5; 0.125]]; [[0.125; 0.25]; [0.125; 0.5]]]%float;
     prob_subtype := [[0.75; 0.25]; [0.25; 0.75]]%float;
     prob_stage := [[0.375; 0.625]; [0.375; 0.625]]%float |}.
Definition nan_posterior : posterior :=
  {| prob_subtype_stage :=
       [[[0.25; 0.125]; [0.5; 0.125]]; [[nan; nan]; [nan; nan]]]%float;
     prob_subtype := [[0.75; 0.25]; [nan; nan]]%float;
     prob_stage := [[0.375; 0.625]; [nan; nan]]%float |}.

Lemma assign_all_nan_raises_witness :
  assign_all 2 nan_posterior
  = Py.Raise (Py.ValueError "cannot convert float NaN to integer").
Proof.
  eapply (assign_all_nan_raises 2 nan_posterior 1 [nan; nan]).
  - lia.
  - reflexivity.
  - unfold has_nan. vm_compute. discriminate.
  - vm_compute. reflexivity.
Defined.

Lemma assign_all_first_maxima_witness :
  posterior_without_nan 2 2 demo_posterior
  ∧ ∃ out,
      assign_all 2 demo_posterior = Py.Ok out
      ∧ assigned_first_maxima [0.75; 0.25]%float
          [[0.25; 0.125]; [0.5; 0.125]]%float out 0
      ∧ assigned_first_maxima [0.25; 0.75]%float
          [[0.125; 0.25]; [0.125; 0.5]]%float out 1.
Proof.
  assert (posterior_without_nan 2 2 demo_posterior) as Hp.
  { unfold posterior_without_nan, demo_posterior, Np.no_nan. cbn.
    repeat split; try lia; repeat constructor. }
  split; [exact Hp|].
  destruct (assign_all_first_maxima 2 2 demo_posterior Hp) as (out & H & _ & Hall).
  exists out. split; [exact H|]. split; by apply Hall.
Defined.

End Assigner.

(** ** The drivers: [run_sustain_algorithm] and [cross_validate_sustain_model] *)

Module Driver.

Section Pipeline.
Context {SustainData ndarray Rng : Type}.

(** [self.N_S_max], [self.output_folder], [self.dataset_name] *)
Variable N_S_max : nat.
Variable output_folder : string.
Variable dataset_name : string.
Variable getNumSamples : SustainData → nat.
Variable reindex : SustainData → list nat → SustainData.
(** The empty list that [ml_sequence_prev_EM] and [ml_f_prev_EM] start as. *)
Variable empty_list : ndarray.
(** The grower, restricted to the outputs the drivers read
    ([ml_sequence_EM], [ml_f_EM]). *)
Variable estimate_ml_sustain_model_nplus1_clusters :
  SustainData → ndarray → ndarray → Rng → Py.result (ndarray * ndarray * Rng).
(** The sampler, restricted to [samples_sequence], [samples_f],
    [samples_likelihood]. *)
Variable estimate_uncertainty_sustain_model :
  SustainData → ndarray → ndarray → Rng → Py.result (ndarray * ndarray * ndarray * Rng).
Variable evaluate_likelihood_setofsamples :
  SustainData → ndarray → ndarray → ndarray.
Variable subtype_and_stage_individuals :
  SustainData → ndarray → ndarray → nat →
  Py.result (ndarray * ndarray * ndarray * ndarray).

(** What lies outside the interpreter: the pickle files, by name, each holding
    the dictionary that was dumped; the figures drawn, by subtype index; the
    generator. *)
Record world : Type := World {
  files : gmap string (gmap string ndarray);
  plots : list (nat * ndarray * ndarray * ndarray);
  rng : Rng
}.

(** *** [run_sustain_algorithm] *)

Definition pickle_filename_s (s : nat) : string :=
  output_folder +:+ "/" +:+ dataset_name +:+ "_subtype" +:+ pretty s +:+ ".pickle".

(** The local variables that live across passes.  [returned] holds
    [samples_sequence, samples_f, ml_subtype, prob_ml_subtype, ml_stage,
    prob_ml_stage]; these are unbound before the first pass. *)
Record run_state : Type := RunState {
  ml_sequence_prev_EM : ndarray;
  ml_f_prev_EM : ndarray;
  returned : option (ndarray * ndarray * ndarray * ndarray * ndarray * ndarray);
  run_world : world
}.

(** The [if pickle_filepath.exists(): ... else: ...] block at the head of a
    pass: the chain and the optima are unpickled, or fitted and sampled. *)
Definition load_or_fit (sustainData : SustainData) (s : nat)
    (prev_seq prev_f : ndarray) (w : world)
  : Py.result (ndarray * ndarray * ndarray * ndarray * ndarray * ndarray
               * ndarray * Rng) :=
  match files w !! pickle_filename_s s with
  | Some loaded_variables =>
      samples_likelihood ← Py.dict_get loaded_variables "samples_likelihood";
      samples_sequence ← Py.dict_get loaded_variables "samples_sequence";
      samples_f ← Py.dict_get loaded_variables "samples_f";
      ml_sequence_EM ← Py.dict_get loaded_variables "ml_sequence_EM";
      ml_sequence_prev_EM ← Py.dict_get loaded_variables "ml_sequence_prev_EM";
      ml_f_EM ← Py.dict_get loaded_variables "ml_f_EM";
      ml_f_prev_EM ← Py.dict_get loaded_variables "ml_f_prev_EM";
      Py.Ok (samples_likelihood, samples_sequence, samples_f,
             ml_sequence_EM, ml_sequence_prev_EM, ml_f_EM, ml_f_prev_EM, rng w)
  | None =>
      '(ml_sequence_EM, ml_f_EM, g1) ←
        estimate_ml_sustain_model_nplus1_clusters sustainData prev_seq prev_f (rng w);
      let seq_init := ml_sequence_EM in
      let f_init := ml_f_EM in
      '(samples_sequence, samples_f, samples_likelihood, g2) ←
        estimate_uncertainty_sustain_model sustainData seq_init f_init g1;
      Py.Ok (samples_likelihood, samples_sequence, samples_f,
             ml_sequence_EM, ml_sequence_EM, ml_f_EM, ml_f_EM, g2)
  end.

(** One pass of [for s in range(self.N_S_max)], as a function of what it
    reads: the previous optimum and the world. *)
Definition run_step (sustainData : SustainData) (s : nat)
    (prev_seq prev_f : ndarray) (w : world)
  : Py.result (ndarray * ndarray
               * (ndarray * ndarray * ndarray * ndarray * ndarray * ndarray)
               * world) :=
  let pickle_filename := pickle_filename_s s in
  '(samples_likelihood, samples_sequence, samples_f,
    ml_sequence_EM, prev_seq', ml_f_EM, prev_f', g) ←
    load_or_fit sustainData s prev_seq prev_f w;
  let N_samples := 1000 in
  '(ml_subtype, prob_ml_subtype, ml_stage, prob_ml_stage) ←
    subtype_and_stage_individuals sustainData samples_sequence samples_f N_samples;
  let files' :=
    match files w !! pickle_filename with
    | Some _ => files w
    | None =>
        let save_variables : gmap string ndarray := ∅ in
        let save_variables := <["samples_sequence" := samples_sequence]> save_variables in
        let save_variables := <["samples_f" := samples_f]> save_variables in
        let save_variables := <["samples_likelihood" := samples_likelihood]> save_variables in
        let save_variables := <["ml_subtype" := ml_subtype]> save_variables in
        let save_variables := <["prob_ml_subtype" := prob_ml_subtype]> save_variables in
        let save_variables := <["ml_stage" := ml_stage]> save_variables in
        let save_variables := <["prob_ml_stage" := prob_ml_stage]> save_variables in
        let save_variables := <["ml_sequence_EM" := ml_sequence_EM]> save_variables in
        let save_variables := <["ml_sequence_prev_EM" := prev_seq']> save_variables in
        let save_variables := <["ml_f_EM" := ml_f_EM]> save_variables in
        let save_variables := <["ml_f_prev_EM" := prev_f']> save_variables in
        <[pickle_filename := save_variables]> (files w)
    end in
  Py.Ok (prev_seq', prev_f',
         (samples_sequence, samples_f, ml_subtype, prob_ml_subtype, ml_stage,
          prob_ml_stage),
         {| files := files';
            plots := plots w ++ [(s, samples_sequence, samples_f, samples_likelihood)];
            rng := g |}).

Definition run_body (sustainData : SustainData) (s : nat) (st : run_state)
  : Py.result run_state :=
  '(prev_seq, prev_f, out, w) ←
    run_step sustainData s (ml_sequence_prev_EM st) (ml_f_prev_EM st) (run_world st);
  Py.Ok {| ml_sequence_prev_EM := prev_seq;
           ml_f_prev_EM := prev_f;
           returned := Some out;
           run_world := w |}.

Definition run_init (w : world) : run_state :=
  {| ml_sequence_prev_EM := empty_list;
     ml_f_prev_EM := empty_list;
     returned := None;
     run_world := w |}.

Definition run_sustain_algorithm (sustainData : SustainData) (w : world)
  : Py.result (ndarray * ndarray * ndarray * ndarray * ndarray * ndarray * world) :=
  st ← Py.for_each (run_body sustainData) (Py.range N_S_max) (run_init w);
  match returned st with
  | Some out => Py.Ok (out, run_world st)
  | None => Py.Raise (Py.UnboundLocalError "samples_sequence")
  end.

(** *** [cross_validate_sustain_model] *)

Definition pickle_filename_fold_s (fold s : nat) : string :=
  output_folder +:+ "/" +:+ dataset_name +:+ "_fold" +:+ pretty fold
  +:+ "_subtype" +:+ pretty s +:+ ".pickle".

(** One pass of the inner loop, [for s in range(self.N_S_max)]. *)
Definition cv_body (sustainData_train sustainData_test : SustainData)
    (fold s : nat) (st : ndarray * ndarray * world)
  : Py.result (ndarray * ndarray * world) :=
  let '(ml_sequence_prev_EM, ml_f_prev_EM, w) := st in
  let pickle_filename := pickle_filename_fold_s fold s in
  match files w !! pickle_filename with
  | Some loaded_variables =>
      ml_sequence_EM ← Py.dict_get loaded_variables "ml_sequence_EM";
      ml_sequence_prev_EM ← Py.dict_get loaded_variables "ml_sequence_prev_EM";
      ml_f_EM ← Py.dict_get loaded_variables "ml_f_EM";
      ml_f_prev_EM ← Py.dict_get loaded_variables "ml_f_prev_EM";
      samples_likelihood ← Py.dict_get loaded_variables "samples_likelihood";
      samples_sequence ← Py.dict_get loaded_variables "samples_sequence";
      samples_f ← Py.dict_get loaded_variables "samples_f";
      samples_likelihood_subj_test ←
        Py.dict_get loaded_variables "samples_likelihood_subj_test";
      Py.Ok (ml_sequence_prev_EM, ml_f_prev_EM, w)
  | None =>
      '(ml_sequence_EM, ml_f_EM, g1) ←
        estimate_ml_sustain_model_nplus1_clusters sustainData_train
          ml_sequence_prev_EM ml_f_prev_EM (rng w);
      let seq_init := ml_sequence_EM in
      let f_init := ml_f_EM in
      '(samples_sequence, samples_f, samples_likelihood, g2) ←
        estimate_uncertainty_sustain_model sustainData_test seq_init f_init g1;
      let samples_likelihood_subj_test :=
        evaluate_likelihood_setofsamples sustainData_test samples_sequence samples_f in
      let ml_sequence_prev_EM := ml_sequence_EM in
      let ml_f_prev_EM := ml_f_EM in
      let save_variables : gmap string ndarray := ∅ in
      let save_variables := <["ml_sequence_EM" := ml_sequence_EM]> save_variables in
      let save_variables := <["ml_sequence_prev_EM" := ml_sequence_prev_EM]> save_variables in
      let save_variables := <["ml_f_EM" := ml_f_EM]> save_variables in
      let save_variables := <["ml_f_prev_EM" := ml_f_prev_EM]> save_variables in
      (* the source assigns [save_variables = {}] a second time here *)
      let save_variables : gmap string ndarray := ∅ in
      let save_variables := <["samples_sequence" := samples_sequence]> save_variables in
      let save_variables := <["samples_f" := samples_f]> save_variables in
      let save_variables := <["samples_likelihood" := samples_likelihood]> save_variables in
      let save_variables :=
        <["samples_likelihood_subj_test" := samples_likelihood_subj_test]> save_variables in
      Py.Ok (ml_sequence_prev_EM, ml_f_prev_EM,
             {| files := <[pickle_filename := save_variables]> (files w);
                plots := plots w;
                rng := g2 |})
  end.

(** One pass of the outer loop, [for fold in range(Nfolds)]. *)
Definition cv_fold (sustainData : SustainData) (test_idxs : list (list nat))
    (fold : nat) (w : world) : Py.result world :=
  indx_test ← Py.getitem test_idxs fold;
  let indx_train :=
    filter (λ x, x ∉ indx_test) (Py.range (getNumSamples sustainData)) in
  let sustainData_train := reindex sustainData indx_train in
  let sustainData_test := reindex sustainData indx_test in
  '(_, _, w') ←
    Py.for_each (cv_body sustainData_train sustainData_test fold)
      (Py.range N_S_max) (empty_list, empty_list, w);
  Py.Ok w'.

(** [test_idxs] is the list of folds that are run (after the optional
    selection by [select_fold]). *)
Definition cross_validate_sustain_model (sustainData : SustainData)
    (test_idxs : list (list nat)) (w : world) : Py.result world :=
  let Nfolds := length test_idxs in
  Py.for_each (cv_fold sustainData test_idxs) (Py.range Nfolds) w.

(** *** Vocabulary of the statements *)

(** Every file that exists holds a dictionary. *)
Definition extends (fs fs' : gmap string (gmap string ndarray)) : Prop :=
  ∀ name, is_Some (fs !! name) → is_Some (fs' !! name).

(** No pickled dictionary has the key ["ml_sequence_EM"]. *)
Definition no_ml_sequence_EM (fs : gmap string (gmap string ndarray)) : Prop :=
  ∀ name payload, fs !! name = Some payload → payload !! "ml_sequence_EM" = None.

(** The subtype indices of the figures drawn so far, in order. *)
Definition plotted (w : world) : list nat := (λ p, p.1.1.1) <$> plots w.

(** The dictionary holds the chain of a fit under the keys it is pickled
    with, and the assignment of the subjects under theirs. *)
Definition holds_chain (payload : gmap string ndarray)
    (samples_sequence samples_f samples_likelihood : ndarray) : Prop :=
  payload !! "samples_sequence" = Some samples_sequence
  ∧ payload !! "samples_f" = Some samples_f
  ∧ payload !! "samples_likelihood" = Some samples_likelihood.

Definition holds_assignment (payload : gmap string ndarray)
    (ml_subtype prob_ml_subtype ml_stage prob_ml_stage : ndarray) : Prop :=
  payload !! "ml_subtype" = Some ml_subtype
  ∧ payload !! "prob_ml_subtype" = Some prob_ml_subtype
  ∧ payload !! "ml_stage" = Some ml_stage
  ∧ payload !! "prob_ml_stage" = Some prob_ml_stage.

(** The keys [run_sustain_algorithm] reads back from a pickle file. *)
Definition run_keys : list string :=
  ["samples_likelihood"; "samples_sequence"; "samples_f"; "ml_sequence_EM";
   "ml_sequence_prev_EM"; "ml_f_EM"; "ml_f_prev_EM"].

(** The keys [cross_validate_sustain_model] reads back from a pickle file. *)
Definition cv_keys : list string :=
  ["ml_sequence_EM"; "ml_sequence_prev_EM"; "ml_f_EM"; "ml_f_prev_EM";
   "samples_likelihood"; "samples_sequence"; "samples_f";
   "samples_likelihood_subj_test"].

Lemma extends_refl fs : extends fs fs.
Proof. by intros ?. Qed.

Lemma extends_trans fs1 fs2 fs3 : extends fs1 fs2 → extends fs2 fs3 → extends fs1 fs3.
Proof. intros H1 H2 name H. by apply H2, H1. Qed.

Lemma extends_insert fs name payload : extends fs (<[name := payload]> fs).
Proof.
  intros k Hk. destruct (decide (name = k)) as [->|Hne].
  - rewrite lookup_insert_eq. eauto.
  - by rewrite lookup_insert_ne.
Qed.

(** *** Checkpoints of the cross-validation *)

Lemma cv_body_found tr te fold s a b w payload :
  files w !! pickle_filename_fold_s fold s = Some payload →
  payload !! "ml_sequence_EM" = None →
  cv_body tr te fold s (a, b, w) = Py.Raise (Py.KeyError "ml_sequence_EM").
Proof.
  intros Hfile Hkey. unfold cv_body. rewrite Hfile.
  unfold Py.dict_get. by rewrite Hkey.
Qed.

Lemma cv_body_ok tr te fold s a b w a' b' w' :
  no_ml_sequence_EM (files w) →
  cv_body tr te fold s (a, b, w) = Py.Ok (a', b', w') →
  no_ml_sequence_EM (files w') ∧ extends (files w) (files w')
  ∧ is_Some (files w' !! pickle_filename_fold_s fold s).
Proof.
  intros Hinv H.
  destruct (files w !! pickle_filename_fold_s fold s) as [payload|] eqn:Hfile.
  { rewrite (cv_body_found _ _ _ _ _ _ _ payload) in H; [done|done|].
    by apply (Hinv _ _ Hfile). }
  unfold cv_body in H. rewrite Hfile in H.
  destruct (estimate_ml_sustain_model_nplus1_clusters _ _ _ _)
    as [[[seq f] g1]| |]; cbn in H; try discriminate.
  destruct (estimate_uncertainty_sustain_model _ _ _ _)
    as [[[[ss sf] sl] g2]| |]; cbn in H; try discriminate.
  injection H as <- <- <-. cbn [files]. split; [|split].
  - intros name payload Hname.
    destruct (decide (pickle_filename_fold_s fold s = name)) as [<-|Hne].
    + rewrite lookup_insert_eq in Hname. injection Hname as <-.
      by rewrite !lookup_insert_ne, lookup_empty.
    + rewrite lookup_insert_ne in Hname by done. by apply (Hinv _ _ Hname).
  - apply extends_insert.
  - rewrite lookup_insert_eq. eauto.
Qed.

Lemma cv_loop_ok tr te fold : ∀ ss a b w a' b' w',
  no_ml_sequence_EM (files w) →
  Py.for_each (cv_body tr te fold) ss (a, b, w) = Py.Ok (a', b', w') →
  no_ml_sequence_EM (files w') ∧ extends (files w) (files w')
  ∧ ∀ s, s ∈ ss → is_Some (files w' !! pickle_filename_fold_s fold s).
Proof.
  induction ss as [|s ss IH]; intros a b w a' b' w' Hinv H;
    cbn [Py.for_each] in H.
  - injection H as <- <- <-. split; [done|]. split; [apply extends_refl|].
    by intros s ?%elem_of_nil.
  - destruct (cv_body tr te fold s (a, b, w)) as [[[a1 b1] w1]| |] eqn:Hs;
      cbn [Py.bind] in H; try discriminate.
    destruct (cv_body_ok _ _ _ _ _ _ _ _ _ _ Hinv Hs) as (Hinv1 & Hext1 & Hfile).
    destruct (IH _ _ _ _ _ _ Hinv1 H) as (Hinv' & Hext' & Hfiles).
    split; [done|]. split; [by eapply extends_trans|].
    intros s' [->|Hs']%elem_of_cons; [by apply Hext'|by apply Hfiles].
Qed.

Lemma cv_fold_ok d test_idxs fold w w' :
  no_ml_sequence_EM (files w) →
  cv_fold d test_idxs fold w = Py.Ok w' →
  no_ml_sequence_EM (files w') ∧ extends (files w) (files w')
  ∧ ∀ s, s < N_S_max → is_Some (files w' !! pickle_filename_fold_s fold s).
Proof.
  intros Hinv H. unfold cv_fold in H.
  destruct (Py.getitem test_idxs fold) as [indx_test| |]; cbn in H; try discriminate.
  destruct (Py.for_each _ _ _) as [[[a b] w1]| |] eqn:Hloop; cbn in H;
    try discriminate.
  injection H as <-.
  destruct (cv_loop_ok _ _ _ _ _ _ _ _ _ _ Hinv Hloop) as (H1 & H2 & H3).
  split; [done|]. split; [done|]. intros s Hs. apply H3.
  unfold Py.range. apply elem_of_seq. lia.
Qed.

Lemma cv_folds_ok d test_idxs : ∀ folds w w',
  no_ml_sequence_EM (files w) →
  Py.for_each (cv_fold d test_idxs) folds w = Py.Ok w' →
  no_ml_sequence_EM (files w') ∧ extends (files w) (files w')
  ∧ ∀ fold s, fold ∈ folds → s < N_S_max →
      is_Some (files w' !! pickle_filename_fold_s fold s).
Proof.
  induction folds as [|fold folds IH]; intros w w' Hinv H; cbn [Py.for_each] in H.
  - injection H as <-. split; [done|]. split; [apply extends_refl|].
    by intros fold s ?%elem_of_nil.
  - destruct (cv_fold d test_idxs fold w) as [w1| |] eqn:Hf;
      cbn [Py.bind] in H; try discriminate.
    destruct (cv_fold_ok _ _ _ _ _ Hinv Hf) as (Hinv1 & Hext1 & Hfile).
    destruct (IH _ _ Hinv1 H) as (Hinv' & Hext' & Hfiles).
    split; [done|]. split; [by eapply extends_trans|].
    intros fold' s [->|Hin]%elem_of_cons Hs; [by apply Hext', Hfile|by apply Hfiles].
Qed.

(** The checkpoint that [cross_validate_sustain_model] writes cannot be read
    back by it.  After a run that started from files of its own making (or from
    none) and ended normally, a second run finds the file of fold 0 and
    subtype count 0 and raises [KeyError] on the first key it reads. *)
Lemma cross_validate_rerun_raises d test_idxs w w' w2 :
  0 < N_S_max → 0 < length test_idxs →
  no_ml_sequence_EM (files w) →
  cross_validate_sustain_model d test_idxs w = Py.Ok w' →
  files w2 = files w' →
  cross_validate_sustain_model d test_idxs w2
  = Py.Raise (Py.KeyError "ml_sequence_EM").
Proof.
  intros HN Hfolds Hinv Hrun Hfiles. unfold cross_validate_sustain_model in *.
  destruct (cv_folds_ok _ _ _ _ _ Hinv Hrun) as (Hinv' & _ & Hwritten).
  destruct (Hwritten 0 0) as [payload Hpayload]; [|done|].
  { unfold Py.range. apply elem_of_seq. lia. }
  destruct test_idxs as [|indx_test rest]; [simpl in Hfolds; lia|].
  cbn [length Py.range seq Py.for_each]. unfold cv_fold at 1.
  cbn [Py.getitem lookup list_lookup mbind result_bind Py.bind].
  destruct N_S_max as [|n]; [lia|]. cbn [Py.range seq Py.for_each].
  rewrite (cv_body_found _ _ _ _ _ _ _ payload); [done|by rewrite Hfiles|].
  by apply (Hinv' _ _ Hpayload).
Qed.

(** The dictionary that [run_sustain_algorithm] pickles has every key that it
    reads back. *)
Lemma run_step_checkpoint_complete d s p1 p2 w p1' p2' out w' :
  files w !! pickle_filename_s s = None →
  run_step d s p1 p2 w = Py.Ok (p1', p2', out, w') →
  ∃ payload, files w' !! pickle_filename_s s = Some payload
             ∧ Forall (λ key, is_Some (payload !! key)) run_keys.
Proof.
  intros Hfile H. unfold run_step in H.
  destruct (load_or_fit d s p1 p2 w) as [[[[[[[[sl ss] sf] seq] pseq] f] pf] g]| |];
    cbn [mbind result_bind Py.bind] in H; try discriminate.
  destruct (subtype_and_stage_individuals _ _ _ _)
    as [[[[a b] c] e]| |]; cbn [mbind result_bind Py.bind] in H; try discriminate.
  rewrite Hfile in H. injection H as <- <- <- <-. cbn [files]. eexists. split.
  - apply lookup_insert_eq.
  - unfold run_keys. repeat constructor; simplify_map_eq; eauto.
Qed.

(** *** What [run_sustain_algorithm] returns *)

Lemma load_or_fit_cases d s p1 p2 w sl ss sf seq pseq f pf g :
  load_or_fit d s p1 p2 w = Py.Ok (sl, ss, sf, seq, pseq, f, pf, g) →
  (∃ payload, files w !! pickle_filename_s s = Some payload
              ∧ payload !! "samples_sequence" = Some ss
              ∧ payload !! "samples_f" = Some sf)
  ∨ (files w !! pickle_filename_s s = None
     ∧ ∃ g1,
         estimate_ml_sustain_model_nplus1_clusters d p1 p2 (rng w)
         = Py.Ok (seq, f, g1)
         ∧ estimate_uncertainty_sustain_model d seq f g1 = Py.Ok (ss, sf, sl, g)).
Proof.
  unfold load_or_fit. intros H.
  destruct (files w !! pickle_filename_s s) as [payload|] eqn:Hfile.
  - unfold Py.dict_get in H.
    destruct (payload !! "samples_likelihood"); cbn in H; try discriminate.
    destruct (payload !! "samples_sequence") eqn:H1; cbn in H; try discriminate.
    destruct (payload !! "samples_f") eqn:H2; cbn in H; try discriminate.
    destruct (payload !! "ml_sequence_EM"); cbn in H; try discriminate.
    destruct (payload !! "ml_sequence_prev_EM"); cbn in H; try discriminate.
    destruct (payload !! "ml_f_EM"); cbn in H; try discriminate.
    destruct (payload !! "ml_f_prev_EM"); cbn in H; try discriminate.
    injection H as <- <- <- <- <- <- <- <-.
    left. exists payload. by rewrite H1, H2.
  - destruct (estimate_ml_sustain_model_nplus1_clusters _ _ _ _)
      as [[[seq0 f0] g1]| |] eqn:Hml; cbn in H; try discriminate.
    destruct (estimate_uncertainty_sustain_model _ _ _ _)
      as [[[[ss0 sf0] sl0] g2]| |] eqn:Hun; cbn in H; try discriminate.
    injection H as <- <- <- <- <- <- <- <-.
    right. split; [done|]. by exists g1.
Qed.

Lemma run_step_fit d s p1 p2 w p1' p2' ss sf a b c e w' :
  run_step d s p1 p2 w = Py.Ok (p1', p2', (ss, sf, a, b, c, e), w') →
  subtype_and_stage_individuals d ss sf 1000 = Py.Ok (a, b, c, e)
  ∧ ((∃ payload, files w !! pickle_filename_s s = Some payload
                 ∧ payload !! "samples_sequence" = Some ss
                 ∧ payload !! "samples_f" = Some sf)
     ∨ (files w !! pickle_filename_s s = None
        ∧ ∃ seq_EM f_EM g1 sl g2,
            estimate_ml_sustain_model_nplus1_clusters d p1 p2 (rng w)
            = Py.Ok (seq_EM, f_EM, g1)
            ∧ estimate_uncertainty_sustain_model d seq_EM f_EM g1
              = Py.Ok (ss, sf, sl, g2))).
Proof.
  intros H. unfold run_step in H.
  destruct (load_or_fit d s p1 p2 w)
    as [[[[[[[[sl ss0] sf0] seq] pseq] f] pf] g]| |] eqn:Hload;
    cbn [mbind result_bind Py.bind] in H; try discriminate.
  destruct (subtype_and_stage_individuals _ _ _ _)
    as [[[[a0 b0] c0] e0]| |] eqn:Hsub; cbn [mbind result_bind Py.bind] in H;
    try discriminate.
  injection H as <- <- <- <- <- <- <- <- <-. split; [done|].
  destruct (load_or_fit_cases _ _ _ _ _ _ _ _ _ _ _ _ _ Hload) as [Hl|[Hn (g1 & ? & ?)]].
  - by left.
  - right. split; [done|]. by exists seq, f, g1, sl, g.
Qed.

Lemma run_step_world d s p1 p2 w p1' p2' out w' :
  run_step d s p1 p2 w = Py.Ok (p1', p2', out, w') →
  extends (files w) (files w')
  ∧ is_Some (files w' !! pickle_filename_s s)
  ∧ plotted w' = plotted w ++ [s].
Proof.
  intros H. unfold run_step in H.
  destruct (load_or_fit d s p1 p2 w)
    as [[[[[[[[sl ss0] sf0] seq] pseq] f] pf] g]| |];
    cbn [mbind result_bind Py.bind] in H; try discriminate.
  destruct (subtype_and_stage_individuals _ _ _ _)
    as [[[[a0 b0] c0] e0]| |]; cbn [mbind result_bind Py.bind] in H;
    try discriminate.
  injection H as <- <- <- <-. cbn [files]. split; [|split].
  - destruct (files w !! pickle_filename_s s); [apply extends_refl|].
    apply extends_insert.
  - destruct (files w !! pickle_filename_s s) eqn:Hfile; [by rewrite Hfile|].
    rewrite lookup_insert_eq. eauto.
  - unfold plotted. cbn [plots]. by rewrite fmap_app.
Qed.

Lemma run_loop_world d : ∀ ss st st',
  Py.for_each (run_body d) ss st = Py.Ok st' →
  extends (files (run_world st)) (files (run_world st'))
  ∧ (∀ s, s ∈ ss → is_Some (files (run_world st') !! pickle_filename_s s))
  ∧ plotted (run_world st') = plotted (run_world st) ++ ss.
Proof.
  induction ss as [|s ss IH]; intros st st' H; cbn [Py.for_each] in H.
  - injection H as <-. split; [apply extends_refl|].
    split; [by intros s ?%elem_of_nil|by rewrite app_nil_r].
  - destruct (run_body d s st) as [st1| |] eqn:Hs; cbn [Py.bind] in H;
      try discriminate.
    unfold run_body in Hs.
    destruct (run_step d s _ _ _) as [[[[p1 p2] out] w1]| |] eqn:Hstep;
      cbn in Hs; try discriminate.
    injection Hs as <-.
    destruct (run_step_world _ _ _ _ _ _ _ _ _ Hstep) as (Hext & Hfile & Hplot).
    destruct (IH _ _ H) as (Hext' & Hfiles & Hplots). cbn in *.
    split; [by eapply extends_trans|]. split.
    + intros s' [->|Hs']%elem_of_cons; [by apply Hext'|by apply Hfiles].
    + rewrite Hplots, Hplot, <- app_assoc. reflexivity.
Qed.

Lemma run_step_files d s p1 p2 w p1' p2' out w' :
  run_step d s p1 p2 w = Py.Ok (p1', p2', out, w') → files w ⊆ files w'.
Proof.
  intros H. unfold run_step in H.
  destruct (load_or_fit d s p1 p2 w)
    as [[[[[[[[sl ss0] sf0] seq] pseq] f] pf] g]| |];
    cbn [mbind result_bind Py.bind] in H; try discriminate.
  destruct (subtype_and_stage_individuals _ _ _ _)
    as [[[[a0 b0] c0] e0]| |]; cbn [mbind result_bind Py.bind] in H;
    try discriminate.
  injection H as <- <- <- <-. cbn [files].
  destruct (files w !! pickle_filename_s s) eqn:Hfile; [done|].
  by apply insert_subseteq.
Qed.

Lemma run_loop_files d : ∀ ss st st',
  Py.for_each (run_body d) ss st = Py.Ok st' →
  files (run_world st) ⊆ files (run_world st').
Proof.
  induction ss as [|s ss IH]; intros st st' H; cbn [Py.for_each] in H.
  - by injection H as <-.
  - destruct (run_body d s st) as [st1| |] eqn:Hs; cbn [Py.bind] in H;
      try discriminate.
    unfold run_body in Hs.
    destruct (run_step d s _ _ _) as [[[[p1 p2] out] w1]| |] eqn:Hstep;
      cbn [mbind result_bind Py.bind] in Hs; try discriminate.
    injection Hs as <-. etrans; [by eapply run_step_files|].
    by apply (IH _ _ H).
Qed.

(** What a pass leaves behind.  The pickle file of its subtype count holds the
    chain the pass binds, whether the pass found the file or wrote it, and the
    figure of the pass is drawn from that chain.  A file that the pass writes
    holds the assignment and the optima as well. *)
Lemma run_step_pickled d s p1 p2 w p1' p2' ss sf a b c e w' :
  run_step d s p1 p2 w = Py.Ok (p1', p2', (ss, sf, a, b, c, e), w') →
  ∃ payload sl,
    files w' !! pickle_filename_s s = Some payload
    ∧ holds_chain payload ss sf sl
    ∧ plots w' = plots w ++ [(s, ss, sf, sl)]
    ∧ (files w !! pickle_filename_s s = None →
       holds_assignment payload a b c e
       ∧ payload !! "ml_sequence_prev_EM" = Some p1'
       ∧ payload !! "ml_f_prev_EM" = Some p2').
Proof.
  intros H. unfold run_step in H.
  destruct (load_or_fit d s p1 p2 w)
    as [[[[[[[[sl ss0] sf0] seq] pseq] f] pf] g]| |] eqn:Hload;
    cbn [mbind result_bind Py.bind] in H; try discriminate.
  destruct (subtype_and_stage_individuals _ _ _ _)
    as [[[[a0 b0] c0] e0]| |]; cbn [mbind result_bind Py.bind] in H;
    try discriminate.
  injection H as <- <- <- <- <- <- <- <- <-. cbn [files plots].
  unfold load_or_fit in Hload.
  destruct (files w !! pickle_filename_s s) as [payload|] eqn:Hfile.
  - unfold Py.dict_get in Hload.
    destruct (payload !! "samples_likelihood") eqn:H0; cbn in Hload;
      try discriminate.
    destruct (payload !! "samples_sequence") eqn:H1; cbn in Hload;
      try discriminate.
    destruct (payload !! "samples_f") eqn:H2; cbn in Hload; try discriminate.
    destruct (payload !! "ml_sequence_EM"); cbn in Hload; try discriminate.
    destruct (payload !! "ml_sequence_prev_EM"); cbn in Hload; try discriminate.
    destruct (payload !! "ml_f_EM"); cbn in Hload; try discriminate.
    destruct (payload !! "ml_f_prev_EM"); cbn in Hload; try discriminate.
    injection Hload as <- <- <- <- <- <- <- <-.
    eexists payload, _. split; [done|]. split; [done|]. split; [done|].
    intros ?. discriminate.
  - destruct (estimate_ml_sustain_model_nplus1_clusters _ _ _ _)
      as [[[seq0 f0] g1]| |]; cbn in Hload; try discriminate.
    destruct (estimate_uncertainty_sustain_model _ _ _ _)
      as [[[[ss1 sf1] sl1] g2]| |]; cbn in Hload; try discriminate.
    injection Hload as <- <- <- <- <- <- <- <-.
    eexists _, _. split; [apply lookup_insert_eq|].
    split; [|split; [done|]].
    + unfold holds_chain. by simplify_map_eq.
    + intros _. unfold holds_assignment. by simplify_map_eq.
Qed.

(** The figures drawn are only ever added to. *)
Lemma run_loop_plots d : ∀ ss st st',
  Py.for_each (run_body d) ss st = Py.Ok st' →
  plots (run_world st) `prefix_of` plots (run_world st').
Proof.
  induction ss as [|s ss IH]; intros st st' H; cbn [Py.for_each] in H.
  - by injection H as <-.
  - destruct (run_body d s st) as [st1| |] eqn:Hs; cbn [Py.bind] in H;
      try discriminate.
    unfold run_body in Hs.
    destruct (run_step d s _ _ _) as [[[[p1 p2] [[[[[ss0 sf0] a] b] c] e]] w1]| |]
      eqn:Hstep; cbn [mbind result_bind Py.bind] in Hs; try discriminate.
    injection Hs as <-.
    destruct (run_step_pickled _ _ _ _ _ _ _ _ _ _ _ _ _ _ Hstep)
      as (payload & sl & _ & _ & Hplots & _).
    etrans; [|by apply (IH _ _ H)]. cbn [run_world]. rewrite Hplots.
    by apply prefix_app_r.
Qed.

(** The loop up to [n], cut at pass [s]. *)
Lemma run_loop_split d s n st0 st' :
  s < n →
  Py.for_each (run_body d) (Py.range n) st0 = Py.Ok st' →
  ∃ st st1,
    Py.for_each (run_body d) (Py.range s) st0 = Py.Ok st
    ∧ run_body d s st = Py.Ok st1
    ∧ Py.for_each (run_body d) (seq (S s) (n - S s)) st1 = Py.Ok st'.
Proof.
  intros Hs H. unfold Py.range in *.
  replace n with (s + S (n - S s)) in H by lia.
  rewrite seq_app, Py.for_each_app in H. cbn [Nat.add seq] in H.
  destruct (Py.for_each (run_body d) (seq 0 s) st0) as [st| |];
    cbn [Py.bind Py.for_each] in H; try discriminate.
  destruct (run_body d s st) as [st1| |] eqn:Hbody; cbn [Py.bind] in H;
    try discriminate.
  by exists st, st1.
Qed.

(** C10. With at least one subtype count to fit, [run_sustain_algorithm]
    returns what its last pass, [s = N_S_max - 1], binds: [samples_sequence] and
    [samples_f] as unpickled or sampled in that pass, and the assignment
    computed from them in that pass.  Every pass [s] leaves its fit behind:
    at the end of the run the pickle file of [s] holds, under
    [samples_sequence], [samples_f] and [samples_likelihood], the chain that
    pass [s] bound (and, when pass [s] wrote the file, the assignment of pass
    [s] too), and figure number [s] of the run is drawn from that chain.  Of
    these fits only that of the last pass is the return value; the earlier
    passes hand on only the previous optimum. *)
Theorem run_sustain_algorithm_returns_last_fit d w :
  0 < N_S_max →
  run_sustain_algorithm d w
  = (st ← Py.for_each (run_body d) (Py.range (N_S_max - 1)) (run_init w);
     '(_, _, out, w') ←
       run_step d (N_S_max - 1) (ml_sequence_prev_EM st) (ml_f_prev_EM st)
         (run_world st);
     Py.Ok (out, w'))
  ∧ (∀ ss sf a b c e w',
       run_sustain_algorithm d w = Py.Ok (ss, sf, a, b, c, e, w') →
       subtype_and_stage_individuals d ss sf 1000 = Py.Ok (a, b, c, e)
       ∧ (∀ s, s < N_S_max →
            ∃ st p1 p2 ss_s sf_s a_s b_s c_s e_s w_s payload sl_s,
              Py.for_each (run_body d) (Py.range s) (run_init w) = Py.Ok st
              ∧ run_step d s (ml_sequence_prev_EM st) (ml_f_prev_EM st)
                  (run_world st)
                = Py.Ok (p1, p2, (ss_s, sf_s, a_s, b_s, c_s, e_s), w_s)
              ∧ files w' !! pickle_filename_s s = Some payload
              ∧ holds_chain payload ss_s sf_s sl_s
              ∧ (files (run_world st) !! pickle_filename_s s = None →
                 holds_assignment payload a_s b_s c_s e_s)
              ∧ plots w' !! (length (plots w) + s) = Some (s, ss_s, sf_s, sl_s)
              ∧ (s = N_S_max - 1 →
                 (ss_s, sf_s, a_s, b_s, c_s, e_s) = (ss, sf, a, b, c, e)))
       ∧ plotted w' = plotted w ++ Py.range N_S_max).
Proof.
  intros HN. assert (N_S_max = S (N_S_max - 1)) as E by lia.
  assert (run_sustain_algorithm d w
          = (st ← Py.for_each (run_body d) (Py.range (N_S_max - 1)) (run_init w);
             '(_, _, out, w') ←
               run_step d (N_S_max - 1) (ml_sequence_prev_EM st)
                 (ml_f_prev_EM st) (run_world st);
             Py.Ok (out, w'))) as Heq.
  { unfold run_sustain_algorithm. rewrite E at 1.
    rewrite Py.range_S, Py.for_each_app.
    destruct (Py.for_each (run_body d) (Py.range (N_S_max - 1)) (run_init w))
      as [st| |]; [|done|done].
    cbn [Py.bind Py.for_each mbind result_bind]. unfold run_body.
    destruct (run_step d _ _ _ _) as [[[[p1 p2] out] w1]| |]; done. }
  split; [exact Heq|].
  intros ss sf a b c e w' Hrun. split.
  - rewrite Heq in Hrun.
    destruct (Py.for_each (run_body d) (Py.range (N_S_max - 1)) (run_init w))
      as [st1| |]; cbn [mbind result_bind Py.bind] in Hrun; try discriminate.
    destruct (run_step d _ _ _ _) as [[[[p1 p2] out] w1]| |] eqn:Hstep;
      cbn [mbind result_bind Py.bind] in Hrun; try discriminate.
    injection Hrun as -> ->.
    by apply run_step_fit in Hstep as [Hfit _].
  - unfold run_sustain_algorithm in Hrun.
    destruct (Py.for_each (run_body d) (Py.range N_S_max) (run_init w))
      as [st'| |] eqn:Hloop; cbn [mbind result_bind Py.bind] in Hrun;
      try discriminate.
    destruct (returned st') as [out|] eqn:Hout; [|discriminate].
    injection Hrun as -> <-.
    destruct (run_loop_world _ _ _ _ Hloop) as (_ & _ & Hplots).
    split; [|exact Hplots].
    intros s Hs.
    destruct (run_loop_split _ _ _ _ _ Hs Hloop) as (st & st1 & Hpre & Hbody & Hpost).
    unfold run_body in Hbody.
    destruct (run_step d s _ _ _)
      as [[[[p1 p2] [[[[[ss_s sf_s] a_s] b_s] c_s] e_s]] w_s]| |] eqn:Hstep;
      cbn [mbind result_bind Py.bind] in Hbody; try discriminate.
    injection Hbody as <-.
    destruct (run_step_pickled _ _ _ _ _ _ _ _ _ _ _ _ _ _ Hstep)
      as (payload & sl_s & Hfile & Hchain & Hplot & Hwritten).
    exists st, p1, p2, ss_s, sf_s, a_s, b_s, c_s, e_s, w_s, payload, sl_s.
    split; [done|]. split; [done|]. split; [|split; [done|split; [|split]]].
    + eapply lookup_weaken; [exact Hfile|].
      apply (run_loop_files _ _ _ _ Hpost).
    + intros Hnone. by apply Hwritten.
    + eapply prefix_lookup_Some; [|apply (run_loop_plots _ _ _ _ Hpost)].
      cbn [run_world]. rewrite Hplot. apply list_lookup_middle.
      destruct (run_loop_world _ _ _ _ Hpre) as (_ & _ & Hpl).
      apply (f_equal length) in Hpl. unfold plotted in Hpl.
      rewrite length_app, !length_fmap in Hpl. cbn [run_init run_world] in Hpl.
      unfold Py.range in Hpl. rewrite length_seq in Hpl. lia.
    + intros ->. replace (N_S_max - S (N_S_max - 1)) with 0 in Hpost by lia.
      cbn [seq Py.for_each] in Hpost. injection Hpost as <-.
      cbn [returned] in Hout. congruence.
Qed.

(** *** Files are only ever added *)

Lemma cv_body_files tr te fold s a b w a' b' w' :
  cv_body tr te fold s (a, b, w) = Py.Ok (a', b', w') → files w ⊆ files w'.
Proof.
  intros H. unfold cv_body in H.
  destruct (files w !! pickle_filename_fold_s fold s) as [payload|] eqn:Hfile.
  - repeat match type of H with
    | context [Py.dict_get ?a ?b] =>
        destruct (Py.dict_get a b); cbn [mbind result_bind Py.bind] in H;
        try discriminate
    end.
    by injection H as <- <- <-.
  - destruct (estimate_ml_sustain_model_nplus1_clusters _ _ _ _)
      as [[[seq f] g1]| |]; cbn [mbind result_bind Py.bind] in H;
      try discriminate.
    destruct (estimate_uncertainty_sustain_model _ _ _ _)
      as [[[[ss sf] sl] g2]| |]; cbn [mbind result_bind Py.bind] in H;
      try discriminate.
    injection H as <- <- <-. cbn [files]. by apply insert_subseteq.
Qed.

Lemma cv_loop_files tr te fold : ∀ ss a b w a' b' w',
  Py.for_each (cv_body tr te fold) ss (a, b, w) = Py.Ok (a', b', w') →
  files w ⊆ files w'.
Proof.
  induction ss as [|s ss IH]; intros a b w a' b' w' H; cbn [Py.for_each] in H.
  - by injection H as <- <- <-.
  - destruct (cv_body tr te fold s (a, b, w)) as [[[a1 b1] w1]| |] eqn:Hs;
      cbn [Py.bind] in H; try discriminate.
    etrans; [by eapply cv_body_files|]. by eapply IH.
Qed.

Lemma cv_folds_files d test_idxs : ∀ folds w w',
  Py.for_each (cv_fold d test_idxs) folds w = Py.Ok w' → files w ⊆ files w'.
Proof.
  induction folds as [|fold folds IH]; intros w w' H; cbn [Py.for_each] in H.
  - by injection H as <-.
  - destruct (cv_fold d test_idxs fold w) as [w1| |] eqn:Hf;
      cbn [Py.bind] in H; try discriminate.
    etrans; [|by eapply IH]. unfold cv_fold in Hf.
    destruct (Py.getitem test_idxs fold) as [indx_test| |];
      cbn [mbind result_bind Py.bind] in Hf; try discriminate.
    destruct (Py.for_each _ _ _) as [[[a b] w2]| |] eqn:Hloop;
      cbn [mbind result_bind Py.bind] in Hf; try discriminate.
    injection Hf as <-. by eapply cv_loop_files.
Qed.

(** X14. Neither driver ever rewrites or removes a checkpoint: after a call of
    [run_sustain_algorithm] or of [cross_validate_sustain_model] that returns,
    every pickle file that existed before still exists and holds the dictionary
    it held; files are only added. *)
Theorem checkpoints_are_never_overwritten d test_idxs w :
  (∀ out w', run_sustain_algorithm d w = Py.Ok (out, w') → files w ⊆ files w')
  ∧ (∀ w', cross_validate_sustain_model d test_idxs w = Py.Ok w' →
           files w ⊆ files w').
Proof.
  split.
  - intros out w' H. unfold run_sustain_algorithm in H.
    destruct (Py.for_each (run_body d) (Py.range N_S_max) (run_init w))
      as [st| |] eqn:Hloop; cbn [mbind result_bind Py.bind] in H;
      try discriminate.
    destruct (returned st) as [out0|]; [|discriminate].
    injection H as <- <-. exact (run_loop_files _ _ _ _ Hloop).
  - intros w' H. unfold cross_validate_sustain_model in H.
    by eapply cv_folds_files.
Qed.

(** *** A checkpoint that lacks a key *)

(** The first key, in the order in which [run_sustain_algorithm] reads them,
    that a pickled dictionary does not have. *)
Definition first_missing (loaded_variables : gmap string ndarray) : option string :=
  find (λ key, bool_decide (loaded_variables !! key = None)) run_keys.

Lemma load_or_fit_missing d s p1 p2 w loaded_variables key :
  files w !! pickle_filename_s s = Some loaded_variables →
  first_missing loaded_variables = Some key →
  load_or_fit d s p1 p2 w = Py.Raise (Py.KeyError key).
Proof.
  intros Hfile Hmiss. unfold load_or_fit. rewrite Hfile.
  unfold first_missing, run_keys in Hmiss. cbn [find] in Hmiss.
  unfold Py.dict_get.
  repeat match type of Hmiss with
  | context [bool_decide (loaded_variables !! ?k = None)] =>
      destruct (loaded_variables !! k) eqn:?;
      [rewrite bool_decide_eq_false_2 in Hmiss by done;
       cbn [mbind result_bind Py.bind]
      |rewrite bool_decide_eq_true_2 in Hmiss by done;
       by injection Hmiss as <-]
  end.
  discriminate.
Qed.

(** X15. A pickle file that is found is trusted: when the loop of
    [run_sustain_algorithm] reaches a subtype count whose file exists but lacks
    one of the seven keys that are read back, the call raises [KeyError] for
    the first missing key (in reading order) and fits nothing in its place. *)
Theorem run_sustain_algorithm_missing_key d w s st loaded_variables key :
  s < N_S_max →
  Py.for_each (run_body d) (Py.range s) (run_init w) = Py.Ok st →
  files (run_world st) !! pickle_filename_s s = Some loaded_variables →
  first_missing loaded_variables = Some key →
  run_sustain_algorithm d w = Py.Raise (Py.KeyError key).
Proof.
  intros Hs Hpre Hfile Hmiss. unfold run_sustain_algorithm.
  replace N_S_max with (s + S (N_S_max - S s)) by lia.
  unfold Py.range in *. rewrite seq_app, Py.for_each_app, Hpre.
  cbn [seq Py.for_each Py.bind]. unfold run_body, run_step.
  by rewrite (load_or_fit_missing _ _ _ _ _ _ _ Hfile Hmiss).
Qed.

End Pipeline.

(** *** Resuming from the checkpoints of an earlier run *)

Section Resume.
Context {SustainData ndarray Rng : Type}.

Variable N_S_max : nat.
Variable output_folder : string.
Variable dataset_name : string.
Variable empty_list : ndarray.
Variable subtype_and_stage_individuals :
  SustainData → ndarray → ndarray → nat →
  Py.result (ndarray * ndarray * ndarray * ndarray).
(** The grower and the sampler of the run that wrote the checkpoints, and
    those of the run that finds them. *)
Variable grower :
  SustainData → ndarray → ndarray → Rng → Py.result (ndarray * ndarray * Rng).
Variable sampler :
  SustainData → ndarray → ndarray → Rng → Py.result (ndarray * ndarray * ndarray * Rng).
Variable grower' :
  SustainData → ndarray → ndarray → Rng → Py.result (ndarray * ndarray * Rng).
Variable sampler' :
  SustainData → ndarray → ndarray → Rng → Py.result (ndarray * ndarray * ndarray * Rng).

Abbreviation first_step :=
  (run_step output_folder dataset_name grower sampler subtype_and_stage_individuals).
Abbreviation later_step :=
  (run_step output_folder dataset_name grower' sampler' subtype_and_stage_individuals).
Abbreviation first_body :=
  (run_body output_folder dataset_name grower sampler subtype_and_stage_individuals).
Abbreviation later_body :=
  (run_body output_folder dataset_name grower' sampler' subtype_and_stage_individuals).

Ltac read_back :=
  repeat (first [rewrite lookup_insert_eq | rewrite lookup_insert_ne by done];
          cbn [mbind result_bind Py.bind]).

(** A pass that found or wrote its file is repeated, by any later pass that
    finds the file, from the file alone. *)
Lemma run_step_replay (d : SustainData) s p1 p2 (w : world (Rng := Rng))
    p1' p2' out w' q1 q2 (w2 : world (Rng := Rng)) :
  first_step d s p1 p2 w = Py.Ok (p1', p2', out, w') →
  files w' ⊆ files w2 →
  ∃ w2',
    later_step d s q1 q2 w2 = Py.Ok (p1', p2', out, w2')
    ∧ files w2' = files w2 ∧ rng w2' = rng w2
    ∧ plotted w2' = plotted w2 ++ [s].
Proof.
  intros H Hsub. unfold run_step, load_or_fit in H.
  destruct (files w !! pickle_filename_s output_folder dataset_name s)
    as [payload|] eqn:Hfile.
  - unfold Py.dict_get in H.
    destruct (payload !! "samples_likelihood") eqn:K1;
      cbn [mbind result_bind Py.bind] in H; try discriminate.
    destruct (payload !! "samples_sequence") eqn:K2;
      cbn [mbind result_bind Py.bind] in H; try discriminate.
    destruct (payload !! "samples_f") eqn:K3;
      cbn [mbind result_bind Py.bind] in H; try discriminate.
    destruct (payload !! "ml_sequence_EM") eqn:K4;
      cbn [mbind result_bind Py.bind] in H; try discriminate.
    destruct (payload !! "ml_sequence_prev_EM") eqn:K5;
      cbn [mbind result_bind Py.bind] in H; try discriminate.
    destruct (payload !! "ml_f_EM") eqn:K6;
      cbn [mbind result_bind Py.bind] in H; try discriminate.
    destruct (payload !! "ml_f_prev_EM") eqn:K7;
      cbn [mbind result_bind Py.bind] in H; try discriminate.
    destruct (subtype_and_stage_individuals _ _ _ _)
      as [[[[a0 b0] c0] e0]| |] eqn:Hassign;
      cbn [mbind result_bind Py.bind] in H; try discriminate.
    injection H as <- <- <- <-. cbn [files] in Hsub.
    pose proof (lookup_weaken _ _ _ _ Hfile Hsub) as Hfile2.
    eexists. split.
    + unfold run_step, load_or_fit. rewrite Hfile2. unfold Py.dict_get.
      rewrite K1, K2, K3, K4, K5, K6, K7. cbn [mbind result_bind Py.bind].
      rewrite Hassign. cbn [mbind result_bind Py.bind]. reflexivity.
    + cbn [files rng]. split; [done|]. split; [done|].
      unfold plotted. cbn [plots]. by rewrite fmap_app.
  - destruct (grower _ _ _ _) as [[[seq f] g1]| |];
      cbn [mbind result_bind Py.bind] in H; try discriminate.
    destruct (sampler _ _ _ _) as [[[[ss sf] sl] g2]| |];
      cbn [mbind result_bind Py.bind] in H; try discriminate.
    destruct (subtype_and_stage_individuals _ _ _ _)
      as [[[[a0 b0] c0] e0]| |] eqn:Hassign;
      cbn [mbind result_bind Py.bind] in H; try discriminate.
    injection H as <- <- <- <-. cbn [files] in Hsub.
    pose proof (lookup_weaken _ _ _ _
                  (lookup_insert_eq _ (pickle_filename_s output_folder dataset_name s) _)
                  Hsub) as Hfile2.
    eexists. split.
    + unfold run_step, load_or_fit. rewrite Hfile2. unfold Py.dict_get.
      read_back. rewrite Hassign. cbn [mbind result_bind Py.bind]. reflexivity.
    + cbn [files rng]. split; [done|]. split; [done|].
      unfold plotted. cbn [plots]. by rewrite fmap_app.
Qed.

Lemma run_loop_replay (d : SustainData) : ∀ ss (st st' st2 : run_state (Rng := Rng)),
  Py.for_each (first_body d) ss st = Py.Ok st' →
  files (run_world st') ⊆ files (run_world st2) →
  ml_sequence_prev_EM st2 = ml_sequence_prev_EM st →
  ml_f_prev_EM st2 = ml_f_prev_EM st →
  returned st2 = returned st →
  ∃ st2',
    Py.for_each (later_body d) ss st2 = Py.Ok st2'
    ∧ ml_sequence_prev_EM st2' = ml_sequence_prev_EM st'
    ∧ ml_f_prev_EM st2' = ml_f_prev_EM st'
    ∧ returned st2' = returned st'
    ∧ files (run_world st2') = files (run_world st2)
    ∧ rng (run_world st2') = rng (run_world st2)
    ∧ plotted (run_world st2') = plotted (run_world st2) ++ ss.
Proof.
  induction ss as [|s ss IH]; intros st st' st2 H Hsub E1 E2 E3;
    cbn [Py.for_each] in H.
  - injection H as <-. exists st2. by rewrite app_nil_r.
  - destruct (first_body d s st) as [st1| |] eqn:Hs; cbn [Py.bind] in H;
      try discriminate.
    unfold run_body in Hs.
    destruct (first_step d s _ _ _) as [[[[p1 p2] out] w1]| |] eqn:Hstep;
      cbn [mbind result_bind Py.bind] in Hs; try discriminate.
    injection Hs as <-.
    pose proof (run_loop_files _ _ _ _ _ _ _ _ _ H) as Hrest.
    cbn [run_world] in Hrest.
    destruct (run_step_replay d s _ _ _ _ _ _ _
                (ml_sequence_prev_EM st2) (ml_f_prev_EM st2) (run_world st2) Hstep)
      as (w2' & Hstep2 & F & G & P); [by etrans|].
    destruct (IH _ st'
                {| ml_sequence_prev_EM := p1; ml_f_prev_EM := p2;
                   returned := Some out; run_world := w2' |} H)
      as (st2' & Hrun & A1 & A2 & A3 & A4 & A5 & A6);
      cbn [run_world ml_sequence_prev_EM ml_f_prev_EM returned];
      [by rewrite F|done|done|done|].
    exists st2'. cbn [run_world] in *. split.
    + cbn [Py.for_each]. unfold run_body at 1. rewrite Hstep2.
      cbn [mbind result_bind Py.bind]. exact Hrun.
    + rewrite A4, A5, A6, F, G, P, <- app_assoc. done.
Qed.

(** X16. [run_sustain_algorithm] resumes from its checkpoints: a later call
    that finds the pickle files which an earlier, completed call left returns
    the same six arrays as that call, whatever the grower and the sampler would
    now do (they are not consulted), writes no file and draws no random
    number; only the figures are drawn again. *)
Theorem run_sustain_algorithm_resumes (d : SustainData)
    (w w1 w2 : world (Rng := Rng)) out :
  run_sustain_algorithm N_S_max output_folder dataset_name empty_list
    grower sampler subtype_and_stage_individuals d w = Py.Ok (out, w1) →
  files w1 ⊆ files w2 →
  ∃ w2',
    run_sustain_algorithm N_S_max output_folder dataset_name empty_list
      grower' sampler' subtype_and_stage_individuals d w2 = Py.Ok (out, w2')
    ∧ files w2' = files w2 ∧ rng w2' = rng w2
    ∧ plotted w2' = plotted w2 ++ Py.range N_S_max.
Proof.
  intros H Hsub. unfold run_sustain_algorithm in H.
  destruct (Py.for_each (first_body d) (Py.range N_S_max) (run_init empty_list w))
    as [st| |] eqn:Hloop; cbn [mbind result_bind Py.bind] in H;
    try discriminate.
  destruct (returned st) as [out0|] eqn:Hret; [|discriminate].
  injection H as <- <-.
  destruct (run_loop_replay d _ _ _ (run_init empty_list w2) Hloop Hsub)
    as (st2' & Hrun & _ & _ & A3 & A4 & A5 & A6); [done|done|done|].
  exists (run_world st2'). split; [|done].
  unfold run_sustain_algorithm. rewrite Hrun. cbn [mbind result_bind Py.bind].
  by rewrite A3, Hret.
Qed.

End Resume.

(** *** A concrete instance

    Arrays are lists of numbers, the generator is a counter; two subtype
    counts, four subjects, folds [{0, 1}] and [{2, 3}], no file at the start. *)

Definition demo_samples (_ : unit) : nat := 4.
Definition demo_reindex (d : unit) (_ : list nat) : unit := d.
Definition demo_grower (_ : unit) (prev_seq prev_f : list nat) (g : nat)
  : Py.result (list nat * list nat * nat) :=
  Py.Ok (length prev_seq :: prev_seq, 1 :: prev_f, S g).
Definition demo_sampler (_ : unit) (seq_init f_init : list nat) (g : nat)
  : Py.result (list nat * list nat * list nat * nat) :=
  Py.Ok (g :: seq_init, g :: f_init, [g], S g).
Definition demo_heldout (_ : unit) (samples_sequence samples_f : list nat) : list nat :=
  samples_sequence ++ samples_f.
Definition demo_assigner (_ : unit) (samples_sequence samples_f : list nat) (_ : nat)
  : Py.result (list nat * list nat * list nat * list nat) :=
  Py.Ok (samples_sequence, [length samples_sequence], samples_f, [length samples_f]).
Definition fresh_world : world (ndarray := list nat) :=
  {| files := ∅; plots := []; rng := 0 |}.

Lemma run_sustain_algorithm_returns_last_fit_witness :
  0 < 2
  ∧ ∃ w',
      run_sustain_algorithm 2 "out" "sim" [] demo_grower demo_sampler
        demo_assigner tt fresh_world
      = Py.Ok ([3; 1; 0], [3; 1; 1], [3; 1; 0], [3], [3; 1; 1], [3], w')
      ∧ ∃ payload,
          files w' !! "out/sim_subtype0.pickle" = Some payload
          ∧ holds_chain payload [1; 0] [1; 1] [1]
          ∧ holds_assignment payload [1; 0] [2] [1; 1] [2]
          ∧ plots w' !! 0 = Some (0, [1; 0], [1; 1], [1]).
Proof.
  split; [lia|].
  destruct (run_sustain_algorithm_returns_last_fit 2 "out" "sim" []
              demo_grower demo_sampler demo_assigner tt fresh_world)
    as [Heq Hfits]; [lia|].
  assert (∃ w', run_sustain_algorithm 2 "out" "sim" [] demo_grower demo_sampler
                  demo_assigner tt fresh_world
                = Py.Ok ([3; 1; 0], [3; 1; 1], [3; 1; 0], [3], [3; 1; 1], [3], w'))
    as [w' Hrun].
  { rewrite Heq. eexists. vm_compute. reflexivity. }
  exists w'. split; [exact Hrun|].
  destruct (Hfits _ _ _ _ _ _ _ Hrun) as (_ & Hpass & _).
  destruct (Hpass 0 ltac:(lia))
    as (st0 & p0 & q0 & ss0 & sf0 & a0 & b0 & c0 & e0 & w0 & payload0 & sl0
        & Hpre0 & Hstep0 & Hfile0 & Hchain0 & Hassign0 & Hplot0 & _).
  vm_compute in Hpre0. injection Hpre0 as <-.
  vm_compute in Hstep0. injection Hstep0 as <- <- <- <- <- <- <- <- <-.
  rewrite Heq in Hrun. vm_compute in Hrun. injection Hrun as <-.
  vm_compute in Hplot0. injection Hplot0 as <-.
  exists payload0. split; [exact Hfile0|]. split; [exact Hchain0|].
  split; [apply Hassign0; reflexivity|reflexivity].
Defined.

(** C8 fails on the code.  A first cross-validation run writes its checkpoints
    and ends normally; a second run over the files it left raises [KeyError]
    at the first checkpoint it opens, because the dictionary that was dumped
    holds the four [samples_*] entries only. *)
Theorem cross_validate_cannot_resume :
  ∃ w1,
    cross_validate_sustain_model 2 "out" "sim" demo_samples demo_reindex []
      demo_grower demo_sampler demo_heldout tt [[0; 1]; [2; 3]] fresh_world
    = Py.Ok w1
    ∧ cross_validate_sustain_model 2 "out" "sim" demo_samples demo_reindex []
        demo_grower demo_sampler demo_heldout tt [[0; 1]; [2; 3]] w1
      = Py.Raise (Py.KeyError "ml_sequence_EM").
Proof.
  assert (∃ w1,
    cross_validate_sustain_model 2 "out" "sim" demo_samples demo_reindex []
      demo_grower demo_sampler demo_heldout tt [[0; 1]; [2; 3]] fresh_world
    = Py.Ok w1) as [w1 H1].
  { eexists. vm_compute. reflexivity. }
  exists w1. split; [exact H1|].
  eapply cross_validate_rerun_raises; [lia|simpl; lia| |exact H1|reflexivity].
  intros name payload H. cbn in H. by rewrite lookup_empty in H.
Qed.

(** A checkpoint for subtype count 0 that holds the chain only, as a pickle
    written by [cross_validate_sustain_model] does. *)
Definition chain_only : gmap string (list nat) :=
  <["samples_likelihood" := [7]]>
    (<["samples_f" := [1]]> (<["samples_sequence" := [0]]> ∅)).
Definition world_with_chain_only : world (ndarray := list nat) :=
  {| files := {[ pickle_filename_s "out" "sim" 0 := chain_only ]};
     plots := [];
     rng := 0 |}.

Lemma run_sustain_algorithm_missing_key_witness :
  run_sustain_algorithm 2 "out" "sim" [] demo_grower demo_sampler
    demo_assigner tt world_with_chain_only
  = Py.Raise (Py.KeyError "ml_sequence_EM").
Proof.
  apply (run_sustain_algorithm_missing_key 2 "out" "sim" [] demo_grower
           demo_sampler demo_assigner tt world_with_chain_only 0
           (run_init [] world_with_chain_only) chain_only "ml_sequence_EM").
  - lia.
  - reflexivity.
  - apply lookup_singleton_eq.
  - vm_compute. reflexivity.
Defined.

(** A grower and a sampler that can only fail. *)
Definition failing_grower (_ : unit) (_ _ : list nat) (_ : nat)
  : Py.result (list nat * list nat * nat) :=
  Py.Raise (Py.ValueError "the grower was called").
Definition failing_sampler (_ : unit) (_ _ : list nat) (_ : nat)
  : Py.result (list nat * list nat * list nat * nat) :=
  Py.Raise (Py.ValueError "the sampler was called").

Lemma run_sustain_algorithm_resumes_witness :
  ∃ w1 w2',
    run_sustain_algorithm 2 "out" "sim" [] demo_grower demo_sampler
      demo_assigner tt fresh_world
    = Py.Ok ([3; 1; 0], [3; 1; 1], [3; 1; 0], [3], [3; 1; 1], [3], w1)
    ∧ run_sustain_algorithm 2 "out" "sim" [] failing_grower failing_sampler
        demo_assigner tt w1
      = Py.Ok ([3; 1; 0], [3; 1; 1], [3; 1; 0], [3], [3; 1; 1], [3], w2')
    ∧ files w2' = files w1.
Proof.
  assert (∃ w1,
    run_sustain_algorithm 2 "out" "sim" [] demo_grower demo_sampler
      demo_assigner tt fresh_world
    = Py.Ok ([3; 1; 0], [3; 1; 1], [3; 1; 0], [3], [3; 1; 1], [3], w1))
    as [w1 H1].
  { eexists. vm_compute. reflexivity. }
  destruct (run_sustain_algorithm_resumes 2 "out" "sim" [] demo_assigner
              demo_grower demo_sampler failing_grower failing_sampler
              tt fresh_world w1 w1 _ H1 ltac:(done)) as (w2' & H2 & F & _).
  by exists w1, w2'.
Defined.

End Driver.

(** ** Arrays by index *)

Module Tab.

(** The array [[g 0, ..., g (n-1)]]. *)
Definition tabulate {A} (n : nat) (g : nat → A) : list A := g <$> seq 0 n.

(** [g 0 + ... + g (n-1)] *)
Fixpoint sum_upto (n : nat) (g : nat → R) : R :=
  match n with
  | 0 => 0%R
  | S n' => (sum_upto n' g + g n')%R
  end.

Lemma length_tabulate {A} n (g : nat → A) : length (tabulate n g) = n.
Proof. unfold tabulate. by rewrite length_fmap, length_seq. Qed.

Lemma lookup_tabulate {A} n (g : nat → A) i :
  i < n → tabulate n g !! i = Some (g i).
Proof.
  intros Hi. unfold tabulate. rewrite list_lookup_fmap, lookup_seq_lt by done.
  reflexivity.
Qed.

Lemma lookup_tabulate_ge {A} n (g : nat → A) i :
  n ≤ i → tabulate n g !! i = None.
Proof. intros Hi. apply lookup_ge_None_2. by rewrite length_tabulate. Qed.

Lemma tabulate_S {A} n (g : nat → A) : tabulate (S n) g = tabulate n g ++ [g n].
Proof. unfold tabulate. by rewrite seq_S, fmap_app. Qed.

Lemma tabulate_ext {A} n (g h : nat → A) :
  (∀ i, i < n → g i = h i) → tabulate n g = tabulate n h.
Proof.
  intros H. unfold tabulate. apply list_fmap_ext. intros i x Hx.
  apply lookup_seq in Hx as [-> ?]. by apply H.
Qed.

Lemma fmap_tabulate {A B} (h : A → B) n (g : nat → A) :
  h <$> tabulate n g = tabulate n (λ i, h (g i)).
Proof. unfold tabulate. by rewrite <- list_fmap_compose. Qed.

Lemma replicate_tabulate {A} n (x : A) : replicate n x = tabulate n (λ _, x).
Proof.
  induction n as [|n IH]; [done|]. rewrite tabulate_S, <- IH.
  by rewrite replicate_S_end.
Qed.

Lemma as_tabulate {A} (d : A) n (l : list A) :
  length l = n → l = tabulate n (λ i, nth i l d).
Proof.
  intros Hl. apply list_eq. intros i. destruct (decide (i < n)) as [Hi|Hi].
  - rewrite lookup_tabulate by done.
    destruct (lookup_lt_is_Some_2 l i ltac:(lia)) as [x Hx].
    rewrite Hx. f_equal. symmetry. by apply nth_lookup_Some with (d := d) in Hx.
  - rewrite lookup_tabulate_ge by lia. apply lookup_ge_None_2. lia.
Qed.

Lemma zip_with_tabulate {A B C} (op : A → B → C) n (g : nat → A) (h : nat → B) :
  zip_with op (tabulate n g) (tabulate n h) = tabulate n (λ i, op (g i) (h i)).
Proof.
  induction n as [|n IH]; [done|]. rewrite !tabulate_S.
  rewrite zip_with_app by (by rewrite !length_tabulate). by rewrite IH.
Qed.

Lemma insert_tabulate {A} n (g : nat → A) s x :
  <[s := x]> (tabulate n g) = tabulate n (λ i, if decide (i = s) then x else g i).
Proof.
  apply list_eq. intros i. destruct (decide (i < n)) as [Hi|Hi].
  - rewrite lookup_tabulate by done. destruct (decide (i = s)) as [->|Hne].
    + rewrite list_lookup_insert_eq by (by rewrite length_tabulate). done.
    + rewrite list_lookup_insert_ne by done. by rewrite lookup_tabulate.
  - rewrite lookup_tabulate_ge by lia. apply lookup_ge_None_2.
    rewrite length_insert, length_tabulate. lia.
Qed.

Lemma nth_tabulate {A} (d : A) n (g : nat → A) i :
  i < n → nth i (tabulate n g) d = g i.
Proof.
  intros Hi. apply nth_lookup_Some. by apply lookup_tabulate.
Qed.

Lemma fold_left_Rplus_acc (l : list R) (a : R) :
  fold_left Rplus l a = (a + fold_left Rplus l 0)%R.
Proof.
  revert a. induction l as [|x l IH]; intros a; cbn; [lra|].
  rewrite (IH (a + x)%R), (IH (0 + x)%R). lra.
Qed.

Lemma fold_left_tabulate n (g : nat → R) :
  fold_left Rplus (tabulate n g) 0%R = sum_upto n g.
Proof.
  induction n as [|n IH]; [done|].
  rewrite tabulate_S, fold_left_app, IH. reflexivity.
Qed.

Lemma sum_upto_ext n (g h : nat → R) :
  (∀ i, i < n → g i = h i) → sum_upto n g = sum_upto n h.
Proof.
  induction n as [|n IH]; intros H; [done|]. cbn.
  rewrite IH by (intros; apply H; lia). rewrite H by lia. reflexivity.
Qed.

Lemma sum_upto_plus n (g h : nat → R) :
  sum_upto n (λ i, g i + h i)%R = (sum_upto n g + sum_upto n h)%R.
Proof. induction n as [|n IH]; cbn; [lra|]. rewrite IH. lra. Qed.

Lemma sum_upto_zero n : sum_upto n (λ _, 0%R) = 0%R.
Proof. induction n as [|n IH]; cbn; [done|]. rewrite IH. lra. Qed.

(** The order of two finite summations may be exchanged. *)
Lemma sum_upto_swap n m (g : nat → nat → R) :
  sum_upto n (λ i, sum_upto m (λ j, g i j))
  = sum_upto m (λ j, sum_upto n (λ i, g i j)).
Proof.
  induction n as [|n IH]; cbn.
  - by rewrite sum_upto_zero.
  - rewrite IH, <- sum_upto_plus. reflexivity.
Qed.

(** Summing the rows of a matrix entry by entry gives the column sums. *)
Lemma fold_left_rows n m (g : nat → nat → R) :
  fold_left (zip_with Rplus) (tabulate n (λ k, tabulate m (g k)))
    (replicate m 0%R)
  = tabulate m (λ s, sum_upto n (λ k, g k s)).
Proof.
  induction n as [|n IH].
  - cbn. by rewrite replicate_tabulate.
  - rewrite tabulate_S, fold_left_app, IH. cbn.
    by rewrite zip_with_tabulate.
Qed.

End Tab.

(** ** The likelihood engine: [_calculate_likelihood]

    Stated over exact arithmetic: a probability is a real number and the sums
    of NumPy are exact. *)

Module Likelihood.

Import Tab.

(** [np.sum] of a vector and the builtin [sum], both from the left. *)
Definition np_sum (a : list R) : R := fold_left Rplus a 0%R.
Definition py_sum (a : list R) : R := fold_left Rplus a 0%R.

(** An array of shape [(M, K)]. *)
Definition shape2 (M K : nat) (X : list (list R)) : Prop :=
  length X = M ∧ Forall (λ row, length row = K) X.

#[global] Instance shape2_dec M K X : Decision (shape2 M K X).
Proof. unfold shape2. apply _. Defined.

(** [np.zeros((M, K, S))] *)
Definition np_zeros3 (M K S : nat) : list (list (list R)) :=
  replicate M (replicate K (replicate S 0%R)).

(** [p[:, :, s] = X] *)
Definition set_slice (s : nat) (X : list (list R)) (p : list (list (list R)))
  : list (list (list R)) :=
  zip_with (zip_with (λ cell x, <[s := x]> cell)) p X.

(** [np.tile(f.reshape(N_S, 1, 1), (1, K, M))], of shape [(N_S, K, M)]. *)
Definition np_tile (f : list R) (K M : nat) : list (list (list R)) :=
  (λ x, replicate K (replicate M x)) <$> f.

(** [np.transpose(a, (2, 1, 0))] of an array of shape [(d0, d1, d2)]. *)
Definition transpose_210 (d0 d1 d2 : nat) (a : list (list (list R)))
  : list (list (list R)) :=
  tabulate d2 (λ m, tabulate d1 (λ k, tabulate d0 (λ s,
    nth m (nth k (nth s a []) []) 0%R))).

(** [a * b], entry by entry. *)
Definition mul3 (a b : list (list (list R))) : list (list (list R)) :=
  zip_with (zip_with (zip_with Rmult)) a b.

(** [np.sum(a, 1)], [np.sum(a, 2)] of an array of shape [(M, K, S)], and
    [np.sum(a, 1)] of a matrix. *)
Definition sum_axis1 (S : nat) (a : list (list (list R))) : list (list R) :=
  (λ x, fold_left (zip_with Rplus) x (replicate S 0%R)) <$> a.
Definition sum_axis2 (a : list (list (list R))) : list (list R) :=
  (λ x : list (list R), np_sum <$> x) <$> a.
Definition sum_rows (a : list (list R)) : list R := np_sum <$> a.

Section CalculateLikelihood.
Context {SustainData Row : Type}.

Variable getNumSamples : SustainData → nat.
Variable getNumStages : SustainData → nat.
(** The abstract method [_calculate_likelihood_stage]: subject by stage. *)
Variable calculate_likelihood_stage : SustainData → Row → list (list R).

(** One pass of [for s in range(N_S)]. *)
Definition fill_slice (sustainData : SustainData) (S : list Row) (s : nat)
    (p_perm_k : list (list (list R))) : Py.result (list (list (list R))) :=
  let M := getNumSamples sustainData in
  let N := getNumStages sustainData in
  row ← Py.getitem S s;
  let X := calculate_likelihood_stage sustainData row in
  if decide (shape2 M (N + 1) X) then Py.Ok (set_slice s X p_perm_k)
  else Py.Raise (Py.ValueError "could not broadcast input array").

(** [np.squeeze] is left out: it drops axes of length one and changes no entry. *)
Definition calculate_likelihood (sustainData : SustainData) (S : list Row)
    (f : list R)
  : Py.result (R * list R * list (list R) * list (list R) * list (list (list R))) :=
  let M := getNumSamples sustainData in
  let N_S := length S in
  let N := getNumStages sustainData in
  if decide (length f = N_S) then
    let f_val_mat := np_tile f (N + 1) M in
    let f_val_mat := transpose_210 N_S (N + 1) M f_val_mat in
    p_perm_k ← Py.for_each (fill_slice sustainData S) (Py.range N_S)
                 (np_zeros3 M (N + 1) N_S);
    let total_prob_cluster := sum_axis1 N_S (mul3 p_perm_k f_val_mat) in
    let total_prob_stage := sum_axis2 (mul3 p_perm_k f_val_mat) in
    let total_prob_subj := sum_rows total_prob_stage in
    let loglike := py_sum ((λ t, ln (t + 1e-250)%R) <$> total_prob_subj) in
    Py.Ok (loglike, total_prob_subj, total_prob_stage, total_prob_cluster, p_perm_k)
  else Py.Raise (Py.ValueError "cannot reshape array").

(** *** The quantities of the specification *)

(** The probability of subject [m] at stage [k] of subtype [s]. *)
Definition stage_prob (sustainData : SustainData) (S : list Row) (m k s : nat) : R :=
  match S !! s with
  | Some row => nth k (nth m (calculate_likelihood_stage sustainData row) []) 0%R
  | None => 0%R
  end.

(** Stage probability times mixture weight. *)
Definition weighted (sustainData : SustainData) (S : list Row) (f : list R)
    (m k s : nat) : R :=
  (stage_prob sustainData S m k s * nth s f 0)%R.

(** Per subject and subtype: the sum over stages. *)
Definition subtype_total (sustainData : SustainData) (S : list Row) (f : list R)
    (m s : nat) : R :=
  sum_upto (getNumStages sustainData + 1) (λ k, weighted sustainData S f m k s).

(** Per subject and stage: the sum over subtypes. *)
Definition stage_total (sustainData : SustainData) (S : list Row) (f : list R)
    (m k : nat) : R :=
  sum_upto (length S) (λ s, weighted sustainData S f m k s).

(** Per subject: the sum over all stages and subtypes. *)
Definition subject_total (sustainData : SustainData) (S : list Row) (f : list R)
    (m : nat) : R :=
  sum_upto (getNumStages sustainData + 1) (λ k,
    sum_upto (length S) (λ s, weighted sustainData S f m k s)).

(** The sum over subjects of [log(per-subject total + 1e-250)]. *)
Definition total_loglike (sustainData : SustainData) (S : list Row) (f : list R) : R :=
  sum_upto (getNumSamples sustainData)
    (λ m, ln (subject_total sustainData S f m + 1e-250)%R).

(** *** Arrays of the engine, entry by entry *)

Lemma zip_with2_tabulate {A B C} (op : A → B → C) M K
    (g : nat → nat → A) (h : nat → nat → B) :
  zip_with (zip_with op) (tabulate M (λ m, tabulate K (g m)))
    (tabulate M (λ m, tabulate K (h m)))
  = tabulate M (λ m, tabulate K (λ k, op (g m k) (h m k))).
Proof.
  rewrite zip_with_tabulate. apply tabulate_ext. intros m _.
  apply zip_with_tabulate.
Qed.

Lemma mul3_tabulate M K S (g h : nat → nat → nat → R) :
  mul3 (tabulate M (λ m, tabulate K (λ k, tabulate S (g m k))))
       (tabulate M (λ m, tabulate K (λ k, tabulate S (h m k))))
  = tabulate M (λ m, tabulate K (λ k, tabulate S (λ s, g m k s * h m k s)%R)).
Proof.
  unfold mul3. rewrite zip_with2_tabulate. apply tabulate_ext. intros m _.
  apply tabulate_ext. intros k _. apply zip_with_tabulate.
Qed.

Lemma sum_axis1_tabulate M K S (g : nat → nat → nat → R) :
  sum_axis1 S (tabulate M (λ m, tabulate K (λ k, tabulate S (g m k))))
  = tabulate M (λ m, tabulate S (λ s, sum_upto K (λ k, g m k s))).
Proof.
  unfold sum_axis1. rewrite fmap_tabulate. apply tabulate_ext. intros m _.
  apply fold_left_rows.
Qed.

Lemma sum_axis2_tabulate M K S (g : nat → nat → nat → R) :
  sum_axis2 (tabulate M (λ m, tabulate K (λ k, tabulate S (g m k))))
  = tabulate M (λ m, tabulate K (λ k, sum_upto S (g m k))).
Proof.
  unfold sum_axis2. rewrite fmap_tabulate. apply tabulate_ext. intros m _.
  rewrite fmap_tabulate. apply tabulate_ext. intros k _.
  apply fold_left_tabulate.
Qed.

Lemma sum_rows_tabulate M K (g : nat → nat → R) :
  sum_rows (tabulate M (λ m, tabulate K (g m)))
  = tabulate M (λ m, sum_upto K (g m)).
Proof.
  unfold sum_rows. rewrite fmap_tabulate. apply tabulate_ext. intros m _.
  apply fold_left_tabulate.
Qed.

Lemma py_sum_tabulate (h : R → R) M (g : nat → R) :
  py_sum (h <$> tabulate M g) = sum_upto M (λ m, h (g m)).
Proof. unfold py_sum. rewrite fmap_tabulate. apply fold_left_tabulate. Qed.

Lemma matrix_tabulate M K (X : list (list R)) :
  shape2 M K X →
  X = tabulate M (λ m, tabulate K (λ k, nth k (nth m X []) 0%R)).
Proof.
  intros [Hlen Hrows]. rewrite (as_tabulate [] M X Hlen) at 1.
  apply tabulate_ext. intros m Hm. apply as_tabulate.
  destruct (lookup_lt_is_Some_2 X m ltac:(lia)) as [row Hrow].
  rewrite (nth_lookup_Some _ _ [] _ Hrow).
  by apply (Forall_lookup_1 _ _ _ _ Hrows Hrow).
Qed.

Lemma f_val_mat_tabulate (f : list R) N_S K M :
  length f = N_S →
  transpose_210 N_S K M (np_tile f K M)
  = tabulate M (λ m, tabulate K (λ k, tabulate N_S (λ s, nth s f 0%R))).
Proof.
  intros Hf. unfold transpose_210. apply tabulate_ext. intros m Hm.
  apply tabulate_ext. intros k Hk. apply tabulate_ext. intros s Hs.
  destruct (lookup_lt_is_Some_2 f s ltac:(lia)) as [x Hx].
  rewrite (nth_lookup_Some _ _ 0%R _ Hx).
  rewrite (nth_lookup_Some (np_tile f K M) s [] (replicate K (replicate M x)))
    by (unfold np_tile; by rewrite list_lookup_fmap, Hx).
  rewrite (nth_lookup_Some (replicate K (replicate M x)) k [] (replicate M x))
    by (by apply lookup_replicate_2).
  apply nth_lookup_Some. by apply lookup_replicate_2.
Qed.

Lemma zeros_tabulate M K S :
  np_zeros3 M K S = tabulate M (λ _, tabulate K (λ _, tabulate S (λ _, 0%R))).
Proof.
  unfold np_zeros3. by rewrite (replicate_tabulate S), (replicate_tabulate K),
    (replicate_tabulate M).
Qed.

(** After [j] passes the first [j] slices of [p_perm_k] hold the stage
    probabilities of the first [j] subtypes and the others are still zero. *)
Lemma fill_loop d S j :
  j ≤ length S →
  (∀ row, row ∈ S →
     shape2 (getNumSamples d) (getNumStages d + 1) (calculate_likelihood_stage d row)) →
  Py.for_each (fill_slice d S) (Py.range j)
    (np_zeros3 (getNumSamples d) (getNumStages d + 1) (length S))
  = Py.Ok (tabulate (getNumSamples d) (λ m,
             tabulate (getNumStages d + 1) (λ k,
               tabulate (length S) (λ s,
                 if decide (s < j) then stage_prob d S m k s else 0%R)))).
Proof.
  intros Hj Hshape. induction j as [|j IH].
  - cbn. rewrite zeros_tabulate. reflexivity.
  - rewrite Py.range_S, Py.for_each_app, IH by lia.
    cbn [Py.bind Py.for_each]. unfold fill_slice.
    destruct (lookup_lt_is_Some_2 S j ltac:(lia)) as [row Hrow].
    unfold Py.getitem. rewrite Hrow. cbn [mbind result_bind Py.bind].
    pose proof (Hshape row (list_elem_of_lookup_2 _ _ _ Hrow)) as HX.
    rewrite decide_True by done. cbn [Py.bind Py.for_each]. f_equal.
    rewrite (matrix_tabulate _ _ _ HX) at 1. unfold set_slice.
    rewrite zip_with2_tabulate.
    apply tabulate_ext. intros m Hm. apply tabulate_ext. intros k Hk.
    rewrite insert_tabulate. apply tabulate_ext. intros s Hs.
    destruct (decide (s = j)) as [->|Hne].
    + rewrite decide_True by lia. unfold stage_prob. by rewrite Hrow.
    + destruct (decide (s < j)); [rewrite decide_True by lia|rewrite decide_False by lia];
        reflexivity.
Qed.

(** C2. When the fraction vector has one weight per row of [S] and the stage
    likelihoods have one row per subject and one column per stage 0..N,
    [_calculate_likelihood] returns: for each subject and subtype, the sum over
    stages of stage probability times that subtype's weight; for each subject,
    the sum of these products over all stages and subtypes (in either order);
    and as log-likelihood the sum over subjects of [log(total + 1e-250)]. *)
Theorem calculate_likelihood_totals d S f :
  length f = length S →
  (∀ row, row ∈ S →
     shape2 (getNumSamples d) (getNumStages d + 1) (calculate_likelihood_stage d row)) →
  calculate_likelihood d S f
  = Py.Ok (total_loglike d S f,
           tabulate (getNumSamples d) (subject_total d S f),
           tabulate (getNumSamples d) (λ m,
             tabulate (getNumStages d + 1) (stage_total d S f m)),
           tabulate (getNumSamples d) (λ m,
             tabulate (length S) (subtype_total d S f m)),
           tabulate (getNumSamples d) (λ m,
             tabulate (getNumStages d + 1) (λ k,
               tabulate (length S) (stage_prob d S m k))))
  ∧ ∀ m, subject_total d S f m
         = sum_upto (length S) (λ s, subtype_total d S f m s).
Proof.
  intros Hf Hshape. split.
  - unfold calculate_likelihood. rewrite decide_True by done.
    rewrite (fill_loop d S (length S)) by done.
    cbn [mbind result_bind Py.bind].
    assert (tabulate (getNumSamples d) (λ m,
              tabulate (getNumStages d + 1) (λ k,
                tabulate (length S) (λ s,
                  if decide (s < length S) then stage_prob d S m k s else 0%R)))
            = tabulate (getNumSamples d) (λ m,
                tabulate (getNumStages d + 1) (λ k,
                  tabulate (length S) (stage_prob d S m k)))) as ->.
    { apply tabulate_ext. intros m _. apply tabulate_ext. intros k _.
      apply tabulate_ext. intros s Hs. by rewrite decide_True. }
    rewrite (f_val_mat_tabulate f _ _ _ Hf), mul3_tabulate.
    rewrite sum_axis1_tabulate, sum_axis2_tabulate, sum_rows_tabulate,
      py_sum_tabulate.
    reflexivity.
  - intros m. unfold subject_total, subtype_total. apply sum_upto_swap.
Qed.


(** *** The equation of the engine, for use below *)

Lemma calculate_likelihood_eq d S f :
  length f = length S →
  (∀ row, row ∈ S →
     shape2 (getNumSamples d) (getNumStages d + 1) (calculate_likelihood_stage d row)) →
  calculate_likelihood d S f
  = Py.Ok (total_loglike d S f,
           tabulate (getNumSamples d) (subject_total d S f),
           tabulate (getNumSamples d) (λ m,
             tabulate (getNumStages d + 1) (stage_total d S f m)),
           tabulate (getNumSamples d) (λ m,
             tabulate (length S) (subtype_total d S f m)),
           tabulate (getNumSamples d) (λ m,
             tabulate (getNumStages d + 1) (λ k,
               tabulate (length S) (stage_prob d S m k)))).
Proof.
  intros Hf Hshape. unfold calculate_likelihood. rewrite decide_True by done.
  rewrite (fill_loop d S (length S)) by done.
  cbn [mbind result_bind Py.bind].
  assert (tabulate (getNumSamples d) (λ m,
            tabulate (getNumStages d + 1) (λ k,
              tabulate (length S) (λ s,
                if decide (s < length S) then stage_prob d S m k s else 0%R)))
          = tabulate (getNumSamples d) (λ m,
              tabulate (getNumStages d + 1) (λ k,
                tabulate (length S) (stage_prob d S m k)))) as ->.
  { apply tabulate_ext. intros m _. apply tabulate_ext. intros k _.
    apply tabulate_ext. intros s Hs. by rewrite decide_True. }
  rewrite (f_val_mat_tabulate f _ _ _ Hf), mul3_tabulate.
  rewrite sum_axis1_tabulate, sum_axis2_tabulate, sum_rows_tabulate,
    py_sum_tabulate.
  reflexivity.
Qed.

(** *** The floor of the log-likelihood *)

Lemma sum_upto_nonneg n (g : nat → R) :
  (∀ i, i < n → (0 <= g i)%R) → (0 <= sum_upto n g)%R.
Proof.
  induction n as [|n IH]; intros H; cbn; [lra|].
  pose proof (IH (λ i Hi, H i ltac:(lia))). pose proof (H n ltac:(lia)). lra.
Qed.

Lemma sum_upto_ge n (g : nat → R) c :
  (∀ i, i < n → (c <= g i)%R) → (INR n * c <= sum_upto n g)%R.
Proof.
  induction n as [|n IH]; intros H; [cbn; lra|].
  rewrite S_INR. cbn [sum_upto].
  pose proof (IH (λ i Hi, H i ltac:(lia))). pose proof (H n ltac:(lia)). lra.
Qed.

Lemma nth_nonneg (l : list R) i :
  Forall (λ x, (0 <= x)%R) l → (0 <= nth i l 0)%R.
Proof.
  intros H. destruct (decide (i < length l)) as [Hi|Hi].
  - destruct (lookup_lt_is_Some_2 l i Hi) as [x Hx].
    rewrite (nth_lookup_Some _ _ 0%R _ Hx).
    by apply (Forall_lookup_1 _ _ _ _ H Hx).
  - rewrite nth_overflow by lia. lra.
Qed.

Lemma ln_monotone x y : (0 < x)%R → (x <= y)%R → (ln x <= ln y)%R.
Proof.
  intros Hx [Hlt| ->]; [|lra]. left. by apply ln_increasing.
Qed.

(** Stage likelihoods and weights that are not negative. *)
Definition nonnegative (sustainData : SustainData) (S : list Row) (f : list R) : Prop :=
  Forall (λ x, (0 <= x)%R) f
  ∧ ∀ row, row ∈ S →
      Forall (Forall (λ x, (0 <= x)%R)) (calculate_likelihood_stage sustainData row).

Lemma subject_total_nonneg d S f m :
  nonnegative d S f → (0 <= subject_total d S f m)%R.
Proof.
  intros [Hf HS]. unfold subject_total.
  apply sum_upto_nonneg. intros k _. apply sum_upto_nonneg. intros s _.
  unfold weighted, stage_prob. apply Rmult_le_pos; [|by apply nth_nonneg].
  destruct (S !! s) as [row|] eqn:Hrow; [|lra].
  pose proof (HS row (list_elem_of_lookup_2 _ _ _ Hrow)) as Hrows.
  apply nth_nonneg.
  destruct (decide (m < length (calculate_likelihood_stage d row))) as [Hm|Hm].
  - destruct (lookup_lt_is_Some_2 _ m Hm) as [r Hr].
    rewrite (nth_lookup_Some _ _ [] _ Hr).
    by apply (Forall_lookup_1 _ _ _ _ Hrows Hr).
  - rewrite nth_overflow by lia. constructor.
Qed.

(** X17. The constant [1e-250] that [_calculate_likelihood] adds inside the
    logarithm bounds the log-likelihood from below: for well-shaped inputs
    whose stage likelihoods and weights are not negative, every per-subject
    total is at least 0 and the returned log-likelihood is at least
    [M * log(1e-250)] for [M] subjects, whatever the data. *)
Theorem calculate_likelihood_floor d S f :
  length f = length S →
  (∀ row, row ∈ S →
     shape2 (getNumSamples d) (getNumStages d + 1) (calculate_likelihood_stage d row)) →
  nonnegative d S f →
  ∃ loglike total_prob_subj total_prob_stage total_prob_cluster p_perm_k,
    calculate_likelihood d S f
    = Py.Ok (loglike, total_prob_subj, total_prob_stage, total_prob_cluster,
             p_perm_k)
    ∧ Forall (λ t, (0 <= t)%R) total_prob_subj
    ∧ (INR (getNumSamples d) * ln 1e-250 <= loglike)%R.
Proof.
  intros Hf Hshape Hpos. rewrite (calculate_likelihood_eq d S f Hf Hshape).
  eexists _, _, _, _, _. split; [reflexivity|]. split.
  - unfold tabulate. apply Forall_fmap, Forall_forall. intros m _. cbn.
    by apply subject_total_nonneg.
  - unfold total_loglike. apply sum_upto_ge. intros m _.
    pose proof (subject_total_nonneg d S f m Hpos).
    apply ln_monotone; lra.
Qed.

(** *** Held-out likelihoods: [_evaluate_likelihood_setofsamples] *)

(** [a[:, i] = v] on a matrix. *)
Definition set_column (i : nat) (v : list R) (a : list (list R))
  : Py.result (list (list R)) :=
  if decide (length v = length a) then
    Py.Ok (zip_with (λ (row : list R) x, <[i := x]> row) a v)
  else Py.Raise (Py.ValueError "could not broadcast input array").

(** [samples_sequence[s][i]] is the sequence of subtype [s] at draw [i] and
    [samples_f[s][i]] its weight, so that [samples_sequence[:, :, i]] and
    [samples_f[:, i]] are columns. *)
Definition evaluate_likelihood_setofsamples (sustainData : SustainData)
    (samples_sequence : list (list Row)) (samples_f : list (list R))
  : Py.result (list (list R)) :=
  let M := getNumSamples sustainData in
  let n_iterations := length (default [] (head samples_sequence)) in
  Py.for_each
    (λ i samples_likelihood_subj,
       S ← mapM (λ row : list Row, Py.getitem row i) samples_sequence;
       f ← mapM (λ row : list R, Py.getitem row i) samples_f;
       '(_, likelihood_sample_subj, _, _, _) ← calculate_likelihood sustainData S f;
       set_column i likelihood_sample_subj samples_likelihood_subj)
    (Py.range n_iterations)
    (replicate M (replicate n_iterations 0%R)).

(** Column [i] of a matrix whose rows all reach that far. *)
Definition sample_at {A} (a : list (list A)) (i : nat) : list A :=
  omap (λ row, row !! i) a.

Lemma mapM_sample_at {A} (a : list (list A)) i :
  Forall (λ row, i < length row) a →
  mapM (λ row, Py.getitem row i) a = Py.Ok (sample_at a i)
  ∧ length (sample_at a i) = length a.
Proof.
  unfold sample_at. induction 1 as [|row a Hrow _ [IH IHlen]]; [done|].
  destruct (lookup_lt_is_Some_2 row i Hrow) as [x Hx].
  cbn [mapM omap list_omap]. rewrite IH. unfold Py.getitem. rewrite Hx.
  cbn [mbind result_bind Py.bind mret result_ret length].
  change (list_omap _ _ ?g a) with (omap g a). by rewrite IHlen.
Qed.

Lemma set_column_tabulate M n i (g : nat → R) (h : nat → nat → R) :
  set_column i (tabulate M g) (tabulate M (λ m, tabulate n (h m)))
  = Py.Ok (tabulate M (λ m, tabulate n (λ t,
             if decide (t = i) then g m else h m t))).
Proof.
  unfold set_column. rewrite !length_tabulate, decide_True by done. f_equal.
  rewrite zip_with_tabulate. apply tabulate_ext. intros m _.
  apply insert_tabulate.
Qed.

(** The subtypes' sequences and weights at draw [i] have the shapes that
    [_calculate_likelihood] needs. *)
Definition chain_well_shaped (sustainData : SustainData) (n : nat)
    (samples_sequence : list (list Row)) (samples_f : list (list R)) : Prop :=
  samples_sequence ≠ []
  ∧ Forall (λ row, length row = n) samples_sequence
  ∧ length samples_f = length samples_sequence
  ∧ Forall (λ row, length row = n) samples_f
  ∧ ∀ i row, i < n → row ∈ sample_at samples_sequence i →
      shape2 (getNumSamples sustainData) (getNumStages sustainData + 1)
        (calculate_likelihood_stage sustainData row).

Lemma evaluate_loop d n ss sf j :
  chain_well_shaped d n ss sf → j ≤ n →
  Py.for_each
    (λ i samples_likelihood_subj,
       S ← mapM (λ row : list Row, Py.getitem row i) ss;
       f ← mapM (λ row : list R, Py.getitem row i) sf;
       '(_, likelihood_sample_subj, _, _, _) ← calculate_likelihood d S f;
       set_column i likelihood_sample_subj samples_likelihood_subj)
    (Py.range j)
    (replicate (getNumSamples d) (replicate n 0%R))
  = Py.Ok (tabulate (getNumSamples d) (λ m, tabulate n (λ i,
             if decide (i < j)
             then subject_total d (sample_at ss i) (sample_at sf i) m
             else 0%R))).
Proof.
  intros (Hne & Hss & Hlen & Hsf & Hshape). induction j as [|j IH]; intros Hj.
  - cbn [Py.range seq Py.for_each]. f_equal.
    rewrite (replicate_tabulate n), (replicate_tabulate (getNumSamples d)).
    apply tabulate_ext. intros m _. apply tabulate_ext. intros i _.
    destruct (decide (i < 0)); [lia|done].
  - rewrite Py.range_S, Py.for_each_app, IH by lia.
    cbn [Py.bind Py.for_each].
    destruct (mapM_sample_at ss j) as [-> Hl1].
    { eapply Forall_impl; [exact Hss|]. intros row Hrow. cbn in Hrow. lia. }
    cbn [mbind result_bind Py.bind].
    destruct (mapM_sample_at sf j) as [-> Hl2].
    { eapply Forall_impl; [exact Hsf|]. intros row Hrow. cbn in Hrow. lia. }
    cbn [mbind result_bind Py.bind].
    rewrite calculate_likelihood_eq
      by (congruence || (intros row Hrow; by apply (Hshape j row))).
    cbn [mbind result_bind Py.bind]. rewrite set_column_tabulate.
    cbn [Py.bind]. f_equal.
    apply tabulate_ext. intros m _. apply tabulate_ext. intros i _.
    destruct (decide (i = j)) as [->|Hne'].
    + by rewrite decide_True by lia.
    + destruct (decide (i < j)); [rewrite decide_True by lia|
                                  rewrite decide_False by lia]; done.
Qed.

(** X18. [_evaluate_likelihood_setofsamples] returns, for subject [m] and draw
    [i] of a well-shaped chain, the total probability of the subject's data
    under the model of draw [i]: the sum over all stages and subtypes of stage
    probability times weight, with the sequences and the weights of that
    draw. *)
Theorem evaluate_likelihood_setofsamples_entries d n ss sf :
  chain_well_shaped d n ss sf →
  evaluate_likelihood_setofsamples d ss sf
  = Py.Ok (tabulate (getNumSamples d) (λ m, tabulate n (λ i,
             subject_total d (sample_at ss i) (sample_at sf i) m))).
Proof.
  intros Hchain. unfold evaluate_likelihood_setofsamples.
  assert (length (default [] (head ss)) = n) as ->.
  { destruct Hchain as (Hne & Hss & _). destruct ss as [|row ss]; [done|].
    cbn. by inversion Hss. }
  rewrite (evaluate_loop d n ss sf n Hchain) by done. f_equal.
  apply tabulate_ext. intros m _. apply tabulate_ext. intros i Hi.
  by rewrite decide_True.
Qed.

End CalculateLikelihood.

(** *** A concrete instance: two subjects, one stage, two subtypes *)

Definition demo_samples (_ : unit) : nat := 2.
Definition demo_stages (_ : unit) : nat := 1.
Definition demo_stage_likelihood (_ : unit) (row : nat) : list (list R) :=
  [[1; INR row]; [3; 4]]%R.

Lemma calculate_likelihood_totals_witness :
  length [(/ 2)%R; (/ 2)%R] = length [5; 6]
  ∧ Py.is_ok (calculate_likelihood demo_samples demo_stages demo_stage_likelihood
                tt [5; 6] [(/ 2)%R; (/ 2)%R]) = true.
Proof.
  split; [reflexivity|].
  assert (∀ row, row ∈ [5; 6] →
            shape2 (demo_samples tt) (demo_stages tt + 1)
              (demo_stage_likelihood tt row)) as Hshape.
  { intros row _. split; [reflexivity|]. repeat constructor. }
  destruct (calculate_likelihood_totals demo_samples demo_stages
              demo_stage_likelihood tt [5; 6] [(/ 2)%R; (/ 2)%R] eq_refl Hshape)
    as [Heq _].
  rewrite Heq. reflexivity.
Defined.

Lemma demo_shape row :
  shape2 (demo_samples tt) (demo_stages tt + 1) (demo_stage_likelihood tt row).
Proof. split; [reflexivity|]. repeat constructor. Qed.

Lemma calculate_likelihood_floor_witness :
  ∃ loglike,
    (∃ a b c e,
       calculate_likelihood demo_samples demo_stages demo_stage_likelihood
         tt [5; 6] [(/ 2)%R; (/ 2)%R] = Py.Ok (loglike, a, b, c, e))
    ∧ (INR 2 * ln 1e-250 <= loglike)%R.
Proof.
  assert (nonnegative demo_stage_likelihood tt [5; 6] [(/ 2)%R; (/ 2)%R]) as Hpos.
  { split; [repeat first [apply Forall_nil_2|apply Forall_cons_2]; lra|].
    intros row _. pose proof (pos_INR row). unfold demo_stage_likelihood.
    repeat first [apply Forall_nil_2|apply Forall_cons_2]; lra. }
  destruct (calculate_likelihood_floor demo_samples demo_stages
              demo_stage_likelihood tt [5; 6] [(/ 2)%R; (/ 2)%R] eq_refl
              (λ row _, demo_shape row) Hpos)
    as (loglike & a & b & c & e & H & _ & Hfloor).
  exists loglike. split; [by exists a, b, c, e|exact Hfloor].
Defined.

(** A chain of two draws for two subtypes. *)
Lemma demo_chain_well_shaped :
  chain_well_shaped demo_samples demo_stages demo_stage_likelihood tt 2
    [[5; 6]; [7; 8]] [[(/ 2)%R; (/ 2)%R]; [(/ 2)%R; (/ 2)%R]].
Proof.
  split; [done|]. split; [by repeat constructor|]. split; [done|].
  split; [by repeat constructor|]. intros i row _ _. apply demo_shape.
Qed.

Lemma evaluate_likelihood_setofsamples_entries_witness :
  evaluate_likelihood_setofsamples demo_samples demo_stages demo_stage_likelihood
    tt [[5; 6]; [7; 8]] [[(/ 2)%R; (/ 2)%R]; [(/ 2)%R; (/ 2)%R]]
  = Py.Ok (Tab.tabulate 2 (λ m, Tab.tabulate 2 (λ i,
             subject_total demo_stages demo_stage_likelihood tt
               (sample_at [[5; 6]; [7; 8]] i)
               (sample_at [[(/ 2)%R; (/ 2)%R]; [(/ 2)%R; (/ 2)%R]] i) m))).
Proof.
  exact (evaluate_likelihood_setofsamples_entries demo_samples demo_stages
           demo_stage_likelihood tt 2 _ _ demo_chain_well_shaped).
Defined.

End Likelihood.

(** ** The proposal tuner: [_optimise_mcmc_settings]

    Stated over exact arithmetic, like the likelihood engine. *)

Module Tuner.

Import Tab.

Definition np_sum (a : list R) : R := fold_left Rplus a 0%R.

(** [np.std(a, ddof=ddof)] of a vector: the mean is the sum over the length,
    the squared deviations are summed and divided by [max(N - ddof, 0)], and the
    square root is taken.  The operations are those of the reals: NumPy rounds
    each of them to binary64, so the two agree up to rounding, and exactly
    where every step is exact (as on equal whole numbers). *)
Definition np_std (ddof : nat) (a : list R) : R :=
  let arrmean := (np_sum a / INR (length a))%R in
  let x := (λ v, ((v - arrmean) * (v - arrmean))%R) <$> a in
  sqrt (np_sum x / INR (length a - ddof)).

(** [np.std(a, axis=2, ddof=ddof)] of a three-dimensional array and
    [np.std(a, axis=1, ddof=ddof)] of a matrix. *)
Definition std_axis2 (ddof : nat) (a : list (list (list R))) : list (list R) :=
  (λ x : list (list R), np_std ddof <$> x) <$> a.
Definition std_axis1 (ddof : nat) (a : list (list R)) : list R :=
  np_std ddof <$> a.

(** [a[a < 0.01] = 0.01] *)
Definition floor_at_001 (a : list (list R)) : list (list R) :=
  (λ row : list R, (λ x, if Rlt_dec x 0.01 then 0.01%R else x) <$> row) <$> a.

(** [temp_inv = np.array([0] * N); temp_inv[temp_seq] = np.arange(N)]: entry
    [temp_seq[j]] receives [j], for [j = 0, 1, ...]. *)
Definition inverse_positions (temp_seq : list nat) : Py.result (list nat) :=
  Py.for_each
    (λ j temp_inv,
       k ← Py.getitem temp_seq j;
       if decide (k < length temp_inv) then Py.Ok (<[k := j]> temp_inv)
       else Py.Raise (Py.IndexError "index out of bounds"))
    (Py.range (length temp_seq))
    (replicate (length temp_seq) 0).

(** [a[s, :, sample] = v] *)
Definition set_fibre (s sample : nat) (v : list R) (a : list (list (list R)))
  : Py.result (list (list (list R))) :=
  a_s ← Py.getitem a s;
  Py.Ok (<[s := zip_with (λ col x, <[sample := x]> col) a_s v]> a).

(** The proposal scale: the scalar of the first pass, or one entry per
    position (per subtype) once it has been estimated. *)
Inductive seq_sigma : Type :=
| SeqScalar (x : R)
| SeqArray (a : list (list R)).

Inductive f_sigma : Type :=
| FScalar (x : R)
| FArray (a : list R).

Section OptimiseMcmcSettings.
Context {SustainData Row Fraction Rng : Type}.

(** [self.N_iterations_MCMC] *)
Variable N_iterations_MCMC : nat.
(** The abstract method [_perform_mcmc], restricted to [samples_sequence]
    (subtype by position by draw, stage indices) and [samples_f] (subtype by
    draw). *)
Variable perform_mcmc :
  SustainData → list Row → Fraction → nat → seq_sigma → f_sigma → Rng →
  list (list (list nat)) * list (list R) * Rng.

(** [int(1e4)] *)
Definition n_iterations_MCMC_optimisation : nat := 100 * 100.
Definition n_passes_optimisation : nat := 3.

Lemma n_iterations_MCMC_optimisation_pos : 0 < n_iterations_MCMC_optimisation.
Proof. unfold n_iterations_MCMC_optimisation. lia. Qed.

#[local] Opaque n_iterations_MCMC_optimisation.

(** One pass of [for sample in range(n_iterations_MCMC_optimisation)]. *)
Definition position_body (samples_sequence_currentpass : list (list (list nat)))
    (s sample : nat) (samples_position_currentpass : list (list (list R)))
  : Py.result (list (list (list R))) :=
  rows ← Py.getitem samples_sequence_currentpass s;
  temp_seq ← mapM (λ row, Py.getitem row sample) rows;
  temp_inv ← inverse_positions temp_seq;
  set_fibre s sample (INR <$> temp_inv) samples_position_currentpass.

(** The two nested loops that fill [samples_position_currentpass]. *)
Definition positions (N_S : nat) (samples_sequence_currentpass : list (list (list nat)))
  : Py.result (list (list (list R))) :=
  Py.for_each
    (λ s p,
       Py.for_each (position_body samples_sequence_currentpass s)
         (Py.range n_iterations_MCMC_optimisation) p)
    (Py.range N_S)
    ((λ x : list (list nat), (λ row : list nat, (λ _, 0%R) <$> row) <$> x)
       <$> samples_sequence_currentpass).

(** One pass of [for i in range(n_passes_optimisation)]. *)
Definition tuning_pass (sustainData : SustainData) (seq_init : list Row)
    (f_init : Fraction) (st : seq_sigma * f_sigma * Rng)
  : Py.result (seq_sigma * f_sigma * Rng) :=
  let '(seq_sigma_currentpass, f_sigma_currentpass, g) := st in
  let N_S := length seq_init in
  let '(samples_sequence_currentpass, samples_f_currentpass, g') :=
    perform_mcmc sustainData seq_init f_init n_iterations_MCMC_optimisation
      seq_sigma_currentpass f_sigma_currentpass g in
  samples_position_currentpass ← positions N_S samples_sequence_currentpass;
  let seq_sigma_currentpass := std_axis2 1 samples_position_currentpass in
  let seq_sigma_currentpass := floor_at_001 seq_sigma_currentpass in
  let f_sigma_currentpass := std_axis1 1 samples_f_currentpass in
  Py.Ok (SeqArray seq_sigma_currentpass, FArray f_sigma_currentpass, g').

Definition optimise_mcmc_settings (sustainData : SustainData) (seq_init : list Row)
    (f_init : Fraction) (g : Rng) : Py.result (seq_sigma * f_sigma * Rng) :=
  Py.for_each (λ _ st, tuning_pass sustainData seq_init f_init st)
    (Py.range n_passes_optimisation)
    (SeqScalar 1, FScalar 0.01, g).

Definition estimate_uncertainty_sustain_model (sustainData : SustainData)
    (seq_init : list Row) (f_init : Fraction) (g : Rng)
  : Py.result (list (list (list nat)) * list (list R) * Rng) :=
  '(seq_sigma_opt, f_sigma_opt, g1) ←
    optimise_mcmc_settings sustainData seq_init f_init g;
  Py.Ok (perform_mcmc sustainData seq_init f_init N_iterations_MCMC
           seq_sigma_opt f_sigma_opt g1).

(** *** The quantities of the specification *)

(** The position of stage [k] in a sequence: the index of its first occurrence. *)
Fixpoint position_of (temp_seq : list nat) (k : nat) : nat :=
  match temp_seq with
  | [] => 0
  | x :: rest => if decide (x = k) then 0 else S (position_of rest k)
  end.

(** The sample standard deviation with the [N - 1] denominator. *)
Definition sample_mean (n : nat) (x : nat → R) : R := (sum_upto n x / INR n)%R.
Definition sample_std (n : nat) (x : nat → R) : R :=
  sqrt (sum_upto n (λ i, (x i - sample_mean n x)²)%R / (INR n - 1)).

(** The sequence of subtype [s] at draw [t] of a chain. *)
Definition draw (samples_sequence : list (list (list nat))) (s t : nat) : list nat :=
  (λ row, nth t row 0) <$> nth s samples_sequence [].

(** A chain of [n] draws for [N_S] subtypes over [N] positions, each draw a
    permutation of the stage indices. *)
Definition chain_of_permutations (N_S N n : nat)
    (samples_sequence : list (list (list nat))) : Prop :=
  length samples_sequence = N_S
  ∧ Forall (λ x, length x = N ∧ Forall (λ row, length row = n) x) samples_sequence
  ∧ ∀ s t, s < N_S → t < n → draw samples_sequence s t ≡ₚ Py.range N.

(** The tuned scales, read off a chain: per subtype and stage, the sample
    standard deviation over the draws of the stage's position, floored at
    0.01; per subtype, the sample standard deviation of the weight. *)
Definition tuned_seq_sigma (N_S N n : nat) (samples_sequence : list (list (list nat)))
  : list (list R) :=
  tabulate N_S (λ s, tabulate N (λ k,
    let sd := sample_std n (λ t, INR (position_of (draw samples_sequence s t) k)) in
    if Rlt_dec sd 0.01 then 0.01%R else sd)).

Definition tuned_f_sigma (n : nat) (samples_f : list (list R)) : list R :=
  (λ row, sample_std n (λ t, nth t row 0%R)) <$> samples_f.

(** *** The inverse permutation *)

Lemma position_of_lookup temp_seq : ∀ j k,
  NoDup temp_seq → temp_seq !! j = Some k → position_of temp_seq k = j.
Proof.
  induction temp_seq as [|x rest IH]; intros j k Hnd Hj; [done|].
  apply NoDup_cons in Hnd as [Hx Hnd]. destruct j as [|j]; cbn in *.
  - injection Hj as ->. by rewrite decide_True.
  - rewrite decide_False.
    + f_equal. by apply IH.
    + intros ->. apply Hx. by eapply list_elem_of_lookup_2.
Qed.

Lemma inverse_positions_loop temp_seq N j :
  temp_seq ≡ₚ Py.range N → j ≤ N →
  Py.for_each
    (λ j temp_inv,
       k ← Py.getitem temp_seq j;
       if decide (k < length temp_inv) then Py.Ok (<[k := j]> temp_inv)
       else Py.Raise (Py.IndexError "index out of bounds"))
    (Py.range j) (replicate N 0)
  = Py.Ok (tabulate N (λ k,
             if decide (k ∈ take j temp_seq) then position_of temp_seq k else 0)).
Proof.
  intros Hperm Hj.
  assert (length temp_seq = N) as Hlen.
  { rewrite Hperm. unfold Py.range. apply length_seq. }
  assert (NoDup temp_seq) as Hnd.
  { rewrite Hperm. apply NoDup_seq. }
  induction j as [|j IH].
  - cbn. rewrite replicate_tabulate. by f_equal.
  - rewrite Py.range_S, Py.for_each_app, IH by lia. cbn [Py.bind Py.for_each].
    destruct (lookup_lt_is_Some_2 temp_seq j ltac:(lia)) as [x Hx].
    unfold Py.getitem. rewrite Hx. cbn [mbind result_bind Py.bind].
    assert (x < N) as HxN.
    { assert (x ∈ Py.range N) as Hin
        by (rewrite <- Hperm; by eapply list_elem_of_lookup_2).
      unfold Py.range in Hin. apply elem_of_seq in Hin. lia. }
    rewrite decide_True by (by rewrite length_tabulate).
    cbn [Py.bind]. f_equal. rewrite insert_tabulate. apply tabulate_ext.
    intros k _. rewrite (take_S_r _ _ _ Hx).
    destruct (decide (k = x)) as [->|Hne].
    + rewrite decide_True by (apply elem_of_app; right; by apply list_elem_of_singleton).
      symmetry. by apply position_of_lookup.
    + destruct (decide (k ∈ take j temp_seq)) as [Hin|Hin].
      * rewrite decide_True; [done|]. apply elem_of_app. by left.
      * rewrite decide_False; [done|].
        intros [?|?%list_elem_of_singleton]%elem_of_app; done.
Qed.

(** On a permutation of the stage indices, [temp_inv] holds at [k] the position
    of stage [k]. *)
Lemma inverse_positions_permutation temp_seq N :
  temp_seq ≡ₚ Py.range N →
  inverse_positions temp_seq = Py.Ok (tabulate N (position_of temp_seq)).
Proof.
  intros Hperm.
  assert (length temp_seq = N) as Hlen.
  { rewrite Hperm. unfold Py.range. apply length_seq. }
  unfold inverse_positions. rewrite Hlen.
  rewrite (inverse_positions_loop temp_seq N N Hperm) by lia.
  f_equal. apply tabulate_ext. intros k Hk. rewrite decide_True; [done|].
  rewrite take_ge by lia. rewrite Hperm. unfold Py.range. apply elem_of_seq. lia.
Qed.

(** *** The standard deviation *)

Lemma np_std_tabulate n (x : nat → R) :
  0 < n → np_std 1 (tabulate n x) = sample_std n x.
Proof.
  intros Hn. unfold np_std, sample_std, sample_mean, np_sum.
  rewrite length_tabulate, fmap_tabulate, !fold_left_tabulate.
  rewrite minus_INR by lia. reflexivity.
Qed.

Lemma np_std_row n (row : list R) :
  0 < n → length row = n →
  np_std 1 row = sample_std n (λ t, nth t row 0%R).
Proof.
  intros Hn Hlen. rewrite (as_tabulate 0%R n row Hlen) at 1.
  by apply np_std_tabulate.
Qed.


(** *** The position array *)

Definition tab3 (d0 d1 d2 : nat) (F : nat → nat → nat → R) : list (list (list R)) :=
  tabulate d0 (λ s, tabulate d1 (λ j, tabulate d2 (λ t, F s j t))).

Definition chain_shape (N_S N n : nat) (samples_sequence : list (list (list nat))) : Prop :=
  length samples_sequence = N_S
  ∧ Forall (λ x, length x = N ∧ Forall (λ row, length row = n) x) samples_sequence.

Lemma tab3_ext d0 d1 d2 F G :
  (∀ s j t, s < d0 → j < d1 → t < d2 → F s j t = G s j t) →
  tab3 d0 d1 d2 F = tab3 d0 d1 d2 G.
Proof.
  intros H. unfold tab3. apply tabulate_ext. intros s Hs.
  apply tabulate_ext. intros j Hj. apply tabulate_ext. intros t Ht. by apply H.
Qed.

Lemma zeros_like_tab3 N_S N n (ss : list (list (list nat))) :
  chain_shape N_S N n ss →
  (λ x : list (list nat), (λ row : list nat, (λ _, 0%R) <$> row) <$> x) <$> ss
  = tab3 N_S N n (λ _ _ _, 0%R).
Proof.
  intros [Hlen Hshape]. rewrite (as_tabulate [] N_S ss Hlen) at 1.
  rewrite fmap_tabulate. unfold tab3. apply tabulate_ext. intros s Hs.
  destruct (lookup_lt_is_Some_2 ss s ltac:(lia)) as [x Hx].
  rewrite (nth_lookup_Some _ _ [] _ Hx).
  destruct (Forall_lookup_1 _ _ _ _ Hshape Hx) as [HxN Hrows].
  rewrite (as_tabulate [] N x HxN) at 1. rewrite fmap_tabulate.
  apply tabulate_ext. intros j Hj.
  destruct (lookup_lt_is_Some_2 x j ltac:(lia)) as [row Hrow].
  rewrite (nth_lookup_Some _ _ [] _ Hrow).
  pose proof (Forall_lookup_1 _ _ _ _ Hrows Hrow) as Hn. cbn beta in Hn.
  rewrite (as_tabulate 0 n row Hn) at 1. by rewrite fmap_tabulate.
Qed.

Lemma getitem_lookup {A} (l : list A) i x :
  l !! i = Some x → Py.getitem l i = Py.Ok x.
Proof. intros H. unfold Py.getitem. by rewrite H. Qed.

Lemma mapM_getitem (rows : list (list nat)) t :
  Forall (λ row, t < length row) rows →
  mapM (λ row, Py.getitem row t) rows = Py.Ok ((λ row, nth t row 0) <$> rows).
Proof.
  induction 1 as [|row rows Hrow _ IH]; [done|].
  cbn [mapM fmap list_fmap]. rewrite IH. unfold Py.getitem.
  destruct (lookup_lt_is_Some_2 row t Hrow) as [x Hx]. rewrite Hx.
  cbn. by rewrite (nth_lookup_Some _ _ 0 _ Hx).
Qed.

Lemma set_fibre_tab3 d0 d1 d2 F s t (v : nat → R) :
  s < d0 →
  set_fibre s t (tabulate d1 v) (tab3 d0 d1 d2 F)
  = Py.Ok (tab3 d0 d1 d2 (λ s' j t',
             if decide (s' = s ∧ t' = t) then v j else F s' j t')).
Proof.
  intros Hs. unfold set_fibre, Py.getitem, tab3.
  rewrite lookup_tabulate by done. cbn [mbind result_bind Py.bind]. f_equal.
  rewrite zip_with_tabulate, insert_tabulate.
  apply tabulate_ext. intros s' Hs'. destruct (decide (s' = s)) as [->|Hne].
  - apply tabulate_ext. intros j Hj. rewrite insert_tabulate.
    apply tabulate_ext. intros t' Ht'.
    destruct (decide (t' = t)) as [->|Hne].
    + by rewrite decide_True.
    + rewrite decide_False; [done|]. by intros [_ ?].
  - apply tabulate_ext. intros j Hj. apply tabulate_ext. intros t' Ht'.
    rewrite decide_False; [done|]. by intros [? _].
Qed.

(** The position of stage [j] in the sequence of subtype [s] at draw [t]. *)
Definition position (ss : list (list (list nat))) (s t j : nat) : R :=
  INR (position_of (draw ss s t) j).

Lemma position_body_tab3 N_S N n ss F s t :
  chain_of_permutations N_S N n ss → s < N_S → t < n →
  position_body ss s t (tab3 N_S N n F)
  = Py.Ok (tab3 N_S N n (λ s' j t',
             if decide (s' = s ∧ t' = t) then position ss s t j else F s' j t')).
Proof.
  intros (Hlen & Hshape & Hperm) Hs Ht. unfold position_body.
  destruct (lookup_lt_is_Some_2 ss s ltac:(lia)) as [rows Hrows].
  rewrite (getitem_lookup _ _ _ Hrows). cbn [mbind result_bind Py.bind].
  destruct (Forall_lookup_1 _ _ _ _ Hshape Hrows) as [_ Hrowlen].
  rewrite mapM_getitem.
  2:{ eapply Forall_impl; [exact Hrowlen|]. intros row Hrow. cbn in Hrow. lia. }
  cbn [mbind result_bind Py.bind].
  assert ((λ row, nth t row 0) <$> rows = draw ss s t) as ->.
  { unfold draw. by rewrite (nth_lookup_Some _ _ [] _ Hrows). }
  rewrite (inverse_positions_permutation _ N) by (by apply Hperm).
  cbn [mbind result_bind Py.bind]. rewrite fmap_tabulate.
  by rewrite set_fibre_tab3.
Qed.

Lemma position_inner_loop N_S N n ss F s t :
  chain_of_permutations N_S N n ss → s < N_S → t ≤ n →
  Py.for_each (position_body ss s) (Py.range t) (tab3 N_S N n F)
  = Py.Ok (tab3 N_S N n (λ s' j t',
             if decide (s' = s ∧ t' < t) then position ss s t' j else F s' j t')).
Proof.
  intros Hchain Hs. induction t as [|t IH]; intros Ht.
  - cbn. f_equal. apply tab3_ext. intros s' j t' _ _ _.
    rewrite decide_False; [done|]. intros [_ ?]. lia.
  - rewrite Py.range_S, Py.for_each_app, IH by lia.
    cbn [Py.bind Py.for_each].
    rewrite (position_body_tab3 N_S N n) by (done || lia).
    cbn [Py.bind]. f_equal. apply tab3_ext. intros s' j t' _ _ _.
    destruct (decide (s' = s ∧ t' = t)) as [[-> ->]|Hne].
    + rewrite decide_True; [done|]. split; [done|lia].
    + destruct (decide (s' = s ∧ t' < t)) as [[-> Hlt]|Hne'].
      * rewrite decide_True; [done|]. split; [done|lia].
      * rewrite decide_False; [done|]. intros [-> Hlt].
        destruct (decide (t' = t)) as [->|?]; [by apply Hne|].
        apply Hne'. split; [done|lia].
Qed.

Lemma position_outer_loop N_S N ss s :
  chain_of_permutations N_S N n_iterations_MCMC_optimisation ss → s ≤ N_S →
  Py.for_each
    (λ s p, Py.for_each (position_body ss s)
              (Py.range n_iterations_MCMC_optimisation) p)
    (Py.range s) (tab3 N_S N n_iterations_MCMC_optimisation (λ _ _ _, 0%R))
  = Py.Ok (tab3 N_S N n_iterations_MCMC_optimisation (λ s' j t',
             if decide (s' < s) then position ss s' t' j else 0%R)).
Proof.
  intros Hchain. induction s as [|s IH]; intros Hs.
  - cbn [Py.range seq Py.for_each]. by f_equal.
  - rewrite Py.range_S, Py.for_each_app, IH by lia.
    cbn [Py.bind Py.for_each].
    rewrite (position_inner_loop N_S N n_iterations_MCMC_optimisation)
      by (done || lia).
    cbn [Py.bind]. f_equal. apply tab3_ext. intros s' j t' _ _ Ht'.
    destruct (decide (s' = s ∧ t' < n_iterations_MCMC_optimisation))
      as [[-> _]|Hne].
    + rewrite decide_True; [done|lia].
    + destruct (decide (s' < s)) as [Hlt|Hge].
      * rewrite decide_True; [done|lia].
      * rewrite decide_False; [done|]. intros Hlt. apply Hne. split; [lia|done].
Qed.

(** After the two loops [samples_position_currentpass[s, j, t]] is the position
    of stage [j] in the sequence of subtype [s] at draw [t]. *)
Lemma positions_spec N_S N ss :
  chain_of_permutations N_S N n_iterations_MCMC_optimisation ss →
  positions N_S ss
  = Py.Ok (tab3 N_S N n_iterations_MCMC_optimisation
             (λ s j t, position ss s t j)).
Proof.
  intros Hchain. unfold positions.
  rewrite (zeros_like_tab3 N_S N n_iterations_MCMC_optimisation)
    by (destruct Hchain as (? & ? & _); by split).
  rewrite (position_outer_loop N_S N ss N_S) by done.
  f_equal. apply tab3_ext. intros s j t Hs _ _. by rewrite decide_True.
Qed.

Lemma std_axis2_tab3 d0 d1 d2 F :
  0 < d2 →
  std_axis2 1 (tab3 d0 d1 d2 F)
  = tabulate d0 (λ s, tabulate d1 (λ j, sample_std d2 (F s j))).
Proof.
  intros Hd. unfold std_axis2, tab3. rewrite fmap_tabulate.
  apply tabulate_ext. intros s _. rewrite fmap_tabulate.
  apply tabulate_ext. intros j _. by apply np_std_tabulate.
Qed.

Lemma floor_tabulate d0 d1 (F : nat → nat → R) :
  floor_at_001 (tabulate d0 (λ s, tabulate d1 (F s)))
  = tabulate d0 (λ s, tabulate d1 (λ j,
      if Rlt_dec (F s j) 0.01 then 0.01%R else F s j)).
Proof.
  unfold floor_at_001. rewrite fmap_tabulate. apply tabulate_ext. intros s _.
  by rewrite fmap_tabulate.
Qed.

Lemma std_axis1_rows n (samples_f : list (list R)) :
  0 < n → Forall (λ row, length row = n) samples_f →
  std_axis1 1 samples_f = tuned_f_sigma n samples_f.
Proof.
  intros Hn Hrows. unfold std_axis1, tuned_f_sigma.
  apply Forall_fmap_ext_1. eapply Forall_impl; [exact Hrows|].
  intros row Hrow. by apply np_std_row.
Qed.

(** *** The passes *)

(** One tuning pass as the specification describes it: an exploratory chain
    of 10,000 steps at the current scales, and the scales read off it. *)
Definition pass_spec (sustainData : SustainData) (seq_init : list Row)
    (f_init : Fraction) (N : nat) (st : seq_sigma * f_sigma * Rng)
  : seq_sigma * f_sigma * Rng :=
  let chain :=
    perform_mcmc sustainData seq_init f_init n_iterations_MCMC_optimisation
      st.1.1 st.1.2 st.2 in
  (SeqArray (tuned_seq_sigma (length seq_init) N n_iterations_MCMC_optimisation
               chain.1.1),
   FArray (tuned_f_sigma n_iterations_MCMC_optimisation chain.1.2),
   chain.2).

(** Every exploratory chain has 10,000 draws per subtype, each draw a
    permutation of the [N] stage indices. *)
Definition well_formed_chains (sustainData : SustainData) (seq_init : list Row)
    (f_init : Fraction) (N : nat) : Prop :=
  ∀ σ φ g,
    let chain :=
      perform_mcmc sustainData seq_init f_init n_iterations_MCMC_optimisation σ φ g in
    chain_of_permutations (length seq_init) N n_iterations_MCMC_optimisation chain.1.1
    ∧ Forall (λ row, length row = n_iterations_MCMC_optimisation) chain.1.2.

Lemma tuning_pass_spec d seq_init f_init N st :
  well_formed_chains d seq_init f_init N →
  tuning_pass d seq_init f_init st = Py.Ok (pass_spec d seq_init f_init N st).
Proof.
  intros Hwf. destruct st as [[σ φ] g]. unfold tuning_pass, pass_spec. cbn [fst snd].
  destruct (Hwf σ φ g) as [Hchain Hf].
  destruct (perform_mcmc d seq_init f_init n_iterations_MCMC_optimisation σ φ g)
    as [[ss sf] g'] eqn:Hmcmc. cbn [fst snd] in *.
  rewrite (positions_spec _ N) by done. cbn [mbind result_bind Py.bind].
  rewrite std_axis2_tab3 by apply n_iterations_MCMC_optimisation_pos.
  rewrite floor_tabulate.
  rewrite (std_axis1_rows n_iterations_MCMC_optimisation)
    by (done || apply n_iterations_MCMC_optimisation_pos).
  reflexivity.
Qed.

(** No entry of the tuned sequence scale is below 0.01. *)
Lemma tuned_seq_sigma_at_least_001 N_S N n ss row x :
  row ∈ tuned_seq_sigma N_S N n ss → x ∈ row → (0.01 <= x)%R.
Proof.
  unfold tuned_seq_sigma, tabulate. intros Hrow Hx.
  apply list_elem_of_fmap in Hrow as (s & -> & _).
  apply list_elem_of_fmap in Hx as (k & -> & _).
  cbn zeta. destruct (Rlt_dec _ _); lra.
Qed.

(** C7. When every exploratory chain is well formed, [_optimise_mcmc_settings]
    runs exactly three tuning passes, each a chain of 10,000 steps started from
    the same initial point at the scales of the pass before (1 and 0.01 at
    first).  The scales it returns are read off the third chain: for the
    sequence, per subtype and stage, the sample standard deviation ([N - 1]
    denominator) over the draws of the stage's position in the sampled
    sequence, with every value below 0.01 replaced by 0.01; for the fractions,
    per subtype, the sample standard deviation of the sampled weight, not
    floored.  [_estimate_uncertainty_sustain_model] runs the production chain,
    of [N_iterations_MCMC] steps, at these scales. *)
Theorem optimise_mcmc_settings_tuned d seq_init f_init N g :
  well_formed_chains d seq_init f_init N →
  let tuned :=
    pass_spec d seq_init f_init N
      (pass_spec d seq_init f_init N
         (pass_spec d seq_init f_init N (SeqScalar 1, FScalar 0.01, g))) in
  optimise_mcmc_settings d seq_init f_init g = Py.Ok tuned
  ∧ estimate_uncertainty_sustain_model d seq_init f_init g
    = Py.Ok (perform_mcmc d seq_init f_init N_iterations_MCMC
               tuned.1.1 tuned.1.2 tuned.2).
Proof.
  intros Hwf tuned.
  assert (optimise_mcmc_settings d seq_init f_init g = Py.Ok tuned) as Hopt.
  { unfold optimise_mcmc_settings, n_passes_optimisation.
    cbn [Py.range seq Py.for_each].
    rewrite !(tuning_pass_spec _ _ _ N) by done. cbn [Py.bind].
    rewrite !(tuning_pass_spec _ _ _ N) by done. cbn [Py.bind].
    rewrite !(tuning_pass_spec _ _ _ N) by done. reflexivity. }
  split; [exact Hopt|].
  unfold estimate_uncertainty_sustain_model. rewrite Hopt.
  cbn [mbind result_bind Py.bind]. by destruct tuned as [[σ φ] g3].
Qed.


(** *** The three passes, for use below *)

Lemma optimise_mcmc_settings_eq d seq_init f_init N g :
  well_formed_chains d seq_init f_init N →
  optimise_mcmc_settings d seq_init f_init g
  = Py.Ok (pass_spec d seq_init f_init N
             (pass_spec d seq_init f_init N
                (pass_spec d seq_init f_init N (SeqScalar 1, FScalar 0.01, g)))).
Proof.
  intros Hwf. unfold optimise_mcmc_settings, n_passes_optimisation.
  cbn [Py.range seq Py.for_each].
  rewrite !(tuning_pass_spec _ _ _ N) by done. cbn [Py.bind].
  rewrite !(tuning_pass_spec _ _ _ N) by done. cbn [Py.bind].
  rewrite !(tuning_pass_spec _ _ _ N) by done. reflexivity.
Qed.

(** *** The floor, whatever the chain *)

Lemma floor_at_001_floor a : Forall (Forall (λ x, (0.01 <= x)%R)) (floor_at_001 a).
Proof.
  unfold floor_at_001. apply Forall_fmap, Forall_forall. intros row _. cbn.
  apply Forall_fmap, Forall_forall. intros x _. cbn.
  destruct (Rlt_dec x 0.01); lra.
Qed.

Lemma tuning_pass_floor d seq_init f_init st σ φ g' :
  tuning_pass d seq_init f_init st = Py.Ok (σ, φ, g') →
  ∃ a b, σ = SeqArray a ∧ φ = FArray b ∧ Forall (Forall (λ x, (0.01 <= x)%R)) a.
Proof.
  destruct st as [[σ0 φ0] g0]. unfold tuning_pass.
  destruct (perform_mcmc _ _ _ _ _ _ _) as [[ss sf] g1].
  destruct (positions _ _) as [pos| |]; cbn [mbind result_bind Py.bind];
    try discriminate.
  intros [= <- <- <-]. eexists _, _. split; [done|]. split; [done|].
  apply floor_at_001_floor.
Qed.

(** X19. Whatever chains the sampler produces, a call of
    [_optimise_mcmc_settings] that returns hands back arrays, never the
    scalars 1 and 0.01 it starts from, and (in exact arithmetic) no entry of
    the sequence scale is below 0.01. *)
Theorem optimise_mcmc_settings_floor d seq_init f_init g σ φ g' :
  optimise_mcmc_settings d seq_init f_init g = Py.Ok (σ, φ, g') →
  ∃ a b, σ = SeqArray a ∧ φ = FArray b ∧ Forall (Forall (λ x, (0.01 <= x)%R)) a.
Proof.
  unfold optimise_mcmc_settings, n_passes_optimisation.
  cbn [Py.range seq Py.for_each]. intros H.
  destruct (tuning_pass d seq_init f_init _) as [st1| |];
    cbn [Py.bind] in H; try discriminate.
  destruct (tuning_pass d seq_init f_init st1) as [st2| |];
    cbn [Py.bind] in H; try discriminate.
  destruct (tuning_pass d seq_init f_init st2) as [st3| |] eqn:H3;
    cbn [Py.bind] in H; try discriminate.
  injection H as ->. by eapply tuning_pass_floor.
Qed.

(** *** The position array is the inverse permutation *)

Lemma inverse_positions_to temp_seq N j k :
  temp_seq ≡ₚ Py.range N → temp_seq !! j = Some k →
  tabulate N (position_of temp_seq) !! k = Some j.
Proof.
  intros Hperm Hj.
  assert (k < N) as Hk.
  { assert (k ∈ Py.range N) as Hin
      by (rewrite <- Hperm; by eapply list_elem_of_lookup_2).
    unfold Py.range in Hin. apply elem_of_seq in Hin. lia. }
  rewrite lookup_tabulate by done. f_equal.
  apply position_of_lookup; [|done]. rewrite Hperm. apply NoDup_seq.
Qed.

Lemma inverse_positions_from temp_seq N j k :
  temp_seq ≡ₚ Py.range N →
  tabulate N (position_of temp_seq) !! k = Some j → temp_seq !! j = Some k.
Proof.
  intros Hperm Hk.
  assert (k < N) as HkN.
  { apply lookup_lt_Some in Hk. by rewrite length_tabulate in Hk. }
  rewrite lookup_tabulate in Hk by done. injection Hk as <-.
  assert (k ∈ temp_seq) as Hin.
  { rewrite Hperm. unfold Py.range. apply elem_of_seq. lia. }
  apply list_elem_of_lookup_1 in Hin as [j Hj].
  rewrite (position_of_lookup temp_seq j k); [done| |done].
  rewrite Hperm. apply NoDup_seq.
Qed.

(** X20. On a sequence that is a permutation of the stage indices, the array
    [temp_inv] that a tuning pass builds is the inverse permutation:
    [temp_inv[k] = j] exactly when [temp_seq[j] = k], and building the array of
    [temp_inv] in the same way gives [temp_seq] back. *)
Theorem inverse_positions_is_inverse temp_seq N :
  temp_seq ≡ₚ Py.range N →
  ∃ temp_inv,
    inverse_positions temp_seq = Py.Ok temp_inv
    ∧ temp_inv ≡ₚ Py.range N
    ∧ (∀ j k, temp_seq !! j = Some k ↔ temp_inv !! k = Some j)
    ∧ inverse_positions temp_inv = Py.Ok temp_seq.
Proof.
  intros Hperm. exists (tabulate N (position_of temp_seq)).
  set (q := tabulate N (position_of temp_seq)).
  assert (length temp_seq = N) as Hlen.
  { rewrite Hperm. unfold Py.range. apply length_seq. }
  assert (∀ j k, temp_seq !! j = Some k ↔ q !! k = Some j) as Hinv.
  { intros j k. split; [by apply inverse_positions_to|by apply inverse_positions_from]. }
  assert (NoDup q) as Hnd.
  { apply NoDup_alt. intros i j x Hi Hj.
    apply Hinv in Hi, Hj. congruence. }
  assert (q ≡ₚ Py.range N) as Hq.
  { apply NoDup_Permutation; [done|apply NoDup_seq|]. intros x.
    unfold Py.range. rewrite elem_of_seq. split.
    - intros [k Hk]%list_elem_of_lookup_1. apply Hinv in Hk.
      apply lookup_lt_Some in Hk. lia.
    - intros [_ Hx]. cbn in Hx.
      destruct (lookup_lt_is_Some_2 temp_seq x ltac:(lia)) as [k Hk].
      apply Hinv in Hk. by eapply list_elem_of_lookup_2. }
  split; [by apply inverse_positions_permutation|]. split; [done|].
  split; [done|].
  rewrite (inverse_positions_permutation q N Hq). f_equal.
  rewrite (as_tabulate 0 N temp_seq Hlen). apply tabulate_ext. intros j Hj.
  destruct (lookup_lt_is_Some_2 temp_seq j ltac:(lia)) as [k Hk].
  rewrite (nth_lookup_Some _ _ 0 _ Hk).
  apply position_of_lookup; [done|]. by apply Hinv.
Qed.

(** *** A chain that does not move *)

Lemma sum_upto_const n c : sum_upto n (λ _, c) = (INR n * c)%R.
Proof.
  induction n as [|n IH]; [cbn; lra|]. rewrite S_INR. cbn [sum_upto].
  rewrite IH. lra.
Qed.

Lemma sample_std_ext n (x y : nat → R) :
  (∀ i, i < n → x i = y i) → sample_std n x = sample_std n y.
Proof.
  intros H. unfold sample_std, sample_mean.
  rewrite (sum_upto_ext n x y H). f_equal. f_equal.
  apply sum_upto_ext. intros i Hi. by rewrite H.
Qed.

Lemma sample_std_const n c : 0 < n → sample_std n (λ _, c) = 0%R.
Proof.
  intros Hn. unfold sample_std, sample_mean. rewrite !sum_upto_const.
  assert (INR n ≠ 0%R) as Hne by (apply not_0_INR; lia).
  replace (INR n * c / INR n)%R with c by (field; done).
  replace ((c - c)²)%R with 0%R by (unfold Rsqr; ring).
  unfold Rdiv. rewrite Rmult_0_r, Rmult_0_l. apply sqrt_0.
Qed.

(** Every sequence chain the sampler returns repeats its first draw. *)
Definition frozen_chains (sustainData : SustainData) (seq_init : list Row)
    (f_init : Fraction) : Prop :=
  ∀ σ φ g s t,
    let chain :=
      perform_mcmc sustainData seq_init f_init n_iterations_MCMC_optimisation σ φ g in
    t < n_iterations_MCMC_optimisation →
    draw chain.1.1 s t = draw chain.1.1 s 0.

(** X21. When the exploratory sequence chains never move, every position is
    the same whole number at all draws, so its mean is that number and every
    deviation from it is 0 (in binary64 as over the reals: sums of up to
    10,000 equal stage indices and their quotient by 10,000 are exact).  The
    sample standard deviation is 0, below the floor, and
    [_optimise_mcmc_settings] returns 0.01 for every entry of the sequence
    scale. *)
Theorem optimise_mcmc_settings_frozen d seq_init f_init N g :
  well_formed_chains d seq_init f_init N →
  frozen_chains d seq_init f_init →
  ∃ a b g',
    optimise_mcmc_settings d seq_init f_init g = Py.Ok (SeqArray a, FArray b, g')
    ∧ Forall (Forall (λ x, x = 0.01%R)) a.
Proof.
  intros Hwf Hfrozen. rewrite (optimise_mcmc_settings_eq _ _ _ N) by done.
  set (st := pass_spec d seq_init f_init N
               (pass_spec d seq_init f_init N (SeqScalar 1, FScalar 0.01, g))).
  unfold pass_spec at 1.
  pose proof (λ s t, Hfrozen st.1.1 st.1.2 st.2 s t) as Hseq. cbv zeta in Hseq.
  eexists _, _, _. split; [reflexivity|].
  unfold tuned_seq_sigma, tabulate.
  apply Forall_fmap, Forall_forall. intros s _. cbn.
  apply Forall_fmap, Forall_forall. intros k _. cbn.
  rewrite (sample_std_ext _ _ (λ _, INR (position_of
             (draw (perform_mcmc d seq_init f_init
                      n_iterations_MCMC_optimisation st.1.1 st.1.2 st.2).1.1
                s 0) k)))
    by (intros t Ht; by rewrite Hseq).
  rewrite sample_std_const by apply n_iterations_MCMC_optimisation_pos.
  destruct (Rlt_dec 0 0.01); [done|lra].
Qed.

End OptimiseMcmcSettings.

(** A sampler over two stages and one subtype whose chain swaps the two
    stages at every step, with the weight fixed at one half. *)
Definition demo_perform_mcmc (_ : unit) (_ : list unit) (_ : unit) (n : nat)
    (_ : seq_sigma) (_ : f_sigma) (g : unit)
  : list (list (list nat)) * list (list R) * unit :=
  ([[tabulate n (λ t, t mod 2); tabulate n (λ t, 1 - t mod 2)]],
   [replicate n (/ 2)%R], g).

Lemma demo_perform_mcmc_well_formed :
  well_formed_chains demo_perform_mcmc tt [tt] tt 2.
Proof.
  intros σ φ g. unfold demo_perform_mcmc. cbn [fst snd]. split.
  - split; [done|]. split.
    + repeat constructor; by rewrite ?length_tabulate.
    + intros s t Hs Ht. destruct s as [|s]; [|cbn in Hs; lia].
      unfold draw. cbn [nth fmap list_fmap].
      rewrite !nth_tabulate by done.
      pose proof (Nat.mod_upper_bound t 2 ltac:(lia)) as Hmod.
      destruct (t mod 2) as [|[|r]] eqn:Hr; [done| |lia].
      change (Py.range 2) with [0; 1]. change (1 - 1) with 0.
      apply Permutation_swap.
  - repeat constructor; apply length_replicate.
Qed.

Lemma optimise_mcmc_settings_tuned_witness :
  let tuned :=
    pass_spec demo_perform_mcmc tt [tt] tt 2
      (pass_spec demo_perform_mcmc tt [tt] tt 2
         (pass_spec demo_perform_mcmc tt [tt] tt 2 (SeqScalar 1, FScalar 0.01, tt))) in
  optimise_mcmc_settings demo_perform_mcmc tt [tt] tt tt = Py.Ok tuned
  ∧ estimate_uncertainty_sustain_model 5 demo_perform_mcmc tt [tt] tt tt
    = Py.Ok (demo_perform_mcmc tt [tt] tt 5 tuned.1.1 tuned.1.2 tuned.2).
Proof.
  exact (optimise_mcmc_settings_tuned 5 demo_perform_mcmc tt [tt] tt 2 tt
           demo_perform_mcmc_well_formed).
Defined.

Lemma optimise_mcmc_settings_floor_witness :
  ∃ a b g',
    optimise_mcmc_settings demo_perform_mcmc tt [tt] tt tt
    = Py.Ok (SeqArray a, FArray b, g')
    ∧ Forall (Forall (λ x, (0.01 <= x)%R)) a.
Proof.
  pose proof (optimise_mcmc_settings_eq demo_perform_mcmc tt [tt] tt 2 tt
                demo_perform_mcmc_well_formed) as H.
  destruct (optimise_mcmc_settings_floor demo_perform_mcmc tt [tt] tt tt
              (SeqArray _) (FArray _) _ H) as (a & b & Ea & Eb & Hfloor).
  injection Ea as <-. injection Eb as <-.
  eexists _, _, _. split; [exact H|exact Hfloor].
Defined.

Lemma inverse_positions_is_inverse_witness :
  inverse_positions [2; 0; 1] = Py.Ok [1; 2; 0]
  ∧ inverse_positions [1; 2; 0] = Py.Ok [2; 0; 1].
Proof.
  assert ([2; 0; 1] ≡ₚ Py.range 3) as Hperm.
  { change ([2] ++ [0; 1] ≡ₚ [0; 1] ++ [2]). apply Permutation_app_comm. }
  destruct (inverse_positions_is_inverse [2; 0; 1] 3 Hperm)
    as (temp_inv & H1 & _ & _ & H2).
  assert (inverse_positions [2; 0; 1] = Py.Ok [1; 2; 0]) as H1' by reflexivity.
  rewrite H1' in H1. injection H1 as <-. by split.
Defined.

(** A sampler over two stages and one subtype whose chain stays where it is. *)
Definition frozen_perform_mcmc (_ : unit) (_ : list unit) (_ : unit) (n : nat)
    (_ : seq_sigma) (_ : f_sigma) (g : unit)
  : list (list (list nat)) * list (list R) * unit :=
  ([[replicate n 0; replicate n 1]], [replicate n (/ 2)%R], g).

Lemma nth_replicate_lt {A} (d x : A) n t : t < n → nth t (replicate n x) d = x.
Proof. intros Ht. apply nth_lookup_Some. by apply lookup_replicate_2. Qed.

Lemma frozen_perform_mcmc_well_formed :
  well_formed_chains frozen_perform_mcmc tt [tt] tt 2.
Proof.
  intros σ φ g. unfold frozen_perform_mcmc. cbn [fst snd]. split.
  - split; [done|]. split.
    + repeat constructor; apply length_replicate.
    + intros s t Hs Ht. destruct s as [|s]; [|cbn in Hs; lia].
      unfold draw. cbn [nth fmap list_fmap].
      by rewrite !nth_replicate_lt by done.
  - repeat constructor; apply length_replicate.
Qed.

Lemma frozen_perform_mcmc_frozen : frozen_chains frozen_perform_mcmc tt [tt] tt.
Proof.
  intros σ φ g s t. unfold frozen_perform_mcmc. cbn [fst snd].
  pose proof n_iterations_MCMC_optimisation_pos as Hn.
  intros Ht. unfold draw. destruct s as [|[|s]]; [|done|done].
  cbn [nth fmap list_fmap]. by rewrite !nth_replicate_lt by done.
Qed.

Lemma optimise_mcmc_settings_frozen_witness :
  ∃ a b g',
    optimise_mcmc_settings frozen_perform_mcmc tt [tt] tt tt
    = Py.Ok (SeqArray a, FArray b, g')
    ∧ Forall (Forall (λ x, x = 0.01%R)) a.
Proof.
  exact (optimise_mcmc_settings_frozen frozen_perform_mcmc tt [tt] tt 2 tt
           frozen_perform_mcmc_well_formed frozen_perform_mcmc_frozen).
Defined.

End Tuner.


(** ** The static helpers: [calc_coeff] and [calc_exp]

    Over exact real arithmetic. *)

Module Static.

Local Open Scope R_scope.

(** [1. / np.sqrt(np.pi * 2.0) * sig]: the division and the multiplication
    associate to the left. *)
Definition calc_coeff (sig : R) : R := 1 / sqrt (PI * 2) * sig.

(** [x = (x - mu) / sig; return np.exp(-.5 * x * x)], with the operations of
    the reals: [np.exp] in binary64 rounds, and underflows to 0 far from
    [mu]. *)
Definition calc_exp (x mu sig : R) : R :=
  let x := (x - mu) / sig in
  exp (- 0.5 * x * x).

(** The density of the normal distribution with mean [mu] and standard
    deviation [sig]. *)
Definition normal_density (x mu sig : R) : R :=
  / (sig * sqrt (2 * PI)) * exp (- ((x - mu) * (x - mu)) / (2 * (sig * sig))).

Lemma sqrt_2PI_pos : 0 < sqrt (2 * PI).
Proof. apply sqrt_lt_R0. pose proof PI_RGT_0. lra. Qed.

(** X23. [calc_coeff(sig)] is [sig / sqrt(2 pi)], proportional to [sig]: it is
    the normalising constant [1 / (sig sqrt(2 pi))] of the normal density only
    when [sig * sig = 1], and [calc_coeff(sig) * calc_exp(x, mu, sig)] is the
    normal density multiplied by [sig * sig]. *)
Theorem calc_coeff_times_sig x mu sig :
  sig ≠ 0 →
  calc_coeff sig = sig / sqrt (2 * PI)
  ∧ (calc_coeff sig = / (sig * sqrt (2 * PI)) ↔ sig * sig = 1)
  ∧ calc_coeff sig * calc_exp x mu sig = sig * sig * normal_density x mu sig.
Proof.
  intros Hsig. pose proof sqrt_2PI_pos as Hpos.
  assert (sqrt (2 * PI) ≠ 0) as Hne by lra.
  unfold calc_coeff, calc_exp, normal_density. cbv zeta.
  rewrite (Rmult_comm PI 2). split; [field; done|]. split; [split|].
  - intros H.
    assert (1 / sqrt (2 * PI) * sig * (sig * sqrt (2 * PI))
            = / (sig * sqrt (2 * PI)) * (sig * sqrt (2 * PI))) as E
      by (by rewrite H).
    field_simplify in E; [|done|done]. lra.
  - intros H. apply (Rmult_eq_reg_r (sig * sqrt (2 * PI))).
    + field_simplify; [|done|done]. lra.
    + by apply Rmult_integral_contrapositive_currified.
  - replace (- 0.5 * ((x - mu) / sig) * ((x - mu) / sig))
      with (- ((x - mu) * (x - mu)) / (2 * (sig * sig)))
      by (replace (-0.5) with (- / 2) by lra; field; done).
    field. done.
Qed.

Lemma calc_coeff_times_sig_witness :
  calc_coeff 2 = 2 / sqrt (2 * PI)
  ∧ calc_coeff 2 * calc_exp 3 1 2 = 2 * 2 * normal_density 3 1 2.
Proof.
  destruct (calc_coeff_times_sig 3 1 2 ltac:(lra)) as (H1 & _ & H3).
  by split.
Defined.

End Static.
